(** * EDMS archiving frontend: the employee form, the search select and the proxy

    A shallow embedding of the client-side logic of the dashboard page
    (the [EmployeeForm] and [SearchableEmployeeSelect] components, and
    with them [SearchableNationalitySelect], [BulkAddModal],
    [DashboardPage] and [DashboardView]), of the login page and of the
    pass-through API route ([proxyHandler]), followed by the properties
    the specification states about them and by further properties of the
    same code.

    Conventions of the embedding:
    - a JavaScript [number] that holds an identifier is a [Z];
    - a JavaScript [string] is a [string] of UTF-8 bytes;
    - a [Set<number>] is a [gset Z];
    - React state is a record; an event handler is a function on it;
      a [useEffect] is a function applied after the renders that change
      one of its dependencies. *)

From Stdlib Require Import ZArith Ascii String List Bool Lia.
From Stdlib Require Import DecimalString DecimalPos DecimalZ.
From stdpp Require Import base decidable option list gmap strings.

Local Open Scope string_scope.
Local Open Scope list_scope.
Local Open Scope Z_scope.

(** ** JavaScript primitives used by the components *)

Module JS.

(** [Number.prototype.toString()] on an integer: the decimal numeral,
    with a leading minus sign for negative numbers. *)
Definition toString (n : Z) : string :=
  NilZero.string_of_int (Z.to_int n).

Definition isDigit (c : ascii) : bool :=
  let k := nat_of_ascii c in (48 <=? k)%nat && (k <=? 57)%nat.

(** White space skipped by [parseInt]: tab, line feed, vertical tab,
    form feed, carriage return and space. *)
Definition isSpace (c : ascii) : bool :=
  let k := nat_of_ascii c in
  ((9 <=? k)%nat && (k <=? 13)%nat) || (k =? 32)%nat.

Fixpoint trimStart (s : string) : string :=
  match s with
  | String c s' => if isSpace c then trimStart s' else s
  | EmptyString => EmptyString
  end.

(** The longest prefix of decimal digits. *)
Fixpoint digitsPrefix (s : string) : string :=
  match s with
  | String c s' => if isDigit c then String c (digitsPrefix s') else EmptyString
  | EmptyString => EmptyString
  end.

Definition parseDigits (s : string) : option Z :=
  match digitsPrefix s with
  | EmptyString => None
  | ds => option_map Z.of_uint (NilEmpty.uint_of_string ds)
  end.

(** [parseInt(s, 10)]: [None] stands for [NaN]. *)
Definition parseInt (s : string) : option Z :=
  match trimStart s with
  | String "-" s' => option_map Z.opp (parseDigits s')
  | String "+" s' => parseDigits s'
  | s' => parseDigits s'
  end.

(** [String.prototype.includes]: [needle] occurs in [hay]. *)
Fixpoint startsWith (needle hay : string) : bool :=
  match needle, hay with
  | EmptyString, _ => true
  | String a n', String b h' => Ascii.eqb a b && startsWith n' h'
  | String _ _, EmptyString => false
  end.

Fixpoint includes (needle hay : string) : bool :=
  startsWith needle hay ||
  match hay with
  | String _ h' => includes needle h'
  | EmptyString => false
  end.

(** [String.prototype.toLowerCase], on the ASCII letters.  The only use
    is a search for the ASCII word [other], and no character outside
    ASCII lower-cases to one of its letters. *)
Definition lowerChar (c : ascii) : ascii :=
  let k := nat_of_ascii c in
  if (65 <=? k)%nat && (k <=? 90)%nat then ascii_of_nat (k + 32) else c.

Fixpoint toLowerCase (s : string) : string :=
  match s with
  | String c s' => String (lowerChar c) (toLowerCase s')
  | EmptyString => EmptyString
  end.

(** Truthiness of a string and of a number. *)
Definition truthyStr (s : string) : bool :=
  match s with EmptyString => false | _ => true end.

Definition truthyNum (n : Z) : bool := negb (n =? 0)%Z.

(** [a || ''] on a value that is a string or [undefined]. *)
Definition orEmpty (o : option string) : string :=
  match o with
  | Some s => s
  | None => EmptyString
  end.

(** The double quote character. *)
Definition dquote : string := String (ascii_of_nat 34) EmptyString.

End JS.

(** ** The employee archive form ([EmployeeForm]) *)

Module EmployeeForm.

(** *** Type definitions *)

Record Status := {
  st_system_id : Z;
  name_english : string;
  name_arabic : string }.

Record DocType := {
  dt_system_id : Z;
  dt_name : string }.

Record DocumentTypesResponse := {
  all_types : list DocType;
  types_with_expiry : list DocType }.

Record ExistingDocument := {
  ed_system_id : Z;
  docnumber : Z;
  ed_expiry : option string;
  ed_doc_type_id : Z;
  ed_legislation_ids : list Z;
  doc_name : string;
  legislation_names : option (list string) }.

(** A browser [File]: its name and its MIME type. *)
Record File := {
  file_name : string;
  file_type : string }.

Record NewDocument := {
  doc_type_id : string;
  doc_type_name : string;
  file : option File;
  expiry : string;
  legislation_ids : list string }.

(** [formData.employee_id] starts as the empty string and is then
    overwritten with whatever the profile carries. *)
Inductive IdValue :=
| IdUndefined
| IdString (s : string)
| IdNumber (n : Z).

Definition truthyId (v : IdValue) : bool :=
  match v with
  | IdUndefined => false
  | IdString s => JS.truthyStr s
  | IdNumber n => JS.truthyNum n
  end.

Record FormData := {
  employee_id : IdValue;
  name_en : string;
  name_ar : string;
  employeeNumber : string;
  hireDate : string;
  jobTitle : string;
  nationality : string;
  email : string;
  phone : string;
  manager : string;
  department : string;
  section : string;
  status_id : string }.

(** The profile returned by [/api/hr_employees/{id}]; an absent field is
    [None]. *)
Record HrEmployeeDetails := {
  hr_system_id : IdValue;
  hr_fullname_en : option string;
  hr_fullname_ar : option string;
  hr_empno : option string;
  hr_job_name : option string;
  hr_department : option string;
  hr_section : option string;
  hr_email : option string;
  hr_mobile : option string;
  hr_supervisorname : option string;
  hr_nationality : option string }.

(** The component's props that the handlers read. *)
Record Props := {
  employeeToEditId : option Z;
  isViewer : bool }.

(** The component's [useState] cells. *)
Record State := {
  statuses : list Status;
  docTypes : DocumentTypesResponse;
  formData : FormData;
  existingDocuments : list ExistingDocument;
  newDocuments : list NewDocument;
  deletedDocIds : list Z;
  isSubmitting : bool;
  error : string;
  isFormLocked : bool }.

(** *** State setters *)

Definition setFormData (f : FormData -> FormData) (s : State) : State :=
  {| statuses := statuses s; docTypes := docTypes s;
     formData := f (formData s);
     existingDocuments := existingDocuments s;
     newDocuments := newDocuments s; deletedDocIds := deletedDocIds s;
     isSubmitting := isSubmitting s; error := error s;
     isFormLocked := isFormLocked s |}.

Definition setExistingDocuments
    (f : list ExistingDocument -> list ExistingDocument) (s : State) : State :=
  {| statuses := statuses s; docTypes := docTypes s; formData := formData s;
     existingDocuments := f (existingDocuments s);
     newDocuments := newDocuments s; deletedDocIds := deletedDocIds s;
     isSubmitting := isSubmitting s; error := error s;
     isFormLocked := isFormLocked s |}.

Definition setNewDocuments
    (f : list NewDocument -> list NewDocument) (s : State) : State :=
  {| statuses := statuses s; docTypes := docTypes s; formData := formData s;
     existingDocuments := existingDocuments s;
     newDocuments := f (newDocuments s); deletedDocIds := deletedDocIds s;
     isSubmitting := isSubmitting s; error := error s;
     isFormLocked := isFormLocked s |}.

Definition setDeletedDocIds (f : list Z -> list Z) (s : State) : State :=
  {| statuses := statuses s; docTypes := docTypes s; formData := formData s;
     existingDocuments := existingDocuments s;
     newDocuments := newDocuments s; deletedDocIds := f (deletedDocIds s);
     isSubmitting := isSubmitting s; error := error s;
     isFormLocked := isFormLocked s |}.

Definition setIsSubmitting (b : bool) (s : State) : State :=
  {| statuses := statuses s; docTypes := docTypes s; formData := formData s;
     existingDocuments := existingDocuments s;
     newDocuments := newDocuments s; deletedDocIds := deletedDocIds s;
     isSubmitting := b; error := error s;
     isFormLocked := isFormLocked s |}.

Definition setError (e : string) (s : State) : State :=
  {| statuses := statuses s; docTypes := docTypes s; formData := formData s;
     existingDocuments := existingDocuments s;
     newDocuments := newDocuments s; deletedDocIds := deletedDocIds s;
     isSubmitting := isSubmitting s; error := e;
     isFormLocked := isFormLocked s |}.

Definition setIsFormLocked (b : bool) (s : State) : State :=
  {| statuses := statuses s; docTypes := docTypes s; formData := formData s;
     existingDocuments := existingDocuments s;
     newDocuments := newDocuments s; deletedDocIds := deletedDocIds s;
     isSubmitting := isSubmitting s; error := error s;
     isFormLocked := b |}.

(** [{ ...prev, status_id: v }] *)
Definition withStatusId (v : string) (prev : FormData) : FormData :=
  {| employee_id := employee_id prev; name_en := name_en prev;
     name_ar := name_ar prev; employeeNumber := employeeNumber prev;
     hireDate := hireDate prev; jobTitle := jobTitle prev;
     nationality := nationality prev; email := email prev;
     phone := phone prev; manager := manager prev;
     department := department prev; section := section prev;
     status_id := v |}.

Definition emptyFormData : FormData :=
  {| employee_id := IdString ""; name_en := ""; name_ar := "";
     employeeNumber := ""; hireDate := ""; jobTitle := "";
     nationality := ""; email := ""; phone := ""; manager := "";
     department := ""; section := ""; status_id := "" |}.

(** The state of a freshly mounted form. *)
Definition initialState : State :=
  {| statuses := []; docTypes := {| all_types := []; types_with_expiry := [] |};
     formData := emptyFormData; existingDocuments := [];
     newDocuments := []; deletedDocIds := [];
     isSubmitting := false; error := ""; isFormLocked := true |}.

(** *** Memoised values *)

Definition has (X : gset Z) (n : option Z) : bool :=
  match n with
  | Some k => bool_decide (k ∈ X)
  | None => false
  end.

Definition expiryDocTypeIds (s : State) : gset Z :=
  list_to_set (map dt_system_id (types_with_expiry (docTypes s))).

Definition isWarrantDecision (dt : DocType) : bool :=
  JS.includes "Warrant Decisions" (dt_name dt)
  || JS.includes "القرارات الخاصة بالضبطية" (dt_name dt).

Definition isJudicialCard (dt : DocType) : bool :=
  JS.includes "Judicial Card" (dt_name dt)
  || JS.includes "بطاقة الضبطية" (dt_name dt).

Definition warrantDecisionDocTypeId (s : State) : option Z :=
  option_map dt_system_id (List.find isWarrantDecision (all_types (docTypes s))).

Definition judicialCardDocTypeId (s : State) : option Z :=
  option_map dt_system_id (List.find isJudicialCard (all_types (docTypes s))).

(** *** The derived-status effect *)

Definition hasJudicialCard (j : Z) (s : State) : bool :=
  let allJudicialCardDocs : nat :=
    (length (List.filter (fun doc => ed_doc_type_id doc =? j)%Z
                         (existingDocuments s))
     + length (List.filter (fun doc => String.eqb (doc_type_id doc) (JS.toString j))
                           (newDocuments s)))%nat in
  (0 <? allJudicialCardDocs)%nat.

Definition findStatus (name : string) (s : State) : option Status :=
  List.find (fun st => String.eqb (name_english st) name) (statuses s).

Definition derivedStatusEffect (s : State) : State :=
  if isFormLocked s then s else
  match judicialCardDocTypeId s with
  | None => s
  | Some j =>
    if negb (JS.truthyNum j) || (length (statuses s) =? 0)%nat then s else
    let activeStatus := findStatus "Active" s in
    let inactiveStatus := findStatus "Inactive" s in
    if hasJudicialCard j s then
      match activeStatus with
      | Some a => setFormData (withStatusId (JS.toString (st_system_id a))) s
      | None => s
      end
    else
      match inactiveStatus with
      | Some i => setFormData (withStatusId (JS.toString (st_system_id i))) s
      | None => s
      end
  end.

(** *** Choosing the base identity *)

Definition seedFromProfile (details : HrEmployeeDetails) : FormData :=
  {| employee_id := hr_system_id details;
     name_en := JS.orEmpty (hr_fullname_en details);
     name_ar := JS.orEmpty (hr_fullname_ar details);
     employeeNumber := JS.orEmpty (hr_empno details);
     jobTitle := JS.orEmpty (hr_job_name details);
     department := JS.orEmpty (hr_department details);
     section := JS.orEmpty (hr_section details);
     email := JS.orEmpty (hr_email details);
     phone := JS.orEmpty (hr_mobile details);
     manager := JS.orEmpty (hr_supervisorname details);
     nationality := JS.orEmpty (hr_nationality details);
     hireDate := ""; status_id := "" |}.

(** [handleEmployeeSelect].  [profile] is what the awaited fetch of
    [/api/hr_employees/{employeeId}] yields: [None] when the fetch or the
    decoding of its body rejects, in which case nothing after the [await]
    runs. *)
Definition handleEmployeeSelect
    (profile : string -> option HrEmployeeDetails)
    (employeeId : string) (s : State) : State :=
  if negb (JS.truthyStr employeeId) then setIsFormLocked true s else
  match profile employeeId with
  | None => s
  | Some details =>
    setIsFormLocked false (setFormData (fun _ => seedFromProfile details) s)
  end.

(** *** Attachment rows *)

Definition emptyNewDocument : NewDocument :=
  {| doc_type_id := ""; doc_type_name := ""; file := None; expiry := "";
     legislation_ids := [] |}.

Definition addNewDocumentRow (s : State) : State :=
  setNewDocuments (fun prev => prev ++ [emptyNewDocument]) s.

(** The arguments [(field, value)] with which the rendered controls call
    [handleNewDocumentChange]: the file input passes the chosen [File] or
    nothing, the type select and the date input pass a string, a
    legislation check box passes the legislation id as a string. *)
Inductive Change :=
| ChangeFile (value : option File)
| ChangeLegislation (value : string)
| ChangeDocTypeId (value : string)
| ChangeExpiry (value : string).

Definition allowedTypes : list string :=
  ["image/jpeg"; "image/png"; "application/pdf"].

(** [l.includes(x) ? l.filter(id => id !== x) : [...l, x]] *)
Definition toggleMember {A : Type} (eqb : A -> A -> bool) (x : A) (l : list A)
  : list A :=
  if existsb (eqb x) l
  then List.filter (fun id => negb (eqb id x)) l
  else l ++ [x].

Definition withFile (f : File) (doc : NewDocument) : NewDocument :=
  {| doc_type_id := doc_type_id doc; doc_type_name := doc_type_name doc;
     file := Some f; expiry := expiry doc;
     legislation_ids := legislation_ids doc |}.

Definition withLegislationIds (l : list string) (doc : NewDocument) : NewDocument :=
  {| doc_type_id := doc_type_id doc; doc_type_name := doc_type_name doc;
     file := file doc; expiry := expiry doc; legislation_ids := l |}.

Definition withExpiry (v : string) (doc : NewDocument) : NewDocument :=
  {| doc_type_id := doc_type_id doc; doc_type_name := doc_type_name doc;
     file := file doc; expiry := v; legislation_ids := legislation_ids doc |}.

Definition findDocType (s : State) (value : string) : option DocType :=
  List.find (fun dt => String.eqb (JS.toString (dt_system_id dt)) value)
            (all_types (docTypes s)).

(** [doc_type_id !== warrantDecisionDocTypeId?.toString()] *)
Definition isWarrantDecisionValue (s : State) (value : string) : bool :=
  match warrantDecisionDocTypeId s with
  | Some w => String.eqb value (JS.toString w)
  | None => false
  end.

Definition withDocTypeId (s : State) (value : string) (doc : NewDocument)
  : NewDocument :=
  {| doc_type_id := value;
     doc_type_name :=
       match findDocType s value with
       | Some selectedDocType => dt_name selectedDocType
       | None => ""
       end;
     file := file doc; expiry := expiry doc;
     legislation_ids :=
       if isWarrantDecisionValue s value then legislation_ids doc else [] |}.

(** [newDocs[index]] is mutated and the copy is stored.  The row object is
    shared with the array of the previous render, which no handler reads
    again once the copy is stored.  When [index] is out of range the first
    property access on [doc] throws and the list is not stored. *)
Definition updateDoc (index : nat) (f : NewDocument -> NewDocument) (s : State)
  : State :=
  match newDocuments s !! index with
  | Some doc => setNewDocuments (fun _ => <[index := f doc]> (newDocuments s)) s
  | None => s
  end.

Definition handleNewDocumentChange (index : nat) (ch : Change) (s : State)
  : State :=
  let s := setError "" s in
  match ch with
  | ChangeFile (Some value) =>
    if negb (existsb (String.eqb (file_type value)) allowedTypes)
    then setError
           "Invalid file type. Please upload only images (JPG, PNG) or PDF files." s
    else updateDoc index (withFile value) s
  | ChangeFile None => s
  | ChangeLegislation value =>
    updateDoc index
      (fun doc => withLegislationIds
                    (toggleMember String.eqb value (legislation_ids doc)) doc) s
  | ChangeDocTypeId value => updateDoc index (withDocTypeId s value) s
  | ChangeExpiry value => updateDoc index (withExpiry value) s
  end.

Definition withExistingLegislationIds (l : list Z) (doc : ExistingDocument)
  : ExistingDocument :=
  {| ed_system_id := ed_system_id doc; docnumber := docnumber doc;
     ed_expiry := ed_expiry doc; ed_doc_type_id := ed_doc_type_id doc;
     ed_legislation_ids := l; doc_name := doc_name doc;
     legislation_names := legislation_names doc |}.

Definition handleExistingDocLegislationChange
    (docSystemId legislationId : Z) (s : State) : State :=
  setExistingDocuments
    (map (fun doc =>
            if (ed_system_id doc =? docSystemId)%Z
            then withExistingLegislationIds
                   (toggleMember Z.eqb legislationId (ed_legislation_ids doc)) doc
            else doc)) s.

(** [prev.filter((_, i) => i !== index)], with [i] counted from [from]. *)
Fixpoint filterIndexFrom {A : Type} (from index : nat) (l : list A) : list A :=
  match l with
  | [] => []
  | x :: l' =>
    if (from =? index)%nat then filterIndexFrom (S from) index l'
    else x :: filterIndexFrom (S from) index l'
  end.

Definition removeNewDocumentRow (index : nat) (s : State) : State :=
  setNewDocuments (filterIndexFrom 0 index) s.

Definition handleDeleteExistingDoc (docId : Z) (s : State) : State :=
  setDeletedDocIds (fun prev => prev ++ [docId])
    (setExistingDocuments
       (List.filter (fun doc => negb (ed_system_id doc =? docId)%Z)) s).

(** *** Submission *)

Definition basePath : string := "/PTAARCHIVING".

(** [!!employeeToEditId] *)
Definition isEditMode (p : Props) : bool :=
  match employeeToEditId p with
  | Some n => JS.truthyNum n
  | None => false
  end.

(** The template literal [`${docType?.name}`]. *)
Definition docTypeNameText (docType : option DocType) : string :=
  match docType with
  | Some t => dt_name t
  | None => "undefined"
  end.

Definition expiryRequiredMessage (docType : option DocType) : string :=
  "Expiry date is required for document type " +:+ JS.dquote
    +:+ docTypeNameText docType +:+ JS.dquote +:+ ".".

(** One iteration of the validation loop: the message to report, if the
    row is in violation. *)
Definition expiryViolation (s : State) (doc : NewDocument) : option string :=
  if JS.truthyStr (doc_type_id doc) then
    let docType := findDocType s (doc_type_id doc) in
    if has (expiryDocTypeIds s) (JS.parseInt (doc_type_id doc))
       && negb (JS.truthyStr (expiry doc))
    then Some (expiryRequiredMessage docType)
    else None
  else None.

Fixpoint firstExpiryViolation (s : State) (docs : list NewDocument)
  : option string :=
  match docs with
  | [] => None
  | doc :: rest =>
    match expiryViolation s doc with
    | Some msg => Some msg
    | None => firstExpiryViolation s rest
    end
  end.

(** A value appended to the multipart body.  The three JSON texts are
    kept as the values that [JSON.stringify] is applied to. *)
Inductive FormValue :=
| FvFormData (d : FormData)
| FvFile (f : File)
| FvString (v : string)
| FvIds (ids : list Z)
| FvUpdated (docs : list (Z * list Z)).

Definition newDocumentKey (index : nat) (field : string) : string :=
  "new_documents[" +:+ JS.toString (Z.of_nat index) +:+ "][" +:+ field +:+ "]".

(** The body of the [newDocuments.forEach] callback. *)
Definition newDocumentEntries (index : nat) (doc : NewDocument)
  : list (string * FormValue) :=
  match file doc with
  | Some f =>
    if JS.truthyStr (doc_type_id doc) then
      [ (newDocumentKey index "file", FvFile f);
        (newDocumentKey index "doc_type_id", FvString (doc_type_id doc));
        (newDocumentKey index "doc_type_name", FvString (doc_type_name doc));
        (newDocumentKey index "expiry", FvString (expiry doc)) ]
      ++ map (fun legId =>
                (newDocumentKey index "legislation_ids" +:+ "[]", FvString legId))
             (legislation_ids doc)
    else []
  | None => []
  end.

Definition updatedDocs (s : State) : list (Z * list Z) :=
  map (fun doc => (ed_system_id doc, ed_legislation_ids doc))
      (List.filter
         (fun doc =>
            match warrantDecisionDocTypeId s with
            | Some w => (ed_doc_type_id doc =? w)%Z
            | None => false
            end)
         (existingDocuments s)).

Definition submissionData (p : Props) (s : State) : list (string * FormValue) :=
  [ ("employee_data", FvFormData (formData s)) ]
  ++ concat (imap newDocumentEntries (newDocuments s))
  ++ [ ("deleted_documents", FvIds (deletedDocIds s)) ]
  ++ (if isEditMode p then [ ("updated_documents", FvUpdated (updatedDocs s)) ]
      else []).

Record Request := {
  url : string;
  method : string;
  body : list (string * FormValue) }.

Definition submitRequest (p : Props) (s : State) : Request :=
  {| url :=
       match employeeToEditId p with
       | Some n =>
         if JS.truthyNum n then basePath +:+ "/api/employees/" +:+ JS.toString n
         else basePath +:+ "/api/employees"
       | None => basePath +:+ "/api/employees"
       end;
     method := if isEditMode p then "PUT" else "POST";
     body := submissionData p s |}.

(** [handleSubmit] up to its [await]: the next state and the request
    that is sent, if any. *)
Definition handleSubmit (p : Props) (s : State) : State * option Request :=
  if isViewer p then (s, None) else
  let s := setError "" s in
  if negb (truthyId (employee_id (formData s)))
  then (setError "An employee must be selected." s, None)
  else
    match firstExpiryViolation s (newDocuments s) with
    | Some msg => (setError msg s, None)
    | None => (setIsSubmitting true s, Some (submitRequest p s))
    end.

(** [handleSubmit] after its [await], for a response that is not [ok]:
    [result.error || 'An error occurred.']. *)
Definition handleSubmitFailed (resultError : option string) (s : State) : State :=
  setIsSubmitting false
    (setError
       (match resultError with
        | Some e => if JS.truthyStr e then e else "An error occurred."
        | None => "An error occurred."
        end) s).

(** *** Which document types a row may still choose *)

Definition otherDocTypeName : string := "other".

Definition usedDocTypeIds (s : State) : gset Z :=
  let usedNonOtherTypes :=
    fold_left
      (fun used doc =>
         if negb (JS.includes otherDocTypeName (JS.toLowerCase (doc_name doc)))
         then {[ ed_doc_type_id doc ]} ∪ used
         else used)
      (existingDocuments s) ∅ in
  fold_left
    (fun used doc =>
       match JS.parseInt (doc_type_id doc) with
       | Some docTypeId =>
         if JS.truthyNum docTypeId
            && negb (JS.includes otherDocTypeName
                                 (JS.toLowerCase (doc_type_name doc)))
         then {[ docTypeId ]} ∪ used
         else used
       | None => used
       end)
    (newDocuments s) usedNonOtherTypes.

(** The [disabled] attribute of the option for [type] in the type select
    of the row [doc]. *)
Definition optionDisabled (s : State) (type : DocType) (doc : NewDocument) : bool :=
  bool_decide (dt_system_id type ∈ usedDocTypeIds s)
  && negb (String.eqb (JS.toString (dt_system_id type)) (doc_type_id doc)).

(** *** The form as a transition system

    One [Action] per event the mounted form reacts to: the answers of the
    fetches started on mount, and the handlers wired to the rendered
    controls. *)

Inductive InputName :=
| HireDate | JobTitle | Email | Phone | Manager | Department | Section.

(** [{ ...prev, [e.target.name]: e.target.value }] *)
Definition withInput (name : InputName) (value : string) (prev : FormData)
  : FormData :=
  let pick (n : InputName) (old : string) : string :=
    match name, n with
    | HireDate, HireDate | JobTitle, JobTitle | Email, Email | Phone, Phone
    | Manager, Manager | Department, Department | Section, Section => value
    | _, _ => old
    end in
  {| employee_id := employee_id prev; name_en := name_en prev;
     name_ar := name_ar prev; employeeNumber := employeeNumber prev;
     hireDate := pick HireDate (hireDate prev);
     jobTitle := pick JobTitle (jobTitle prev);
     nationality := nationality prev;
     email := pick Email (email prev);
     phone := pick Phone (phone prev);
     manager := pick Manager (manager prev);
     department := pick Department (department prev);
     section := pick Section (section prev);
     status_id := status_id prev |}.

Definition handleInputChange (name : InputName) (value : string) (s : State)
  : State := setFormData (withInput name value) s.

Definition withNationality (value : string) (prev : FormData) : FormData :=
  {| employee_id := employee_id prev; name_en := name_en prev;
     name_ar := name_ar prev; employeeNumber := employeeNumber prev;
     hireDate := hireDate prev; jobTitle := jobTitle prev;
     nationality := value; email := email prev;
     phone := phone prev; manager := manager prev;
     department := department prev; section := section prev;
     status_id := status_id prev |}.

Definition handleNationalityChange (value : string) (s : State) : State :=
  setFormData (withNationality value) s.

Definition setStatuses (l : list Status) (s : State) : State :=
  {| statuses := l; docTypes := docTypes s; formData := formData s;
     existingDocuments := existingDocuments s;
     newDocuments := newDocuments s; deletedDocIds := deletedDocIds s;
     isSubmitting := isSubmitting s; error := error s;
     isFormLocked := isFormLocked s |}.

Definition setDocTypes (d : DocumentTypesResponse) (s : State) : State :=
  {| statuses := statuses s; docTypes := d; formData := formData s;
     existingDocuments := existingDocuments s;
     newDocuments := newDocuments s; deletedDocIds := deletedDocIds s;
     isSubmitting := isSubmitting s; error := error s;
     isFormLocked := isFormLocked s |}.

(** The answer of [/api/employees/{id}] applied to the form: [data] is
    the form data built from the record, [documents] is
    [details.documents || []]. *)
Definition hydrate (data : FormData) (documents : list ExistingDocument)
    (s : State) : State :=
  setExistingDocuments (fun _ => documents) (setFormData (fun _ => data) s).

Inductive Action :=
| LoadStatuses (l : list Status)
| LoadDocTypes (d : DocumentTypesResponse)
| Hydrate (data : FormData) (documents : list ExistingDocument)
| EmployeeSelect (employeeId : string) (profile : option HrEmployeeDetails)
| InputChange (name : InputName) (value : string)
| NationalityChange (value : string)
| AddNewDocumentRow
| NewDocumentChange (index : nat) (ch : Change)
| RemoveNewDocumentRow (index : nat)
| ExistingDocLegislationChange (docSystemId legislationId : Z)
| DeleteExistingDoc (docId : Z)
| Submit
| SubmitFailed (resultError : option string).

Definition act (p : Props) (a : Action) (s : State) : State :=
  match a with
  | LoadStatuses l => setStatuses l s
  | LoadDocTypes d => setDocTypes d s
  | Hydrate data documents => hydrate data documents s
  | EmployeeSelect employeeId profile =>
    handleEmployeeSelect (fun _ => profile) employeeId s
  | InputChange name value => handleInputChange name value s
  | NationalityChange value => handleNationalityChange value s
  | AddNewDocumentRow => addNewDocumentRow s
  | NewDocumentChange index ch => handleNewDocumentChange index ch s
  | RemoveNewDocumentRow index => removeNewDocumentRow index s
  | ExistingDocLegislationChange docSystemId legislationId =>
    handleExistingDocLegislationChange docSystemId legislationId s
  | DeleteExistingDoc docId => handleDeleteExistingDoc docId s
  | Submit => fst (handleSubmit p s)
  | SubmitFailed resultError => handleSubmitFailed resultError s
  end.

(** [warrantDecisionDocTypeId && id === warrantDecisionDocTypeId] *)
Definition isWarrantDecisionExisting (s : State) (doc : ExistingDocument) : bool :=
  match warrantDecisionDocTypeId s with
  | Some w => JS.truthyNum w && (ed_doc_type_id doc =? w)%Z
  | None => false
  end.

Definition isWarrantDecisionNew (s : State) (doc : NewDocument) : bool :=
  match warrantDecisionDocTypeId s with
  | Some w => JS.truthyNum w && String.eqb (doc_type_id doc) (JS.toString w)
  | None => false
  end.

(** The values the type select of the row [doc] lets the user pick: the
    placeholder, and every option that is not disabled. *)
Definition selectable (s : State) (doc : NewDocument) (value : string) : bool :=
  String.eqb value ""
  || existsb (fun type => String.eqb (JS.toString (dt_system_id type)) value
                          && negb (optionDisabled s type doc))
             (all_types (docTypes s)).

(** Whether the rendered form offers the control behind an action. *)
Definition offered (p : Props) (s : State) (a : Action) : bool :=
  let editable := negb (isViewer p) && negb (isFormLocked s) in
  match a with
  | LoadStatuses _ | LoadDocTypes _ => true
  | Hydrate _ _ => isEditMode p
  | EmployeeSelect employeeId _ =>
    negb (isEditMode p) && negb (isViewer p) && JS.truthyStr employeeId
  | InputChange _ _ | NationalityChange _ | AddNewDocumentRow => editable
  | NewDocumentChange index ch =>
    editable &&
    match newDocuments s !! index with
    | Some doc =>
      match ch with
      | ChangeDocTypeId value => selectable s doc value
      | ChangeLegislation _ => isWarrantDecisionNew s doc
      | ChangeFile _ | ChangeExpiry _ => true
      end
    | None => false
    end
  | RemoveNewDocumentRow index =>
    editable && (index <? length (newDocuments s))%nat
  | ExistingDocLegislationChange docSystemId _ =>
    editable && isEditMode p &&
    existsb (fun doc => (ed_system_id doc =? docSystemId)%Z
                        && isWarrantDecisionExisting s doc)
            (existingDocuments s)
  | DeleteExistingDoc docId =>
    editable && isEditMode p &&
    existsb (fun doc => (ed_system_id doc =? docId)%Z) (existingDocuments s)
  | Submit => negb (isViewer p) && negb (isSubmitting s || isFormLocked s)
  | SubmitFailed _ => isSubmitting s
  end.

(** Whether a dependency of the derived-status effect is replaced by the
    action: the two document arrays (any call of their setters stores a
    fresh array), the status catalogue, the judicial-card type id and the
    lock. *)
Definition effectDepsChanged (a : Action) (s s' : State) : bool :=
  match a with
  | LoadStatuses _ | Hydrate _ _ | AddNewDocumentRow | RemoveNewDocumentRow _
  | ExistingDocLegislationChange _ _ | DeleteExistingDoc _ => true
  | LoadDocTypes _ =>
    negb (bool_decide (judicialCardDocTypeId s = judicialCardDocTypeId s'))
  | EmployeeSelect _ _ => negb (Bool.eqb (isFormLocked s) (isFormLocked s'))
  | NewDocumentChange index ch =>
    match ch with
    | ChangeFile None => true
    | ChangeFile (Some value) =>
      existsb (String.eqb (file_type value)) allowedTypes
      && bool_decide (is_Some (newDocuments s !! index))
    | _ => bool_decide (is_Some (newDocuments s !! index))
    end
  | InputChange _ _ | NationalityChange _ | Submit | SubmitFailed _ => false
  end.

(** An event, the render that follows it, and the effect. *)
Definition dispatch (p : Props) (s : State) (a : Action) : State :=
  if offered p s a then
    let s' := act p a s in
    if effectDepsChanged a s s' then derivedStatusEffect s' else s'
  else s.

Definition run (p : Props) (actions : list Action) (s : State) : State :=
  fold_left (dispatch p) actions s.

(** The form after its first render and mount effect. *)
Definition mount (p : Props) : State :=
  if isEditMode p then setIsFormLocked false initialState else initialState.

End EmployeeForm.

(** ** The searchable employee drop-down ([SearchableEmployeeSelect])

    The component is embedded as a transition system over explicit time.
    [state] holds the [useState] cells with every queued update applied;
    [rendered] holds them as of the last render, which is what the closures
    of the handlers and [loadingStatusRef.current] read.  A render shows
    every update queued so far.  The open/closed cell of the list and the
    blur timer are left out: a [Scroll] event stands for a scroll of the
    open list to within the threshold of its bottom. *)

Module SearchableEmployeeSelect.

Record HrEmployee := {
  system_id : Z;
  fullname_en : string;
  fullname_ar : string;
  empno : string }.

Record ApiHrResponse := {
  resp_employees : list HrEmployee;
  resp_hasMore : bool }.

Record Cells := {
  employees : list HrEmployee;
  searchTerm : string;
  page : Z;
  hasMore : bool;
  isLoading : bool }.

(** How the promise returned by [fetch(...).then(res => res.json())]
    settles: with the decoded body, or with an error of the given
    [name]. *)
Inductive Outcome :=
| Fulfilled (data : ApiHrResponse)
| Rejected (name : string).

(** A request that has been issued and has not settled yet.  [aborted]
    records that [abort()] was called on its controller. *)
Record Fetch := {
  fetch_id : nat;
  currentSearch : string;
  currentPage : Z;
  isNewSearch : bool;
  aborted : bool }.

Record Component := {
  disabled : bool;
  mounted : bool;
  state : Cells;
  rendered : Cells;
  now : Z;
  timer : option (Z * string);
  fetchController : option nat;
  inFlight : list Fetch;
  nextFetchId : nat;
  requests : list (string * Z);
  console : list string;
  selections : list string }.

Definition initialCells : Cells :=
  {| employees := []; searchTerm := ""; page := 1; hasMore := true;
     isLoading := false |}.

(** The quiet period of the debounce, in milliseconds. *)
Definition quietPeriod : Z := 300.

(** The component after its first render at time [t0]: the debounce
    effect has armed its timer for the empty search term. *)
Definition init (isDisabled : bool) (t0 : Z) : Component :=
  {| disabled := isDisabled; mounted := true;
     state := initialCells; rendered := initialCells;
     now := t0; timer := Some (t0 + quietPeriod, "");
     fetchController := None; inFlight := []; nextFetchId := 0%nat;
     requests := []; console := []; selections := [] |}.

(** *** Setters *)

Definition setEmployees (f : list HrEmployee -> list HrEmployee) (x : Cells) : Cells :=
  {| employees := f (employees x); searchTerm := searchTerm x; page := page x;
     hasMore := hasMore x; isLoading := isLoading x |}.

Definition setSearchTerm (v : string) (x : Cells) : Cells :=
  {| employees := employees x; searchTerm := v; page := page x;
     hasMore := hasMore x; isLoading := isLoading x |}.

Definition setPage (v : Z) (x : Cells) : Cells :=
  {| employees := employees x; searchTerm := searchTerm x; page := v;
     hasMore := hasMore x; isLoading := isLoading x |}.

Definition setHasMore (v : bool) (x : Cells) : Cells :=
  {| employees := employees x; searchTerm := searchTerm x; page := page x;
     hasMore := v; isLoading := isLoading x |}.

Definition setIsLoading (v : bool) (x : Cells) : Cells :=
  {| employees := employees x; searchTerm := searchTerm x; page := page x;
     hasMore := hasMore x; isLoading := v |}.

(** Queue an update of the cells. *)
Definition update (f : Cells -> Cells) (c : Component) : Component :=
  {| disabled := disabled c; mounted := mounted c;
     state := f (state c); rendered := rendered c;
     now := now c; timer := timer c;
     fetchController := fetchController c; inFlight := inFlight c;
     nextFetchId := nextFetchId c; requests := requests c;
     console := console c; selections := selections c |}.

Definition setTimer (t : option (Z * string)) (c : Component) : Component :=
  {| disabled := disabled c; mounted := mounted c;
     state := state c; rendered := rendered c;
     now := now c; timer := t;
     fetchController := fetchController c; inFlight := inFlight c;
     nextFetchId := nextFetchId c; requests := requests c;
     console := console c; selections := selections c |}.

Definition setNow (t : Z) (c : Component) : Component :=
  {| disabled := disabled c; mounted := mounted c;
     state := state c; rendered := rendered c;
     now := t; timer := timer c;
     fetchController := fetchController c; inFlight := inFlight c;
     nextFetchId := nextFetchId c; requests := requests c;
     console := console c; selections := selections c |}.

Definition setInFlight (l : list Fetch) (c : Component) : Component :=
  {| disabled := disabled c; mounted := mounted c;
     state := state c; rendered := rendered c;
     now := now c; timer := timer c;
     fetchController := fetchController c; inFlight := l;
     nextFetchId := nextFetchId c; requests := requests c;
     console := console c; selections := selections c |}.

Definition logError (msg : string) (c : Component) : Component :=
  {| disabled := disabled c; mounted := mounted c;
     state := state c; rendered := rendered c;
     now := now c; timer := timer c;
     fetchController := fetchController c; inFlight := inFlight c;
     nextFetchId := nextFetchId c; requests := requests c;
     console := console c ++ [msg]; selections := selections c |}.

(** *** [fetchEmployees] *)

Definition abort (f : Fetch) : Fetch :=
  {| fetch_id := fetch_id f; currentSearch := currentSearch f;
     currentPage := currentPage f; isNewSearch := isNewSearch f;
     aborted := true |}.

(** [if (fetchController.current) fetchController.current.abort()] *)
Definition abortCurrent (c : Component) : list Fetch :=
  match fetchController c with
  | Some id =>
    map (fun f => if (fetch_id f =? id)%nat then abort f else f) (inFlight c)
  | None => inFlight c
  end.

Definition fetchEmployees (search : string) (pageNumber : Z) (newSearch : bool)
    (c : Component) : Component :=
  if isLoading (rendered c) || (negb (hasMore (rendered c)) && negb newSearch)
  then c
  else
    {| disabled := disabled c; mounted := mounted c;
       state := setIsLoading true (state c); rendered := rendered c;
       now := now c; timer := timer c;
       fetchController := Some (nextFetchId c);
       inFlight :=
         abortCurrent c
         ++ [ {| fetch_id := nextFetchId c; currentSearch := search;
                 currentPage := pageNumber; isNewSearch := newSearch;
                 aborted := false |} ];
       nextFetchId := S (nextFetchId c);
       requests := requests c ++ [ (search, pageNumber) ];
       console := console c; selections := selections c |}.

(** *** Events *)

Inductive Event :=
| Tick (t : Z)
| Render
| Change (value : string)
| Scroll
| Select (employee : HrEmployee)
| Settle (id : nat) (outcome : Outcome)
| Unmount.

(** A render: the closures and the ref now see the current cells, and
    the debounce effect re-arms its timer when [searchTerm] changed. *)
Definition render (c : Component) : Component :=
  {| disabled := disabled c; mounted := mounted c;
     state := state c; rendered := state c;
     now := now c;
     timer :=
       if String.eqb (searchTerm (rendered c)) (searchTerm (state c))
       then timer c
       else Some (now c + quietPeriod, searchTerm (state c));
     fetchController := fetchController c; inFlight := inFlight c;
     nextFetchId := nextFetchId c; requests := requests c;
     console := console c; selections := selections c |}.

(** The callback of the debounce timer, for the search term the effect
    captured. *)
Definition timerCallback (term : string) (c : Component) : Component :=
  fetchEmployees term 1 true
    (update (fun x => setHasMore true (setPage 1 (setEmployees (fun _ => []) x))) c).

(** The clock reaches [t]: a timer that is due fires. *)
Definition tick (t : Z) (c : Component) : Component :=
  if (t <? now c)%Z then c else
  match timer c with
  | Some (deadline, term) =>
    if (deadline <=? t)%Z
    then timerCallback term (setTimer None (setNow t c))
    else setNow t c
  | None => setNow t c
  end.

Definition handleChange (value : string) (c : Component) : Component :=
  if disabled c then c else render (update (setSearchTerm value) c).

Definition handleScroll (c : Component) : Component :=
  if disabled c then c else
  if hasMore (rendered c) && negb (isLoading (rendered c)) then
    let nextPage := page (rendered c) + 1 in
    fetchEmployees (searchTerm (rendered c)) nextPage false
      (update (setPage nextPage) c)
  else c.

Definition selectionText (employee : HrEmployee) : string :=
  fullname_en employee +:+ " (" +:+ empno employee +:+ ")".

Definition handleSelect (employee : HrEmployee) (c : Component) : Component :=
  if disabled c then c else
  let c := update (setSearchTerm (selectionText employee)) c in
  render
    {| disabled := disabled c; mounted := mounted c;
       state := state c; rendered := rendered c;
       now := now c; timer := timer c;
       fetchController := fetchController c; inFlight := inFlight c;
       nextFetchId := nextFetchId c; requests := requests c;
       console := console c;
       selections := selections c ++ [ JS.toString (system_id employee) ] |}.

(** The promise of an aborted request rejects with an [AbortError],
    whatever the network delivered. *)
Definition observed (f : Fetch) (outcome : Outcome) : Outcome :=
  if aborted f then Rejected "AbortError" else outcome.

(** The [then] / [catch] / [finally] chain of one request.  The setters
    of an unmounted component do nothing. *)
Definition settleFetch (f : Fetch) (outcome : Outcome) (c : Component) : Component :=
  let apply (g : Cells -> Cells) (c : Component) :=
    if mounted c then update g c else c in
  let c :=
    match observed f outcome with
    | Fulfilled data =>
      apply (fun x =>
               setHasMore (resp_hasMore data)
                 (setEmployees
                    (fun prev => if isNewSearch f then resp_employees data
                                 else prev ++ resp_employees data) x)) c
    | Rejected name =>
      if negb (String.eqb name "AbortError") then logError "Fetch error:" c else c
    end in
  apply (setIsLoading false) c.

Definition settle (id : nat) (outcome : Outcome) (c : Component) : Component :=
  match List.find (fun f => (fetch_id f =? id)%nat) (inFlight c) with
  | Some f =>
    settleFetch f outcome
      (setInFlight (List.filter (fun g => negb (fetch_id g =? id)%nat) (inFlight c)) c)
  | None => c
  end.

(** Teardown: the cleanup of the debounce effect clears the timer. *)
Definition unmount (c : Component) : Component :=
  {| disabled := disabled c; mounted := false;
     state := state c; rendered := rendered c;
     now := now c; timer := None;
     fetchController := fetchController c; inFlight := inFlight c;
     nextFetchId := nextFetchId c; requests := requests c;
     console := console c; selections := selections c |}.

Definition step (c : Component) (e : Event) : Component :=
  match e with
  | Settle id outcome => settle id outcome c
  | _ =>
    if mounted c then
      match e with
      | Tick t => tick t c
      | Render => render c
      | Change value => handleChange value c
      | Scroll => handleScroll c
      | Select employee => handleSelect employee c
      | Unmount => unmount c
      | Settle _ _ => c
      end
    else
      match e with
      | Tick t => if (t <? now c)%Z then c else setNow t c
      | _ => c
      end
  end.

Definition run (events : list Event) (c : Component) : Component :=
  fold_left step events c.

(** A burst of keystrokes: the input's text becomes [value] at time [t]. *)
Definition keystrokes (burst : list (Z * string)) : list Event :=
  flat_map (fun k => [ Tick (fst k); Change (snd k) ]) burst.

End SearchableEmployeeSelect.

(** ** The pass-through API route ([proxyHandler]) *)

Module Proxy.

Definition Headers := list (string * string).

Record NextRequest := {
  req_method : string;
  req_headers : Headers;
  req_body : option string;
  req_search : string }.

(** The second argument of [fetch]. *)
Record RequestInit := {
  init_method : string;
  init_headers : Headers;
  init_body : option string;
  duplex : string }.

Record Response := {
  resp_body : option string;
  resp_status : Z;
  resp_statusText : string;
  resp_headers : Headers }.

(** What awaiting the upstream [fetch] gives: a response, or an
    exception. *)
Inductive FetchResult :=
| Responded (response : Response)
| Threw (error : string).

(** The two ways the handler builds its answer:
    [new NextResponse(body, { status, statusText, headers })] and
    [NextResponse.json({ error }, { status })]. *)
Inductive NextResponse :=
| NewNextResponse (body : option string) (status : Z) (statusText : string)
                  (headers : Headers)
| NextResponseJson (error : string) (status : Z).

(** The answer, together with the upstream requests that were made. *)
Record Handled := {
  answer : NextResponse;
  upstreamCalls : list (string * RequestInit) }.

Definition apiPath (proxy : list string) : string :=
  "/api/" +:+ String.concat "/" proxy.

Definition forwardedBody (req : NextRequest) : option string :=
  if negb (String.eqb (req_method req) "GET")
     && negb (String.eqb (req_method req) "HEAD")
  then req_body req else None.

(** What [new NextResponse(body, { status, statusText, headers })]
    accepts.  The constructor is the one of [Response]: it throws a
    [RangeError] for a status outside 200..599, and a [TypeError] for a
    status text that is no reason phrase and for a body given together
    with a null-body status. *)
Definition statusInRange (status : Z) : bool :=
  (200 <=? status) && (status <=? 599).

Definition nullBodyStatus (status : Z) : bool :=
  (status =? 101) || (status =? 103) || (status =? 204) || (status =? 205)
  || (status =? 304).

(** A reason phrase consists of horizontal tabs, spaces, the visible
    ASCII characters and the characters U+0080 to U+00FF, which UTF-8
    writes as the byte 194 or 195 followed by one continuation byte. *)
Fixpoint isValidReasonPhrase (statusText : string) : bool :=
  match statusText with
  | EmptyString => true
  | String c rest =>
    let k := nat_of_ascii c in
    if (k =? 9)%nat || ((32 <=? k)%nat && (k <=? 126)%nat)
    then isValidReasonPhrase rest
    else if (k =? 194)%nat || (k =? 195)%nat then
      match rest with
      | String d rest' =>
        (128 <=? nat_of_ascii d)%nat && (nat_of_ascii d <=? 191)%nat
        && isValidReasonPhrase rest'
      | EmptyString => false
      end
    else false
  end.

Definition constructible (response : Response) : bool :=
  statusInRange (resp_status response)
  && isValidReasonPhrase (resp_statusText response)
  && negb (nullBodyStatus (resp_status response)
           && match resp_body response with Some _ => true | None => false end).

(** The [fetch] and the construction of the answer are inside one [try]:
    an exception of either is answered by the [catch]. *)
Definition proxyHandler
    (BACKEND_URL : option string)
    (fetch : string -> RequestInit -> FetchResult)
    (req : NextRequest) (proxy : list string) : Handled :=
  match BACKEND_URL with
  | None =>
    {| answer := NextResponseJson
                   "Backend API URL is not configured on the server." 500;
       upstreamCalls := [] |}
  | Some backend =>
    if negb (JS.truthyStr backend) then
      {| answer := NextResponseJson
                     "Backend API URL is not configured on the server." 500;
         upstreamCalls := [] |}
    else
      let targetUrl := backend +:+ apiPath proxy +:+ req_search req in
      let init :=
        {| init_method := req_method req;
           init_headers := req_headers req;
           init_body := forwardedBody req;
           duplex := "half" |} in
      {| answer :=
           match fetch targetUrl init with
           | Responded response =>
             if constructible response then
               NewNextResponse (resp_body response) (resp_status response)
                               (resp_statusText response) (resp_headers response)
             else
               NextResponseJson "Error forwarding request to the backend." 502
           | Threw _ =>
             NextResponseJson "Error forwarding request to the backend." 502
           end;
         upstreamCalls := [ (targetUrl, init) ] |}
  end.

(** The exported method handlers all delegate to [proxyHandler]. *)
Definition GET := proxyHandler.
Definition POST := proxyHandler.
Definition PUT := proxyHandler.
Definition DELETE := proxyHandler.

End Proxy.

(** ** The nationality drop-down ([SearchableNationalitySelect])

    The component together with its props: [value] is held by the parent
    form, [changes] records the calls of the prop [onChange]. *)

Module SearchableNationalitySelect.

Section CaseMapping.

(** [String.prototype.toLowerCase].  Nationality names are not limited to
    ASCII, so the case mapping is a parameter here. *)
Variable toLowerCase : string -> string.

Record Component := {
  value : string;
  disabled : bool;
  nationalities : list string;
  searchTerm : string;
  isOpen : bool;
  changes : list string }.

(** [useState(value || '')], [useState(false)] *)
Definition init (v : string) (isDisabled : bool) (l : list string) : Component :=
  {| value := v; disabled := isDisabled; nationalities := l;
     searchTerm := v; isOpen := false; changes := [] |}.

Definition setSearchTerm (v : string) (c : Component) : Component :=
  {| value := value c; disabled := disabled c; nationalities := nationalities c;
     searchTerm := v; isOpen := isOpen c; changes := changes c |}.

Definition setIsOpen (v : bool) (c : Component) : Component :=
  {| value := value c; disabled := disabled c; nationalities := nationalities c;
     searchTerm := searchTerm c; isOpen := v; changes := changes c |}.

Definition filteredNationalities (c : Component) : list string :=
  List.filter
    (fun nationality =>
       JS.includes (toLowerCase (searchTerm c)) (toLowerCase nationality))
    (nationalities c).

Definition isCurrentValueInList (c : Component) : bool :=
  existsb
    (fun nationality =>
       String.eqb (toLowerCase nationality) (toLowerCase (value c)))
    (nationalities c).

(** [!isCurrentValueInList && value]: the warning sign is rendered. *)
Definition warningShown (c : Component) : bool :=
  negb (isCurrentValueInList c) && JS.truthyStr (value c).

Definition handleSelect (nationality : string) (c : Component) : Component :=
  {| value := value c; disabled := disabled c; nationalities := nationalities c;
     searchTerm := nationality; isOpen := false;
     changes := changes c ++ [ nationality ] |}.

(** [onChange] and [onFocus] of the input. *)
Definition handleInput (text : string) (c : Component) : Component :=
  setIsOpen true (setSearchTerm text c).

Definition handleFocus (c : Component) : Component := setIsOpen true c.

Definition handleClickOutside (c : Component) : Component :=
  setSearchTerm (value c) (setIsOpen false c).

(** The parent renders the component with the value [v]; when it differs
    from the last one the effect on [value] copies it into the input. *)
Definition receiveValue (v : string) (c : Component) : Component :=
  if String.eqb v (value c) then c
  else
    {| value := v; disabled := disabled c; nationalities := nationalities c;
       searchTerm := v; isOpen := isOpen c; changes := changes c |}.

Definition receiveDisabled (v : bool) (c : Component) : Component :=
  {| value := value c; disabled := v; nationalities := nationalities c;
     searchTerm := searchTerm c; isOpen := isOpen c; changes := changes c |}.

Inductive Event :=
| Focus
| Input (text : string)
| Select (nationality : string)
| ClickOutside
| Value (v : string)
| Disabled (v : bool).

(** What the rendered component reacts to: a disabled input raises no
    event, and the options are the filtered ones, rendered only while the
    list is open and the component enabled. *)
Definition offered (c : Component) (e : Event) : bool :=
  match e with
  | Focus | Input _ => negb (disabled c)
  | Select nationality =>
    isOpen c && negb (disabled c)
    && existsb (String.eqb nationality) (filteredNationalities c)
  | ClickOutside | Value _ | Disabled _ => true
  end.

Definition step (c : Component) (e : Event) : Component :=
  if offered c e then
    match e with
    | Focus => handleFocus c
    | Input text => handleInput text c
    | Select nationality => handleSelect nationality c
    | ClickOutside => handleClickOutside c
    | Value v => receiveValue v c
    | Disabled v => receiveDisabled v c
    end
  else c.

Definition run (events : list Event) (c : Component) : Component :=
  fold_left step events c.

End CaseMapping.

End SearchableNationalitySelect.

(** ** The bulk upload dialog ([BulkAddModal])

    [uploads] records the files posted to the bulk-upload route, [pending]
    the posts that have not been answered, [closeTimers] the two-second
    timers that call [onUploadSuccess] and [onClose], [console] the calls
    of [console.error]. *)

Module BulkAddModal.

(** [String.prototype.endsWith] *)
Definition endsWith (suffix s : string) : bool :=
  (String.length suffix <=? String.length s)%nat
  && String.eqb
       (String.substring (String.length s - String.length suffix)%nat
                         (String.length suffix) s)
       suffix.

Record UploadResult := {
  message : string;
  errors : option (list string) }.

(** The decoded body of the answer, with the three fields the handler
    reads; a field that is absent is [None]. *)
Record Result := {
  res_message : option string;
  res_error : option string;
  res_errors : option (list string) }.

(** What awaiting [fetch] and [response.json()] gives: the flag
    [response.ok] with the decoded body, or an exception. *)
Inductive Outcome :=
| Responded (ok : bool) (result : Result)
| Threw.

Record State := {
  file : option EmployeeForm.File;
  isLoading : bool;
  error : option string;
  uploadResult : option UploadResult;
  uploads : list EmployeeForm.File;
  pending : nat;
  closeTimers : nat;
  console : list string }.

Definition initialState : State :=
  {| file := None; isLoading := false; error := None; uploadResult := None;
     uploads := []; pending := 0; closeTimers := 0; console := [] |}.

Definition setFile (v : option EmployeeForm.File) (s : State) : State :=
  {| file := v; isLoading := isLoading s; error := error s;
     uploadResult := uploadResult s; uploads := uploads s; pending := pending s;
     closeTimers := closeTimers s; console := console s |}.

Definition setIsLoading (v : bool) (s : State) : State :=
  {| file := file s; isLoading := v; error := error s;
     uploadResult := uploadResult s; uploads := uploads s; pending := pending s;
     closeTimers := closeTimers s; console := console s |}.

Definition setError (v : option string) (s : State) : State :=
  {| file := file s; isLoading := isLoading s; error := v;
     uploadResult := uploadResult s; uploads := uploads s; pending := pending s;
     closeTimers := closeTimers s; console := console s |}.

Definition setUploadResult (v : option UploadResult) (s : State) : State :=
  {| file := file s; isLoading := isLoading s; error := error s;
     uploadResult := v; uploads := uploads s; pending := pending s;
     closeTimers := closeTimers s; console := console s |}.

(** [v || d] on a value that is a string or [undefined]. *)
Definition orDefault (v : option string) (d : string) : string :=
  match v with
  | Some x => if JS.truthyStr x then x else d
  | None => d
  end.

Definition allowedName (name : string) : bool :=
  endsWith ".xlsx" name || endsWith ".csv" name.

(** [files] is [e.target.files], empty when no file was chosen. *)
Definition handleFileChange (files : list EmployeeForm.File) (s : State) : State :=
  match files with
  | selectedFile :: _ =>
    if allowedName (EmployeeForm.file_name selectedFile) then
      setUploadResult None (setError None (setFile (Some selectedFile) s))
    else
      setFile None
        (setError (Some "Invalid file type. Please upload a .xlsx or .csv file.") s)
  | [] => s
  end.

(** [handleSubmit] up to the [await] of the post. *)
Definition handleSubmit (s : State) : State :=
  match file s with
  | None => setError (Some "Please select a file to upload.") s
  | Some f =>
    let s := setUploadResult None (setError None (setIsLoading true s)) in
    {| file := file s; isLoading := isLoading s; error := error s;
       uploadResult := uploadResult s; uploads := uploads s ++ [ f ];
       pending := S (pending s); closeTimers := closeTimers s;
       console := console s |}
  end.

(** [handleSubmit] from the answer of the post on. *)
Definition settle (outcome : Outcome) (s : State) : State :=
  let s :=
    {| file := file s; isLoading := isLoading s; error := error s;
       uploadResult := uploadResult s; uploads := uploads s;
       pending := Nat.pred (pending s); closeTimers := closeTimers s;
       console := console s |} in
  let s :=
    match outcome with
    | Responded true result =>
      let s :=
        setFile None
          (setUploadResult
             (Some {| message := orDefault (res_message result) "Upload successful!";
                      errors := None |}) s) in
      {| file := file s; isLoading := isLoading s; error := error s;
         uploadResult := uploadResult s; uploads := uploads s;
         pending := pending s; closeTimers := S (closeTimers s);
         console := console s |}
    | Responded false result =>
      let errorMessage := orDefault (res_error result) "An unknown error occurred." in
      let s := setError (Some errorMessage) s in
      match res_errors result with
      | Some l =>
        setUploadResult
          (Some {| message := orDefault (res_message result)
                                        "Upload completed with errors:";
                   errors := Some l |}) s
      | None =>
        setUploadResult
          (Some {| message := "Upload Failed:"; errors := Some [ errorMessage ] |}) s
      end
    | Threw =>
      let s :=
        {| file := file s; isLoading := isLoading s; error := error s;
           uploadResult := uploadResult s; uploads := uploads s;
           pending := pending s; closeTimers := closeTimers s;
           console := console s ++ [ "Bulk upload fetch error:" ] |} in
      setUploadResult
        (Some {| message := "Upload Failed:";
                 errors := Some [ "Network error or server unavailable." ] |})
        (setError (Some "An error occurred while communicating with the server.") s)
    end in
  setIsLoading false s.

Inductive Event :=
| FileChange (files : list EmployeeForm.File)
| Submit
| Settle (outcome : Outcome).

(** The submit button is [disabled={isLoading || !file}]; an answer
    arrives only for a post that is pending. *)
Definition offered (s : State) (e : Event) : bool :=
  match e with
  | FileChange _ => true
  | Submit =>
    negb (isLoading s || match file s with Some _ => false | None => true end)
  | Settle _ => (0 <? pending s)%nat
  end.

Definition step (s : State) (e : Event) : State :=
  if offered s e then
    match e with
    | FileChange files => handleFileChange files s
    | Submit => handleSubmit s
    | Settle outcome => settle outcome s
    end
  else s.

Definition run (events : list Event) (s : State) : State :=
  fold_left step events s.

End BulkAddModal.

(** ** The page ([DashboardPage])

    [pushed] records the calls of [router.push], [authPending] that the
    session check of the mount effect has not been answered. *)

Module DashboardPage.

Inductive View := dashboard | form.

Record User := {
  username : string;
  security_level : string }.

(** The fields of an archived employee the page and the table read. *)
Record ArchivedEmployee := {
  system_id : option Z;
  fullname_en : string;
  empno : string }.

Record State := {
  view : View;
  user : option User;
  editingEmployeeId : option Z;
  isBulkAddOpen : bool;
  dataRefreshKey : Z;
  authPending : bool;
  pushed : list string }.

Definition initialState : State :=
  {| view := dashboard; user := None; editingEmployeeId := None;
     isBulkAddOpen := false; dataRefreshKey := 0; authPending := true;
     pushed := [] |}.

Definition setView (v : View) (s : State) : State :=
  {| view := v; user := user s; editingEmployeeId := editingEmployeeId s;
     isBulkAddOpen := isBulkAddOpen s; dataRefreshKey := dataRefreshKey s;
     authPending := authPending s; pushed := pushed s |}.

Definition setUser (v : option User) (s : State) : State :=
  {| view := view s; user := v; editingEmployeeId := editingEmployeeId s;
     isBulkAddOpen := isBulkAddOpen s; dataRefreshKey := dataRefreshKey s;
     authPending := authPending s; pushed := pushed s |}.

Definition setEditingEmployeeId (v : option Z) (s : State) : State :=
  {| view := view s; user := user s; editingEmployeeId := v;
     isBulkAddOpen := isBulkAddOpen s; dataRefreshKey := dataRefreshKey s;
     authPending := authPending s; pushed := pushed s |}.

Definition setIsBulkAddOpen (v : bool) (s : State) : State :=
  {| view := view s; user := user s; editingEmployeeId := editingEmployeeId s;
     isBulkAddOpen := v; dataRefreshKey := dataRefreshKey s;
     authPending := authPending s; pushed := pushed s |}.

Definition setDataRefreshKey (f : Z -> Z) (s : State) : State :=
  {| view := view s; user := user s; editingEmployeeId := editingEmployeeId s;
     isBulkAddOpen := isBulkAddOpen s; dataRefreshKey := f (dataRefreshKey s);
     authPending := authPending s; pushed := pushed s |}.

Definition routerPush (path : string) (s : State) : State :=
  {| view := view s; user := user s; editingEmployeeId := editingEmployeeId s;
     isBulkAddOpen := isBulkAddOpen s; dataRefreshKey := dataRefreshKey s;
     authPending := authPending s; pushed := pushed s ++ [ path ] |}.

(** [user?.security_level === 'Viewer'] *)
Definition isViewer (s : State) : bool :=
  match user s with
  | Some u => String.eqb (security_level u) "Viewer"
  | None => false
  end.

(** The answer of the session check: [res.ok] with the [user] field of
    the body, or a failure. *)
Inductive AuthOutcome :=
| AuthOk (dataUser : option User)
| AuthFailed.

Definition authSettled (outcome : AuthOutcome) (s : State) : State :=
  let s :=
    {| view := view s; user := user s; editingEmployeeId := editingEmployeeId s;
       isBulkAddOpen := isBulkAddOpen s; dataRefreshKey := dataRefreshKey s;
       authPending := false; pushed := pushed s |} in
  match outcome with
  | AuthOk (Some u) =>
    if JS.truthyStr (username u) then setUser (Some u) s
    else routerPush "/login" s
  | AuthOk None | AuthFailed => routerPush "/login" s
  end.

Definition handleFormSubmit (s : State) : State :=
  setDataRefreshKey (fun k => k + 1) s.

(** [answered]: the post to the logout route was answered; when it
    fails the handler stops before [router.push]. *)
Definition handleLogout (answered : bool) (s : State) : State :=
  if answered then routerPush "/login" s else s.

Definition handleEdit (employee : ArchivedEmployee) (s : State) : State :=
  match system_id employee with
  | Some id =>
    if JS.truthyNum id then setView form (setEditingEmployeeId (Some id) s) else s
  | None => s
  end.

Definition handleBackFromForm (s : State) : State :=
  setView dashboard (setEditingEmployeeId None s).

Inductive Event :=
| AuthSettled (outcome : AuthOutcome)
| AddNew
| BulkAdd
| Edit (employee : ArchivedEmployee)
| Back
| FormSubmit
| UploadSuccess
| CloseBulk
| Logout (answered : bool).

(** What the rendered page reacts to.  Without a user only the
    verification notice is rendered.  The table and, for a user who is no
    viewer, the two add buttons belong to the dashboard view; the form
    calls [onBack] and [onFormSubmit]; the dialog calls [onClose], and its
    timer calls [onUploadSuccess] and [onClose] also after the dialog was
    closed. *)
Definition offered (s : State) (e : Event) : bool :=
  match e with
  | AuthSettled _ => authPending s
  | _ =>
    match user s with
    | None => false
    | Some _ =>
      match e with
      | AddNew | BulkAdd =>
        match view s with dashboard => negb (isViewer s) | form => false end
      | Edit _ => match view s with dashboard => true | form => false end
      | Back | FormSubmit =>
        match view s with form => true | dashboard => false end
      | CloseBulk => isBulkAddOpen s
      | UploadSuccess | Logout _ => true
      | AuthSettled _ => false
      end
    end
  end.

Definition step (s : State) (e : Event) : State :=
  if offered s e then
    match e with
    | AuthSettled outcome => authSettled outcome s
    | AddNew => setView form s
    | BulkAdd => setIsBulkAddOpen true s
    | Edit employee => handleEdit employee s
    | Back => handleBackFromForm s
    | FormSubmit => handleFormSubmit s
    | UploadSuccess => setIsBulkAddOpen false (handleFormSubmit s)
    | CloseBulk => setIsBulkAddOpen false s
    | Logout answered => handleLogout answered s
    end
  else s.

Definition run (events : list Event) (s : State) : State :=
  fold_left step events s.

(** The props the page passes to the form. *)
Definition formProps (s : State) : EmployeeForm.Props :=
  {| EmployeeForm.employeeToEditId := editingEmployeeId s;
     EmployeeForm.isViewer := isViewer s |}.

End DashboardPage.

(** ** The dashboard ([DashboardView])

    [requests] records the query parameters of the requests for the
    employee list, in the order [URLSearchParams] holds them, [pending]
    the requests that have not been answered.  The counters of the cards
    are left out. *)

Module DashboardView.

Record State := {
  employees : list DashboardPage.ArchivedEmployee;
  isLoading : bool;
  searchTerm : string;
  statusFilter : option string;
  filterType : option string;
  activeCard : option string;
  dataRefreshKey : Z;
  requests : list (list (string * string));
  pending : nat }.

Definition initialState (refreshKey : Z) : State :=
  {| employees := []; isLoading := true; searchTerm := "";
     statusFilter := None; filterType := None; activeCard := Some "total";
     dataRefreshKey := refreshKey; requests := []; pending := 0 |}.

Definition setEmployees (v : list DashboardPage.ArchivedEmployee) (s : State) : State :=
  {| employees := v; isLoading := isLoading s; searchTerm := searchTerm s;
     statusFilter := statusFilter s; filterType := filterType s;
     activeCard := activeCard s; dataRefreshKey := dataRefreshKey s;
     requests := requests s; pending := pending s |}.

Definition setIsLoading (v : bool) (s : State) : State :=
  {| employees := employees s; isLoading := v; searchTerm := searchTerm s;
     statusFilter := statusFilter s; filterType := filterType s;
     activeCard := activeCard s; dataRefreshKey := dataRefreshKey s;
     requests := requests s; pending := pending s |}.

Definition setSearchTerm (v : string) (s : State) : State :=
  {| employees := employees s; isLoading := isLoading s; searchTerm := v;
     statusFilter := statusFilter s; filterType := filterType s;
     activeCard := activeCard s; dataRefreshKey := dataRefreshKey s;
     requests := requests s; pending := pending s |}.

Definition setStatusFilter (v : option string) (s : State) : State :=
  {| employees := employees s; isLoading := isLoading s; searchTerm := searchTerm s;
     statusFilter := v; filterType := filterType s;
     activeCard := activeCard s; dataRefreshKey := dataRefreshKey s;
     requests := requests s; pending := pending s |}.

Definition setFilterType (v : option string) (s : State) : State :=
  {| employees := employees s; isLoading := isLoading s; searchTerm := searchTerm s;
     statusFilter := statusFilter s; filterType := v;
     activeCard := activeCard s; dataRefreshKey := dataRefreshKey s;
     requests := requests s; pending := pending s |}.

Definition setActiveCard (v : option string) (s : State) : State :=
  {| employees := employees s; isLoading := isLoading s; searchTerm := searchTerm s;
     statusFilter := statusFilter s; filterType := filterType s;
     activeCard := v; dataRefreshKey := dataRefreshKey s;
     requests := requests s; pending := pending s |}.

Definition receiveRefreshKey (v : Z) (s : State) : State :=
  {| employees := employees s; isLoading := isLoading s; searchTerm := searchTerm s;
     statusFilter := statusFilter s; filterType := filterType s;
     activeCard := activeCard s; dataRefreshKey := v;
     requests := requests s; pending := pending s |}.

(** [if (v) params.append(name, v)] on a value that is a string or
    [null]. *)
Definition param (name : string) (v : option string) : list (string * string) :=
  match v with
  | Some x => if JS.truthyStr x then [ (name, x) ] else []
  | None => []
  end.

Definition params (s : State) : list (string * string) :=
  param "search" (Some (searchTerm s))
  ++ param "status" (statusFilter s)
  ++ param "filter_type" (filterType s).

(** The effect that requests the employee list. *)
Definition employeesEffect (s : State) : State :=
  let s := setIsLoading true s in
  {| employees := employees s; isLoading := isLoading s; searchTerm := searchTerm s;
     statusFilter := statusFilter s; filterType := filterType s;
     activeCard := activeCard s; dataRefreshKey := dataRefreshKey s;
     requests := requests s ++ [ params s ]; pending := S (pending s) |}.

(** The component after its first render and its effects. *)
Definition mount (refreshKey : Z) : State := employeesEffect (initialState refreshKey).

Definition handleCardClick (type status : option string) (cardName : string)
    (s : State) : State :=
  setActiveCard (Some cardName) (setStatusFilter status (setFilterType type s)).

(** The four cards, with the arguments their [onClick] passes. *)
Inductive Card := total | active | inactive | expiring.

Definition cardType (card : Card) : option string :=
  match card with
  | total => None
  | active => Some "has_warrant"
  | inactive => Some "no_warrant"
  | expiring => Some "expiring_soon_or_expired"
  end.

Definition cardStatus (card : Card) : option string :=
  match card with
  | total => None
  | active => Some "Active"
  | inactive => Some "Inactive"
  | expiring => None
  end.

Definition cardName (card : Card) : string :=
  match card with
  | total => "total"
  | active => "active"
  | inactive => "inactive"
  | expiring => "expiring"
  end.

(** The answer to a request for the list: the decoded body, whose
    [employees] field is [None] when the body is empty or the field is no
    array, or a failure. *)
Inductive Outcome :=
| Fulfilled (dataEmployees : option (list DashboardPage.ArchivedEmployee))
| Rejected.

Definition settle (outcome : Outcome) (s : State) : State :=
  let s :=
    {| employees := employees s; isLoading := isLoading s;
       searchTerm := searchTerm s; statusFilter := statusFilter s;
       filterType := filterType s; activeCard := activeCard s;
       dataRefreshKey := dataRefreshKey s; requests := requests s;
       pending := Nat.pred (pending s) |} in
  match outcome with
  | Fulfilled (Some l) => setIsLoading false (setEmployees l s)
  | Fulfilled None | Rejected => setIsLoading false s
  end.

Inductive Event :=
| CardClick (card : Card)
| Search (text : string)
| Refresh (refreshKey : Z)
| Settle (outcome : Outcome).

Definition handle (e : Event) (s : State) : State :=
  match e with
  | CardClick card =>
    handleCardClick (cardType card) (cardStatus card) (cardName card) s
  | Search text => setSearchTerm text s
  | Refresh refreshKey => receiveRefreshKey refreshKey s
  | Settle outcome => if (0 <? pending s)%nat then settle outcome s else s
  end.

Definition option_eqb (a b : option string) : bool :=
  match a, b with
  | Some x, Some y => String.eqb x y
  | None, None => true
  | _, _ => false
  end.

(** [[dataRefreshKey, searchTerm, statusFilter, filterType]] *)
Definition depsChanged (s s' : State) : bool :=
  negb ((dataRefreshKey s =? dataRefreshKey s')
        && String.eqb (searchTerm s) (searchTerm s')
        && option_eqb (statusFilter s) (statusFilter s')
        && option_eqb (filterType s) (filterType s')).

Definition step (s : State) (e : Event) : State :=
  let s' := handle e s in
  if depsChanged s s' then employeesEffect s' else s'.

Definition run (events : list Event) (s : State) : State :=
  fold_left step events s.

End DashboardView.

(** ** The login page ([LoginPage])

    [posts] records the credentials posted to the login route, [pending]
    the posts that have not been answered, [pushed] the calls of
    [router.push], [console] the calls of [console.error]. *)

Module LoginPage.

(** The answer of the post: [response.ok] and [response.statusText],
    with the [error] field of the decoded body, which is read only for an
    answer that is not [ok]; [errData] is [None] when the body cannot be
    decoded.  [Threw] is a failure of the post itself. *)
Inductive Outcome :=
| Responded (ok : bool) (statusText : string) (errData : option (option string))
| Threw.

Record State := {
  error : option string;
  isLoading : bool;
  posts : list (list (string * string));
  pending : nat;
  pushed : list string;
  console : list string }.

Definition initialState : State :=
  {| error := None; isLoading := false; posts := []; pending := 0;
     pushed := []; console := [] |}.

Definition setError (v : option string) (s : State) : State :=
  {| error := v; isLoading := isLoading s; posts := posts s;
     pending := pending s; pushed := pushed s; console := console s |}.

Definition setIsLoading (v : bool) (s : State) : State :=
  {| error := error s; isLoading := v; posts := posts s;
     pending := pending s; pushed := pushed s; console := console s |}.

Definition routerPush (path : string) (s : State) : State :=
  {| error := error s; isLoading := isLoading s; posts := posts s;
     pending := pending s; pushed := pushed s ++ [ path ];
     console := console s |}.

Definition consoleError (msg : string) (s : State) : State :=
  {| error := error s; isLoading := isLoading s; posts := posts s;
     pending := pending s; pushed := pushed s;
     console := console s ++ [ msg ] |}.

Definition connectErrorMessage : string :=
  "Could not connect to the server. See browser console for details.".

(** [handleSubmit] up to the [await] of the post; [data] are the entries
    of the form. *)
Definition handleSubmit (data : list (string * string)) (s : State) : State :=
  let s := setError None (setIsLoading true s) in
  {| error := error s; isLoading := isLoading s; posts := posts s ++ [ data ];
     pending := S (pending s); pushed := pushed s; console := console s |}.

(** [handleSubmit] from the answer of the post on. *)
Definition settle (outcome : Outcome) (s : State) : State :=
  let s :=
    {| error := error s; isLoading := isLoading s; posts := posts s;
       pending := Nat.pred (pending s); pushed := pushed s;
       console := console s |} in
  let failed (s : State) :=
    consoleError "[LOGIN PAGE] Network or fetch error:"
                 (setError (Some connectErrorMessage) s) in
  let s :=
    match outcome with
    | Responded true _ _ => routerPush "/" s
    | Responded false statusText (Some errDataError) =>
      let errorMessage :=
        "Login failed: "
        +:+ match errDataError with
            | Some e => if JS.truthyStr e then e else statusText
            | None => statusText
            end in
      consoleError "[LOGIN PAGE] Error:" (setError (Some errorMessage) s)
    | Responded false _ None => failed s
    | Threw => failed s
    end in
  setIsLoading false s.

Inductive Event :=
| Submit (data : list (string * string))
| Settle (outcome : Outcome).

(** The button is [disabled={isLoading}]; an answer arrives only for a
    post that is pending. *)
Definition offered (s : State) (e : Event) : bool :=
  match e with
  | Submit _ => negb (isLoading s)
  | Settle _ => (0 <? pending s)%nat
  end.

Definition step (s : State) (e : Event) : State :=
  if offered s e then
    match e with
    | Submit data => handleSubmit data s
    | Settle outcome => settle outcome s
    end
  else s.

Definition run (events : list Event) (s : State) : State :=
  fold_left step events s.

End LoginPage.

(** * Properties *)

(** ** Facts about the JavaScript primitives *)

Section JSFacts.

Import JS.

Lemma isDigit_not_space c : isDigit c = true -> isSpace c = false.
Proof.
  destruct c as [[] [] [] [] [] [] [] []]; vm_compute; congruence.
Qed.

Lemma parseInt_digit_head c s :
  isDigit c = true -> parseInt (String c s) = parseDigits (String c s).
Proof.
  intros Hd. unfold parseInt. cbn [trimStart].
  rewrite (isDigit_not_space c Hd).
  destruct c as [[] [] [] [] [] [] [] []]; try reflexivity;
    vm_compute in Hd; discriminate.
Qed.

Lemma parseInt_minus_digit c s :
  isDigit c = true ->
  parseInt (String "-" (String c s)) = option_map Z.opp (parseDigits (String c s)).
Proof. intros _. reflexivity. Qed.

(** The numeral of a decimal number consists of digits only. *)
Lemma digitsPrefix_string_of_uint d :
  digitsPrefix (NilEmpty.string_of_uint d) = NilEmpty.string_of_uint d.
Proof.
  induction d; cbn [NilEmpty.string_of_uint digitsPrefix];
    [reflexivity | ..];
    (replace (isDigit _) with true by reflexivity); now rewrite IHd.
Qed.

Lemma string_of_uint_head d :
  d <> Decimal.Nil ->
  exists c s, NilEmpty.string_of_uint d = String c s /\ isDigit c = true.
Proof. destruct d; [congruence | ..]; intros _; cbn; eauto. Qed.

Lemma parseDigits_string_of_uint d :
  d <> Decimal.Nil ->
  parseDigits (NilEmpty.string_of_uint d) = Some (Z.of_uint d).
Proof.
  intros Hd. unfold parseDigits. rewrite digitsPrefix_string_of_uint.
  destruct (string_of_uint_head d Hd) as (c & s & Heq & _).
  rewrite Heq. cbv iota. rewrite <- Heq, NilEmpty.usu. reflexivity.
Qed.

Lemma NilZero_string_of_uint_nonnil d :
  d <> Decimal.Nil -> NilZero.string_of_uint d = NilEmpty.string_of_uint d.
Proof. destruct d; intros H; [congruence | reflexivity ..]. Qed.

(** [parseInt] reads back what [toString] prints. *)
Lemma parseInt_toString (n : Z) : parseInt (toString n) = Some n.
Proof.
  destruct n as [|p|p]; [reflexivity | ..]; unfold toString; cbn [Z.to_int].
  - cbn [NilZero.string_of_int].
    pose proof (Unsigned.to_uint_nonnil p) as Hnn.
    rewrite (NilZero_string_of_uint_nonnil _ Hnn).
    destruct (string_of_uint_head _ Hnn) as (c & s & Heq & Hc).
    rewrite Heq, (parseInt_digit_head c s Hc), <- Heq.
    rewrite (parseDigits_string_of_uint _ Hnn).
    unfold Z.of_uint. now rewrite Unsigned.of_to.
  - cbn [NilZero.string_of_int].
    pose proof (Unsigned.to_uint_nonnil p) as Hnn.
    rewrite (NilZero_string_of_uint_nonnil _ Hnn).
    destruct (string_of_uint_head _ Hnn) as (c & s & Heq & Hc).
    rewrite Heq, (parseInt_minus_digit c s Hc), <- Heq.
    rewrite (parseDigits_string_of_uint _ Hnn).
    unfold Z.of_uint. now rewrite Unsigned.of_to.
Qed.

Lemma toString_inj (n m : Z) : toString n = toString m -> n = m.
Proof.
  intros H. pose proof (parseInt_toString n) as Hn.
  rewrite H, parseInt_toString in Hn. congruence.
Qed.

Lemma toString_eqb (n m : Z) :
  String.eqb (toString n) (toString m) = (n =? m)%Z.
Proof.
  destruct (Z.eqb_spec n m) as [->|Hne].
  - apply String.eqb_refl.
  - apply String.eqb_neq. intros H. apply Hne, toString_inj, H.
Qed.

(** A printed number is never the empty string. *)
Lemma truthyStr_toString (n : Z) : truthyStr (toString n) = true.
Proof.
  destruct n as [|p|p]; [reflexivity | | reflexivity].
  unfold toString. cbn [Z.to_int NilZero.string_of_int].
  pose proof (Unsigned.to_uint_nonnil p) as Hnn.
  rewrite (NilZero_string_of_uint_nonnil _ Hnn).
  destruct (string_of_uint_head _ Hnn) as (c & s & Heq & _).
  now rewrite Heq.
Qed.

Lemma truthyStr_empty s : truthyStr s = false <-> s = "".
Proof. destruct s; cbn; split; congruence. Qed.

Lemma truthyNum_true n : truthyNum n = true <-> n <> 0.
Proof. unfold truthyNum. destruct (Z.eqb_spec n 0); cbn; split; congruence. Qed.

(** Sample evaluations. *)

Example toString_42 : JS.toString 42 = "42".
Proof. reflexivity. Qed.
Example toString_neg : JS.toString (-7) = "-7".
Proof. reflexivity. Qed.
Example parseInt_ex : JS.parseInt "  12abc" = Some 12.
Proof. reflexivity. Qed.
Example parseInt_nan : JS.parseInt "" = None.
Proof. reflexivity. Qed.
Example includes_ex : JS.includes "other" (JS.toLowerCase "An Other type") = true.
Proof. reflexivity. Qed.
Example includes_ar : JS.includes "بطاقة الضبطية" "نوع بطاقة الضبطية القضائية" = true.
Proof. reflexivity. Qed.

End JSFacts.

(** ** The pass-through route *)

Section ProxySpec.

Import Proxy.

Definition notConfigured : NextResponse :=
  NextResponseJson "Backend API URL is not configured on the server." 500.

Definition badGateway : NextResponse :=
  NextResponseJson "Error forwarding request to the backend." 502.

(** C9 (as amended): without an upstream origin (the variable is unset,
    or set to the empty string) the handler answers with the fixed 500
    error and contacts no upstream; with one, it makes exactly one upstream
    request and answers with the fixed 502 error when that request throws,
    and also when the upstream response cannot be issued again: its status
    is outside 200..599, its status text is no reason phrase, or it has a
    body together with a null-body status.  Every other upstream response
    is relayed with its status, status text, headers and body unchanged. *)
Theorem proxyHandler_pass_through
    (fetch : string -> RequestInit -> FetchResult)
    (req : NextRequest) (proxy : list string) :
  (answer (proxyHandler None fetch req proxy) = notConfigured
   /\ upstreamCalls (proxyHandler None fetch req proxy) = [])
  /\ (answer (proxyHandler (Some "") fetch req proxy) = notConfigured
      /\ upstreamCalls (proxyHandler (Some "") fetch req proxy) = [])
  /\ forall backend : string, backend <> "" ->
       let targetUrl := backend +:+ apiPath proxy +:+ req_search req in
       let init := {| init_method := req_method req;
                      init_headers := req_headers req;
                      init_body := forwardedBody req;
                      duplex := "half" |} in
       let handled := proxyHandler (Some backend) fetch req proxy in
       upstreamCalls handled = [ (targetUrl, init) ]
       /\ (forall e, fetch targetUrl init = Threw e -> answer handled = badGateway)
       /\ (forall r, fetch targetUrl init = Responded r ->
             (200 <= resp_status r <= 599 ->
              isValidReasonPhrase (resp_statusText r) = true ->
              resp_body r = None \/ nullBodyStatus (resp_status r) = false ->
              answer handled =
              NewNextResponse (resp_body r) (resp_status r)
                              (resp_statusText r) (resp_headers r))
             /\ (resp_status r < 200 \/ 599 < resp_status r ->
                 answer handled = badGateway)
             /\ (isValidReasonPhrase (resp_statusText r) = false ->
                 answer handled = badGateway)
             /\ (resp_body r <> None -> nullBodyStatus (resp_status r) = true ->
                 answer handled = badGateway)).
Proof.
  split; [split; reflexivity |].
  split; [split; reflexivity |].
  intros backend Hne targetUrl init handled.
  assert (Htruthy : JS.truthyStr backend = true)
    by (destruct backend; [congruence | reflexivity]).
  subst handled. unfold proxyHandler. rewrite Htruthy. cbn [negb].
  fold targetUrl. fold init. cbn [upstreamCalls answer].
  split; [reflexivity |].
  split; [intros e He | intros r Hr].
  - now rewrite He.
  - rewrite Hr. unfold constructible, statusInRange.
    split; [| split; [| split]].
    + intros [Hlo Hhi] Htext Hbody.
      apply Z.leb_le in Hlo, Hhi. rewrite Hlo, Hhi, Htext. cbn [andb].
      destruct Hbody as [-> | ->]; [now rewrite andb_false_r | reflexivity].
    + intros [Hlo | Hhi].
      * apply Z.leb_gt in Hlo. now rewrite Hlo.
      * apply Z.leb_gt in Hhi. rewrite Hhi. now rewrite andb_false_r.
    + intros ->. now rewrite andb_false_r.
    + intros Hbody ->. destruct (resp_body r); [| congruence].
      cbn [andb negb]. now rewrite andb_false_r.
Qed.

(** An upstream that is down for one path, answers with the status 999
    for another, and answers 404 elsewhere. *)
Definition sampleUpstream (targetUrl : string) (_ : RequestInit) : FetchResult :=
  if String.eqb targetUrl "http://backend:5000/api/down"
  then Threw "ECONNREFUSED"
  else if String.eqb targetUrl "http://backend:5000/api/odd"
  then Responded {| resp_body := Some "{}"; resp_status := 999;
                    resp_statusText := "Request denied";
                    resp_headers := [ ("content-type", "application/json") ] |}
  else Responded {| resp_body := Some "{}"; resp_status := 404;
                    resp_statusText := "Not Found";
                    resp_headers := [ ("content-type", "application/json") ] |}.

Definition sampleRequest : NextRequest :=
  {| req_method := "POST"; req_headers := [ ("cookie", "session=1") ];
     req_body := Some "payload"; req_search := "" |}.

Lemma proxyHandler_pass_through_witness :
  answer (proxyHandler (Some "http://backend:5000") sampleUpstream
                       sampleRequest [ "down" ]) = badGateway
  /\ answer (proxyHandler (Some "http://backend:5000") sampleUpstream
                          sampleRequest [ "employees"; "7" ])
     = NewNextResponse (Some "{}") 404 "Not Found"
                       [ ("content-type", "application/json") ].
Proof.
  split.
  - destruct (proxyHandler_pass_through sampleUpstream sampleRequest [ "down" ])
      as (_ & _ & H).
    destruct (H "http://backend:5000" ltac:(discriminate)) as (_ & Hthrow & _).
    apply (Hthrow "ECONNREFUSED"). reflexivity.
  - destruct (proxyHandler_pass_through sampleUpstream sampleRequest
                                        [ "employees"; "7" ]) as (_ & _ & H).
    destruct (H "http://backend:5000" ltac:(discriminate)) as (_ & _ & Hrelay).
    destruct (Hrelay {| resp_body := Some "{}"; resp_status := 404;
                        resp_statusText := "Not Found";
                        resp_headers := [ ("content-type", "application/json") ] |}
                     eq_refl) as (Hok & _).
    apply Hok; [cbn; lia | reflexivity | right; reflexivity].
Defined.

(** C9 (as stated) fails: the upstream is reached and answers, with the
    status 999, so the upstream request does not throw; the answer of the
    handler is the fixed 502 error and not the upstream response. *)
Lemma proxyHandler_unissuable_status_is_bad_gateway :
  let handled := proxyHandler (Some "http://backend:5000") sampleUpstream
                              sampleRequest [ "odd" ] in
  sampleUpstream "http://backend:5000/api/odd"
                 {| init_method := "POST"; init_headers := [ ("cookie", "session=1") ];
                    init_body := Some "payload"; duplex := "half" |}
  = Responded {| resp_body := Some "{}"; resp_status := 999;
                 resp_statusText := "Request denied";
                 resp_headers := [ ("content-type", "application/json") ] |}
  /\ map fst (upstreamCalls handled) = [ "http://backend:5000/api/odd" ]
  /\ answer handled = NextResponseJson "Error forwarding request to the backend." 502
  /\ answer handled
     <> NewNextResponse (Some "{}") 999 "Request denied"
                        [ ("content-type", "application/json") ].
Proof. vm_compute. repeat split; (reflexivity || discriminate). Qed.

End ProxySpec.

(** ** The employee form *)

Section ToggleMember.

Import EmployeeForm.

Context {A : Type} (eqb : A -> A -> bool).
Hypothesis eqb_eq : forall x y, eqb x y = true <-> x = y.

Lemma existsb_eqb_In x l : existsb (eqb x) l = true <-> In x l.
Proof.
  rewrite existsb_exists. split.
  - intros (y & Hy & Heq). apply eqb_eq in Heq. now subst.
  - intros H. exists x. split; [assumption | now apply eqb_eq].
Qed.

Lemma toggleMember_self x l : In x (toggleMember eqb x l) <-> ~ In x l.
Proof.
  unfold toggleMember. destruct (existsb (eqb x) l) eqn:E.
  - apply existsb_eqb_In in E. rewrite filter_In. split.
    + intros [_ H]. apply negb_true_iff in H.
      assert (eqb x x = true) by now apply eqb_eq. congruence.
    + intros H. contradiction.
  - assert (Hn : ~ In x l).
    { intros H. apply existsb_eqb_In in H. congruence. }
    rewrite in_app_iff. cbn. tauto.
Qed.

Lemma toggleMember_other x y l :
  y <> x -> (In y (toggleMember eqb x l) <-> In y l).
Proof.
  intros Hne. unfold toggleMember. destruct (existsb (eqb x) l).
  - rewrite filter_In. split; [tauto |]. intros H. split; [assumption |].
    apply negb_true_iff. destruct (eqb y x) eqn:E; [| reflexivity].
    apply eqb_eq in E. contradiction.
  - rewrite in_app_iff. cbn. split; [| tauto].
    intros [H | [H | []]]; [assumption | congruence].
Qed.

Lemma In_dec_eqb (x : A) (l : list A) : In x l \/ ~ In x l.
Proof.
  destruct (existsb (eqb x) l) eqn:E.
  - left. now apply existsb_eqb_In.
  - right. intros H. apply existsb_eqb_In in H. congruence.
Qed.

(** Toggling twice gives back the same members. *)
Lemma toggleMember_twice x y l :
  In y (toggleMember eqb x (toggleMember eqb x l)) <-> In y l.
Proof.
  destruct (In_dec_eqb y [x]) as [[<- | []] | Hne].
  - rewrite toggleMember_self, toggleMember_self.
    destruct (In_dec_eqb x l); tauto.
  - assert (y <> x) by (intros ->; apply Hne; now left).
    now rewrite !toggleMember_other.
Qed.

End ToggleMember.

Section BaseIdentity.

Import EmployeeForm.

(** C2 (as amended): with an empty id [handleEmployeeSelect] locks the
    form and leaves every scalar field as it was; with a non-empty id whose
    profile fetch succeeds it seeds the scalar fields from the profile and
    unlocks the form. *)
Theorem handleEmployeeSelect_locks_or_seeds
    (profile : string -> option HrEmployeeDetails) (employeeId : string)
    (s : State) :
  (employeeId = "" ->
     isFormLocked (handleEmployeeSelect profile employeeId s) = true
     /\ formData (handleEmployeeSelect profile employeeId s) = formData s)
  /\ (forall details,
        employeeId <> "" -> profile employeeId = Some details ->
        formData (handleEmployeeSelect profile employeeId s)
        = seedFromProfile details
        /\ isFormLocked (handleEmployeeSelect profile employeeId s) = false).
Proof.
  unfold handleEmployeeSelect. split.
  - intros ->. cbn. auto.
  - intros details Hne Hp.
    destruct employeeId; [congruence |]. cbn [JS.truthyStr negb].
    rewrite Hp. cbn. auto.
Qed.

Definition sampleProfile : HrEmployeeDetails :=
  {| hr_system_id := IdNumber 42;
     hr_fullname_en := Some "Alice Example"; hr_fullname_ar := None;
     hr_empno := Some "E-0042"; hr_job_name := Some "Inspector";
     hr_department := Some "Licensing"; hr_section := None;
     hr_email := Some "alice@example.org"; hr_mobile := None;
     hr_supervisorname := None; hr_nationality := Some "Jordan" |}.

Definition sampleDirectory (employeeId : string) : option HrEmployeeDetails :=
  if String.eqb employeeId "42" then Some sampleProfile else None.

(** The form after the base identity 42 has been chosen. *)
Definition seededState : State :=
  handleEmployeeSelect sampleDirectory "42" initialState.

Lemma handleEmployeeSelect_locks_or_seeds_witness :
  (isFormLocked (handleEmployeeSelect sampleDirectory "" seededState) = true
   /\ formData (handleEmployeeSelect sampleDirectory "" seededState)
      = formData seededState)
  /\ (formData (handleEmployeeSelect sampleDirectory "42" initialState)
      = seedFromProfile sampleProfile
      /\ isFormLocked (handleEmployeeSelect sampleDirectory "42" initialState)
         = false).
Proof.
  split.
  - apply (handleEmployeeSelect_locks_or_seeds sampleDirectory "" seededState).
    reflexivity.
  - apply (handleEmployeeSelect_locks_or_seeds sampleDirectory "42" initialState).
    + discriminate.
    + reflexivity.
Defined.

(** C2 (as stated) fails: clearing the selection locks the form, yet the
    fields seeded from the profile of employee 42 keep their values. *)
Lemma handleEmployeeSelect_empty_id_keeps_fields :
  let s' := handleEmployeeSelect sampleDirectory "" seededState in
  isFormLocked s' = true
  /\ employee_id (formData s') = IdNumber 42
  /\ name_en (formData s') = "Alice Example"
  /\ employeeNumber (formData s') = "E-0042"
  /\ formData s' <> emptyFormData.
Proof. cbv. repeat split; try reflexivity. discriminate. Qed.

End BaseIdentity.

Section LegislationToggle.

Import EmployeeForm.

Lemma String_eqb_eq' (x y : string) : String.eqb x y = true <-> x = y.
Proof. apply String.eqb_eq. Qed.

Lemma newDocuments_updateDoc index f s doc :
  newDocuments s !! index = Some doc ->
  newDocuments (updateDoc index f s) = <[index := f doc]> (newDocuments s).
Proof. intros H. unfold updateDoc. now rewrite H. Qed.

Lemma newDocuments_toggle index v s doc :
  newDocuments s !! index = Some doc ->
  newDocuments (handleNewDocumentChange index (ChangeLegislation v) s)
  = <[index := withLegislationIds
                 (toggleMember String.eqb v (legislation_ids doc)) doc]>
      (newDocuments s).
Proof.
  intros H. unfold handleNewDocumentChange.
  now rewrite (newDocuments_updateDoc index _ (setError "" s) doc).
Qed.

Lemma lookup_map {X Y : Type} (f : X -> Y) (l : list X) (i : nat) :
  map f l !! i = option_map f (l !! i).
Proof.
  revert i. induction l as [|x l IH]; intros [|i]; cbn; try reflexivity.
  apply IH.
Qed.

(** C8: on a pending row and on a persisted row alike, one toggle of a
    legislation id adds it when absent and removes it when present, leaves
    every other id and every other row alone, and a second toggle of the
    same id brings the row back to the members it started with. *)
Theorem legislation_toggle_round_trip :
  (forall (s : State) (index : nat) (doc : NewDocument) (v : string),
      newDocuments s !! index = Some doc ->
      let s1 := handleNewDocumentChange index (ChangeLegislation v) s in
      let s2 := handleNewDocumentChange index (ChangeLegislation v) s1 in
      exists doc1 doc2,
        newDocuments s1 !! index = Some doc1
        /\ newDocuments s2 !! index = Some doc2
        /\ (In v (legislation_ids doc1) <-> ~ In v (legislation_ids doc))
        /\ (forall y, y <> v ->
              (In y (legislation_ids doc1) <-> In y (legislation_ids doc)))
        /\ (forall y, In y (legislation_ids doc2) <-> In y (legislation_ids doc))
        /\ (forall j, j <> index ->
              newDocuments s1 !! j = newDocuments s !! j
              /\ newDocuments s2 !! j = newDocuments s !! j))
  /\ (forall (s : State) (i : nat) (doc : ExistingDocument) (legislationId : Z),
        existingDocuments s !! i = Some doc ->
        let s1 := handleExistingDocLegislationChange
                    (ed_system_id doc) legislationId s in
        let s2 := handleExistingDocLegislationChange
                    (ed_system_id doc) legislationId s1 in
        exists doc1 doc2,
          existingDocuments s1 !! i = Some doc1
          /\ existingDocuments s2 !! i = Some doc2
          /\ (In legislationId (ed_legislation_ids doc1)
              <-> ~ In legislationId (ed_legislation_ids doc))
          /\ (forall y, y <> legislationId ->
                (In y (ed_legislation_ids doc1) <-> In y (ed_legislation_ids doc)))
          /\ (forall y, In y (ed_legislation_ids doc2)
                        <-> In y (ed_legislation_ids doc))).
Proof.
  split.
  - intros s index doc v Hdoc s1 s2.
    pose proof (lookup_lt_Some _ _ _ Hdoc) as Hlt.
    set (doc1 := withLegislationIds
                   (toggleMember String.eqb v (legislation_ids doc)) doc).
    set (doc2 := withLegislationIds
                   (toggleMember String.eqb v (legislation_ids doc1)) doc1).
    assert (H1 : newDocuments s1 = <[index := doc1]> (newDocuments s))
      by (subst s1; now apply newDocuments_toggle).
    assert (L1 : newDocuments s1 !! index = Some doc1)
      by (rewrite H1; now apply list_lookup_insert_eq).
    assert (H2 : newDocuments s2 = <[index := doc2]> (newDocuments s1))
      by (subst s2; now apply newDocuments_toggle).
    exists doc1, doc2. repeat split.
    + exact L1.
    + rewrite H2. apply list_lookup_insert_eq. rewrite H1, length_insert. exact Hlt.
    + apply (toggleMember_self String.eqb String_eqb_eq').
    + apply (toggleMember_self String.eqb String_eqb_eq').
    + now apply (toggleMember_other String.eqb String_eqb_eq').
    + now apply (toggleMember_other String.eqb String_eqb_eq').
    + apply (toggleMember_twice String.eqb String_eqb_eq').
    + apply (toggleMember_twice String.eqb String_eqb_eq').
    + rewrite H1. now apply list_lookup_insert_ne.
    + rewrite H2, H1. rewrite !list_lookup_insert_ne; congruence.
  - intros s i doc legislationId Hdoc s1 s2.
    set (doc1 := withExistingLegislationIds
                   (toggleMember Z.eqb legislationId (ed_legislation_ids doc)) doc).
    set (doc2 := withExistingLegislationIds
                   (toggleMember Z.eqb legislationId (ed_legislation_ids doc1)) doc1).
    assert (L1 : existingDocuments s1 !! i = Some doc1).
    { subst s1. unfold handleExistingDocLegislationChange. cbn [existingDocuments setExistingDocuments].
      rewrite lookup_map, Hdoc. cbn [option_map]. now rewrite Z.eqb_refl. }
    assert (L2 : existingDocuments s2 !! i = Some doc2).
    { subst s2. unfold handleExistingDocLegislationChange at 1.
      cbn [existingDocuments setExistingDocuments].
      rewrite lookup_map, L1. cbn [option_map].
      replace (ed_system_id doc1) with (ed_system_id doc) by reflexivity.
      now rewrite Z.eqb_refl. }
    exists doc1, doc2. repeat split; try assumption.
    + apply (toggleMember_self Z.eqb Z.eqb_eq).
    + apply (toggleMember_self Z.eqb Z.eqb_eq).
    + now apply (toggleMember_other Z.eqb Z.eqb_eq).
    + now apply (toggleMember_other Z.eqb Z.eqb_eq).
    + apply (toggleMember_twice Z.eqb Z.eqb_eq).
    + apply (toggleMember_twice Z.eqb Z.eqb_eq).
Qed.

Definition warrantRow : NewDocument :=
  {| doc_type_id := "3"; doc_type_name := "Warrant Decisions"; file := None;
     expiry := ""; legislation_ids := [ "11"; "12" ] |}.

Definition warrantDocument : ExistingDocument :=
  {| ed_system_id := 90; docnumber := 5001; ed_expiry := None;
     ed_doc_type_id := 3; ed_legislation_ids := [ 11; 12 ];
     doc_name := "Warrant Decisions"; legislation_names := None |}.

Definition toggleState : State :=
  setExistingDocuments (fun _ => [ warrantDocument ])
    (setNewDocuments (fun _ => [ warrantRow ]) initialState).

Lemma legislation_toggle_round_trip_witness :
  (exists doc1 doc2,
      newDocuments (handleNewDocumentChange 0 (ChangeLegislation "12") toggleState)
        !! 0%nat = Some doc1
      /\ newDocuments
           (handleNewDocumentChange 0 (ChangeLegislation "12")
              (handleNewDocumentChange 0 (ChangeLegislation "12") toggleState))
           !! 0%nat = Some doc2
      /\ (forall y, In y (legislation_ids doc2) <-> In y [ "11"; "12" ]))
  /\ (exists doc1 doc2,
        existingDocuments (handleExistingDocLegislationChange 90 13 toggleState)
          !! 0%nat = Some doc1
        /\ existingDocuments
             (handleExistingDocLegislationChange 90 13
                (handleExistingDocLegislationChange 90 13 toggleState))
             !! 0%nat = Some doc2
        /\ (forall y, In y (ed_legislation_ids doc2) <-> In y [ 11; 12 ])).
Proof.
  destruct legislation_toggle_round_trip as [Hnew Hold]. split.
  - destruct (Hnew toggleState 0%nat warrantRow "12" eq_refl)
      as (doc1 & doc2 & L1 & L2 & _ & _ & Hback & _).
    exists doc1, doc2. auto.
  - destruct (Hold toggleState 0%nat warrantDocument 13 eq_refl)
      as (doc1 & doc2 & L1 & L2 & _ & _ & Hback).
    exists doc1, doc2. auto.
Defined.

End LegislationToggle.

Section DerivedStatus.

Import EmployeeForm.

(** Some attachment, persisted or pending, has the document type [j]. *)
Definition anyAttachmentOfType (j : Z) (s : State) : Prop :=
  (exists doc, In doc (existingDocuments s) /\ ed_doc_type_id doc = j)
  \/ (exists doc, In doc (newDocuments s) /\ doc_type_id doc = JS.toString j).

Lemma filter_nonempty {X : Type} (f : X -> bool) (l : list X) :
  (0 <? length (List.filter f l))%nat = true <-> exists x, In x l /\ f x = true.
Proof.
  rewrite Nat.ltb_lt. split.
  - destruct (List.filter f l) as [|x l'] eqn:E; cbn; [lia |]. intros _.
    exists x. apply filter_In. rewrite E. now left.
  - intros (x & Hx). apply filter_In in Hx.
    destruct (List.filter f l); [destruct Hx | cbn; lia].
Qed.

Lemma hasJudicialCard_iff (j : Z) (s : State) :
  hasJudicialCard j s = true <-> anyAttachmentOfType j s.
Proof.
  unfold hasJudicialCard, anyAttachmentOfType.
  set (f := fun doc : ExistingDocument => (ed_doc_type_id doc =? j)%Z).
  set (g := fun doc : NewDocument => String.eqb (doc_type_id doc) (JS.toString j)).
  pose proof (filter_nonempty f (existingDocuments s)) as Hf.
  pose proof (filter_nonempty g (newDocuments s)) as Hg.
  rewrite Nat.ltb_lt in Hf, Hg. rewrite Nat.ltb_lt. split.
  - intros H.
    destruct (Nat.eq_dec (length (List.filter f (existingDocuments s))) 0%nat) as [E|E].
    + right. destruct Hg as [Hg _].
      destruct Hg as (doc & Hin & Hd); [lia |].
      exists doc. split; [assumption | now apply String.eqb_eq].
    + left. destruct Hf as [Hf _].
      destruct Hf as (doc & Hin & Hd); [lia |].
      exists doc. split; [assumption | now apply Z.eqb_eq].
  - intros [(doc & Hin & Hd) | (doc & Hin & Hd)].
    + assert (0 < length (List.filter f (existingDocuments s)))%nat; [| lia].
      apply Hf. exists doc. split; [assumption | now apply Z.eqb_eq].
    + assert (0 < length (List.filter g (newDocuments s)))%nat; [| lia].
      apply Hg. exists doc. split; [assumption | now apply String.eqb_eq].
Qed.

Lemma findStatus_nonempty name s st :
  findStatus name s = Some st -> (length (statuses s) =? 0)%nat = false.
Proof. unfold findStatus. destruct (statuses s); [discriminate | reflexivity]. Qed.

(** The effect once its guard is passed. *)
Lemma derivedStatusEffect_unlocked (s : State) (j : Z) :
  isFormLocked s = false -> judicialCardDocTypeId s = Some j -> j <> 0 ->
  derivedStatusEffect s =
  if (length (statuses s) =? 0)%nat then s else
  if hasJudicialCard j s then
    match findStatus "Active" s with
    | Some a => setFormData (withStatusId (JS.toString (st_system_id a))) s
    | None => s
    end
  else
    match findStatus "Inactive" s with
    | Some i => setFormData (withStatusId (JS.toString (st_system_id i))) s
    | None => s
    end.
Proof.
  intros Hl Hj Hne. unfold derivedStatusEffect. rewrite Hl, Hj.
  apply truthyNum_true in Hne. rewrite Hne. reflexivity.
Qed.

(** The effect writes the status field only. *)
Lemma derivedStatusEffect_frame (s : State) :
  statuses (derivedStatusEffect s) = statuses s
  /\ docTypes (derivedStatusEffect s) = docTypes s
  /\ existingDocuments (derivedStatusEffect s) = existingDocuments s
  /\ newDocuments (derivedStatusEffect s) = newDocuments s
  /\ deletedDocIds (derivedStatusEffect s) = deletedDocIds s
  /\ isFormLocked (derivedStatusEffect s) = isFormLocked s.
Proof.
  unfold derivedStatusEffect.
  destruct (isFormLocked s) eqn:El; [auto 10 |].
  destruct (judicialCardDocTypeId s) as [j|]; [| auto 10].
  destruct (negb (JS.truthyNum j) || (length (statuses s) =? 0)%nat); [auto 10 |].
  destruct (hasJudicialCard j s).
  - destruct (findStatus "Active" s); repeat split; cbn; congruence.
  - destruct (findStatus "Inactive" s); repeat split; cbn; congruence.
Qed.

(** What the guard of the effect and its two look-ups read. *)
Record sameCatalogue (s t : State) : Prop := {
  same_statuses : statuses t = statuses s;
  same_docTypes : docTypes t = docTypes s;
  same_lock : isFormLocked t = isFormLocked s;
  same_existing : existingDocuments t = existingDocuments s }.

Lemma sameCatalogue_effect s t :
  sameCatalogue s t -> sameCatalogue s (derivedStatusEffect t).
Proof.
  intros [H1 H2 H3 H4].
  destruct (derivedStatusEffect_frame t) as (F1 & F2 & F3 & _ & _ & F6).
  constructor; congruence.
Qed.

(** The status the effect leaves behind when both catalogue entries
    exist. *)
Lemma derivedStatus_value (s t : State) (j : Z) (a i : Status) :
  isFormLocked s = false -> judicialCardDocTypeId s = Some j -> j <> 0 ->
  findStatus "Active" s = Some a -> findStatus "Inactive" s = Some i ->
  sameCatalogue s t ->
  status_id (formData (derivedStatusEffect t))
  = if hasJudicialCard j t then JS.toString (st_system_id a)
    else JS.toString (st_system_id i).
Proof.
  intros Hl Hj Hne Ha Hi [H1 H2 H3 H4].
  assert (Hj' : judicialCardDocTypeId t = Some j)
    by (unfold judicialCardDocTypeId in *; now rewrite H2).
  assert (Ha' : findStatus "Active" t = Some a)
    by (unfold findStatus in *; now rewrite H1).
  assert (Hi' : findStatus "Inactive" t = Some i)
    by (unfold findStatus in *; now rewrite H1).
  rewrite (derivedStatusEffect_unlocked t j) by congruence.
  rewrite (findStatus_nonempty _ _ _ Ha'), Ha', Hi'.
  now destruct (hasJudicialCard j t).
Qed.

Lemma dispatch_offered p s a :
  offered p s a = true ->
  dispatch p s a =
  if effectDepsChanged a s (act p a s) then derivedStatusEffect (act p a s)
  else act p a s.
Proof. intros H. unfold dispatch. now rewrite H. Qed.

Lemma usedDocTypeIds_no_types (s : State) :
  existingDocuments s = [] ->
  Forall (fun doc => doc_type_id doc = "") (newDocuments s) ->
  usedDocTypeIds s = ∅.
Proof.
  intros He Hn. unfold usedDocTypeIds. rewrite He. cbn [fold_left].
  induction Hn as [|doc l Hd _ IH]; [reflexivity |].
  cbn [fold_left]. rewrite Hd. exact IH.
Qed.

Lemma sameCatalogue_refl s : sameCatalogue s s.
Proof. now constructor. Qed.

Lemma hasJudicialCard_cells j s t :
  existingDocuments t = existingDocuments s ->
  newDocuments t = newDocuments s ->
  hasJudicialCard j t = hasJudicialCard j s.
Proof. intros He Hn. unfold hasJudicialCard. now rewrite He, Hn. Qed.

(** C1 (as amended): in an unlocked form whose catalogue has a
    judicial-card type with a non-zero id, the effect sets the status to
    the entry named Active when some attachment, persisted or pending, has
    that type and the entry exists, and to the entry named Inactive when no
    attachment has that type and that entry exists; it leaves the status
    untouched exactly when the one entry its branch needs is absent.  In
    the scenario (both entries present, no attachments) the status is
    Inactive, becomes Active once a pending row of the judicial-card type
    is added, and is Inactive again once that row is removed. *)
Theorem derived_status_rule (p : Props) (s : State) (j : Z) :
  isFormLocked s = false -> judicialCardDocTypeId s = Some j -> j <> 0 ->
  (anyAttachmentOfType j s -> forall a, findStatus "Active" s = Some a ->
     derivedStatusEffect s
     = setFormData (withStatusId (JS.toString (st_system_id a))) s)
  /\ (anyAttachmentOfType j s -> findStatus "Active" s = None ->
        derivedStatusEffect s = s)
  /\ (~ anyAttachmentOfType j s -> forall i, findStatus "Inactive" s = Some i ->
        derivedStatusEffect s
        = setFormData (withStatusId (JS.toString (st_system_id i))) s)
  /\ (~ anyAttachmentOfType j s -> findStatus "Inactive" s = None ->
        derivedStatusEffect s = s)
  /\ (forall a i,
        isViewer p = false ->
        existingDocuments s = [] -> newDocuments s = [] ->
        findStatus "Active" s = Some a -> findStatus "Inactive" s = Some i ->
        let s0 := derivedStatusEffect s in
        let s1 := run p [ AddNewDocumentRow;
                          NewDocumentChange 0 (ChangeDocTypeId (JS.toString j)) ]
                      s0 in
        let s2 := run p [ RemoveNewDocumentRow 0 ] s1 in
        status_id (formData s0) = JS.toString (st_system_id i)
        /\ (exists doc, newDocuments s1 = [ doc ]
                        /\ doc_type_id doc = JS.toString j)
        /\ status_id (formData s1) = JS.toString (st_system_id a)
        /\ newDocuments s2 = []
        /\ status_id (formData s2) = JS.toString (st_system_id i)).
Proof.
  intros Hl Hj Hne.
  pose proof (derivedStatusEffect_unlocked s j Hl Hj Hne) as Heff.
  split; [| split; [| split; [| split]]].
  - intros Hany a Ha. rewrite Heff, (findStatus_nonempty _ _ _ Ha), Ha.
    apply hasJudicialCard_iff in Hany. now rewrite Hany.
  - intros Hany Ha. rewrite Heff, Ha.
    apply hasJudicialCard_iff in Hany. rewrite Hany.
    now destruct (length (statuses s) =? 0)%nat.
  - intros Hany i Hi. rewrite Heff, (findStatus_nonempty _ _ _ Hi), Hi.
    destruct (hasJudicialCard j s) eqn:E; [| reflexivity].
    apply hasJudicialCard_iff in E. contradiction.
  - intros Hany Hi. rewrite Heff, Hi.
    destruct (hasJudicialCard j s) eqn:E.
    + apply hasJudicialCard_iff in E. contradiction.
    + now destruct (length (statuses s) =? 0)%nat.
  - intros a i Hv He Hn Ha Hi s0 s1 s2.
    (* the form with no attachments *)
    assert (C0 : sameCatalogue s s0)
      by (apply sameCatalogue_effect, sameCatalogue_refl).
    assert (N0 : newDocuments s0 = []).
    { subst s0. destruct (derivedStatusEffect_frame s) as (_ & _ & _ & F & _).
      congruence. }
    assert (V0 : status_id (formData s0) = JS.toString (st_system_id i)).
    { subst s0.
      rewrite (derivedStatus_value s s j a i) by (auto using sameCatalogue_refl).
      unfold hasJudicialCard. now rewrite He, Hn. }
    (* one empty row is added *)
    set (t1 := addNewDocumentRow s0).
    set (s1a := derivedStatusEffect t1).
    assert (D1 : dispatch p s0 AddNewDocumentRow = s1a).
    { rewrite dispatch_offered; [reflexivity |].
      cbn [offered]. destruct C0 as [_ _ L _]. now rewrite Hv, L, Hl. }
    assert (Ct1 : sameCatalogue s t1) by (destruct C0; now constructor).
    assert (C1 : sameCatalogue s s1a) by now apply sameCatalogue_effect.
    assert (N1 : newDocuments s1a = [ emptyNewDocument ]).
    { subst s1a. destruct (derivedStatusEffect_frame t1) as (_ & _ & _ & F & _).
      rewrite F. subst t1. cbn [addNewDocumentRow newDocuments setNewDocuments].
      now rewrite N0. }
    (* its type becomes the judicial-card type *)
    set (v := JS.toString j).
    set (t2 := handleNewDocumentChange 0 (ChangeDocTypeId v) s1a).
    set (s1b := derivedStatusEffect t2).
    assert (Hfind : exists dt, In dt (all_types (docTypes s1a))
                               /\ dt_system_id dt = j).
    { destruct C1 as [_ D _ _]. rewrite D. unfold judicialCardDocTypeId in Hj.
      destruct (List.find isJudicialCard (all_types (docTypes s))) as [dt|] eqn:E;
        [| discriminate].
      apply find_some in E. exists dt. cbn in Hj. split; [tauto | congruence]. }
    assert (U1 : usedDocTypeIds s1a = ∅).
    { apply usedDocTypeIds_no_types.
      - destruct C1 as [_ _ _ E]. congruence.
      - rewrite N1. repeat constructor. }
    assert (D2 : dispatch p s1a (NewDocumentChange 0 (ChangeDocTypeId v)) = s1b).
    { rewrite dispatch_offered.
      - cbn [effectDepsChanged]. rewrite N1. reflexivity.
      - cbn [offered]. destruct C1 as [_ _ L _]. rewrite Hv, L, Hl, N1.
        cbn [negb andb lookup list_lookup]. unfold selectable.
        apply orb_true_iff. right. apply existsb_exists.
        destruct Hfind as (dt & Hin & Hid). exists dt. split; [assumption |].
        unfold optionDisabled. rewrite U1, Hid. subst v.
        rewrite String.eqb_refl. reflexivity. }
    assert (Ct2 : sameCatalogue s t2).
    { destruct C1 as [A B C D]. subst t2.
      unfold handleNewDocumentChange, updateDoc.
      cbn [newDocuments setError]. rewrite N1. cbn [lookup list_lookup].
      now constructor. }
    assert (C2 : sameCatalogue s s1b) by now apply sameCatalogue_effect.
    assert (Nt2 : exists doc, newDocuments t2 = [ doc ] /\ doc_type_id doc = v).
    { subst t2. unfold handleNewDocumentChange.
      rewrite (newDocuments_updateDoc 0 _ (setError "" s1a) emptyNewDocument)
        by (cbn [newDocuments setError]; now rewrite N1).
      cbn [newDocuments setError]. rewrite N1.
      eexists. split; reflexivity. }
    assert (N2 : exists doc, newDocuments s1b = [ doc ] /\ doc_type_id doc = v).
    { subst s1b. destruct (derivedStatusEffect_frame t2) as (_ & _ & _ & F & _).
      now rewrite F. }
    assert (V2 : status_id (formData s1b) = JS.toString (st_system_id a)).
    { subst s1b. rewrite (derivedStatus_value s t2 j a i) by assumption.
      replace (hasJudicialCard j t2) with true; [reflexivity |].
      symmetry. apply hasJudicialCard_iff. right.
      destruct Nt2 as (doc & Hd & Hv2). exists doc. rewrite Hd.
      split; [now left | assumption]. }
    assert (E1 : s1 = s1b).
    { subst s1. unfold run. cbn [fold_left]. fold v. now rewrite D1, D2. }
    (* the row is removed *)
    set (t3 := removeNewDocumentRow 0 s1b).
    assert (D3 : dispatch p s1b (RemoveNewDocumentRow 0) = derivedStatusEffect t3).
    { rewrite dispatch_offered; [reflexivity |].
      cbn [offered]. destruct C2 as [_ _ L _]. rewrite Hv, L, Hl.
      destruct N2 as (doc & -> & _). reflexivity. }
    assert (Ct3 : sameCatalogue s t3) by (destruct C2; now constructor).
    assert (Nt3 : newDocuments t3 = []).
    { subst t3. cbn [removeNewDocumentRow newDocuments setNewDocuments].
      destruct N2 as (doc & -> & _). reflexivity. }
    assert (E2 : s2 = derivedStatusEffect t3).
    { subst s2. unfold run. cbn [fold_left]. now rewrite E1, D3. }
    rewrite E1, E2. repeat split; try assumption.
    + destruct (derivedStatusEffect_frame t3) as (_ & _ & _ & F & _). congruence.
    + rewrite (derivedStatus_value s t3 j a i) by assumption.
      unfold hasJudicialCard. destruct Ct3 as [_ _ _ E]. now rewrite E, He, Nt3.
Qed.

Definition editor : Props := {| employeeToEditId := None; isViewer := false |}.

Definition activeStatus : Status :=
  {| st_system_id := 1; name_english := "Active"; name_arabic := "فعال" |}.

Definition inactiveStatus : Status :=
  {| st_system_id := 2; name_english := "Inactive"; name_arabic := "غير فعال" |}.

Definition sampleDocTypes : DocumentTypesResponse :=
  {| all_types := [ {| dt_system_id := 4; dt_name := "Passport" |};
                    {| dt_system_id := 7; dt_name := "Judicial Card" |};
                    {| dt_system_id := 9; dt_name := "Other" |} ];
     types_with_expiry := [ {| dt_system_id := 4; dt_name := "Passport" |};
                            {| dt_system_id := 7; dt_name := "Judicial Card" |} ] |}.

(** An unlocked form with the given status catalogue and pending rows. *)
Definition unlockedForm (catalogue : list Status) (rows : list NewDocument) : State :=
  setNewDocuments (fun _ => rows)
    (setIsFormLocked false
       (setDocTypes sampleDocTypes (setStatuses catalogue seededState))).

Definition judicialCardRow : NewDocument :=
  {| doc_type_id := "7"; doc_type_name := "Judicial Card"; file := None;
     expiry := ""; legislation_ids := [] |}.

Lemma derived_status_rule_witness :
  (let s := unlockedForm [ activeStatus; inactiveStatus ] [] in
   let s0 := derivedStatusEffect s in
   let s1 := run editor [ AddNewDocumentRow;
                          NewDocumentChange 0 (ChangeDocTypeId "7") ] s0 in
   let s2 := run editor [ RemoveNewDocumentRow 0 ] s1 in
   status_id (formData s0) = "2"
   /\ status_id (formData s1) = "1"
   /\ status_id (formData s2) = "2")
  /\ derivedStatusEffect (unlockedForm [ activeStatus ] [ judicialCardRow ])
     = setFormData (withStatusId "1")
                   (unlockedForm [ activeStatus ] [ judicialCardRow ])
  /\ derivedStatusEffect (unlockedForm [ inactiveStatus ] [ judicialCardRow ])
     = unlockedForm [ inactiveStatus ] [ judicialCardRow ]
  /\ derivedStatusEffect (unlockedForm [ inactiveStatus ] [])
     = setFormData (withStatusId "2") (unlockedForm [ inactiveStatus ] [])
  /\ derivedStatusEffect (unlockedForm [ activeStatus ] [])
     = unlockedForm [ activeStatus ] [].
Proof.
  assert (Hcard : forall catalogue,
             anyAttachmentOfType 7 (unlockedForm catalogue [ judicialCardRow ])).
  { intros catalogue. right. exists judicialCardRow. split; [now left | reflexivity]. }
  assert (Hnone : forall catalogue,
             ~ anyAttachmentOfType 7 (unlockedForm catalogue [])).
  { intros catalogue [(doc & [] & _) | (doc & [] & _)]. }
  split; [| split; [| split; [| split]]].
  - intros s s0 s1 s2.
    destruct (derived_status_rule editor s 7 eq_refl eq_refl ltac:(lia))
      as (_ & _ & _ & _ & H).
    destruct (H activeStatus inactiveStatus eq_refl eq_refl eq_refl eq_refl eq_refl)
      as (A & _ & B & _ & C).
    repeat split; assumption.
  - destruct (derived_status_rule editor
                (unlockedForm [ activeStatus ] [ judicialCardRow ]) 7
                eq_refl eq_refl ltac:(lia)) as (H & _).
    apply (H (Hcard _) activeStatus eq_refl).
  - destruct (derived_status_rule editor
                (unlockedForm [ inactiveStatus ] [ judicialCardRow ]) 7
                eq_refl eq_refl ltac:(lia)) as (_ & H & _).
    apply (H (Hcard _) eq_refl).
  - destruct (derived_status_rule editor
                (unlockedForm [ inactiveStatus ] []) 7
                eq_refl eq_refl ltac:(lia)) as (_ & _ & H & _).
    apply (H (Hnone _) inactiveStatus eq_refl).
  - destruct (derived_status_rule editor
                (unlockedForm [ activeStatus ] []) 7
                eq_refl eq_refl ltac:(lia)) as (_ & _ & _ & H & _).
    apply (H (Hnone _) eq_refl).
Defined.

(** C1 (as stated) fails: with a judicial-card attachment and a catalogue
    that has Active but no Inactive entry, the effect still overwrites the
    status with Active. *)
Lemma derived_status_without_inactive_entry :
  let s := unlockedForm [ activeStatus ] [ judicialCardRow ] in
  findStatus "Inactive" s = None
  /\ status_id (formData s) = ""
  /\ status_id (formData (derivedStatusEffect s)) = "1".
Proof. vm_compute. repeat split; reflexivity. Qed.

End DerivedStatus.

Section Submission.

Import EmployeeForm.

(** The document type with id [n] is listed among the types with an
    expiry date. *)
Definition expiryTracked (s : State) (n : Z) : Prop :=
  In n (map dt_system_id (types_with_expiry (docTypes s))).

(** A pending row that the validation loop lets through: it has no type
    yet, or it has an expiry date, or its type is not expiry-tracked. *)
Definition rowAcceptable (s : State) (doc : NewDocument) : Prop :=
  doc_type_id doc = ""
  \/ expiry doc <> ""
  \/ exists n, doc_type_id doc = JS.toString n /\ ~ expiryTracked s n.

Lemma has_expiryDocTypeIds (s : State) (n : Z) :
  has (expiryDocTypeIds s) (Some n) = true <-> expiryTracked s n.
Proof.
  unfold has, expiryDocTypeIds, expiryTracked.
  rewrite bool_decide_eq_true, elem_of_list_to_set. apply list_elem_of_In.
Qed.

Lemma expiryViolation_tracked (s : State) (doc : NewDocument) (n : Z) :
  doc_type_id doc = JS.toString n -> expiryTracked s n -> expiry doc = "" ->
  expiryViolation s doc
  = Some (expiryRequiredMessage (findDocType s (doc_type_id doc))).
Proof.
  intros Hid Ht He. unfold expiryViolation.
  rewrite Hid, truthyStr_toString, parseInt_toString, He.
  apply has_expiryDocTypeIds in Ht. now rewrite Ht.
Qed.

Lemma expiryViolation_acceptable (s : State) (doc : NewDocument) :
  rowAcceptable s doc -> expiryViolation s doc = None.
Proof.
  unfold expiryViolation. intros [Hid | [He | (n & Hid & Hn)]].
  - now rewrite Hid.
  - destruct (JS.truthyStr (doc_type_id doc)); [| reflexivity].
    destruct (expiry doc); [congruence |]. cbn. now rewrite andb_false_r.
  - rewrite Hid, truthyStr_toString, parseInt_toString.
    destruct (has (expiryDocTypeIds s) (Some n)) eqn:E; [| reflexivity].
    apply has_expiryDocTypeIds in E. contradiction.
Qed.

Lemma firstExpiryViolation_app (s : State) (before after : list NewDocument)
    (doc : NewDocument) :
  Forall (fun d => expiryViolation s d = None) before ->
  firstExpiryViolation s (before ++ doc :: after)
  = match expiryViolation s doc with
    | Some msg => Some msg
    | None => firstExpiryViolation s after
    end.
Proof.
  induction 1 as [|d l Hd _ IH]; [reflexivity |].
  cbn [app firstExpiryViolation]. now rewrite Hd.
Qed.

Lemma firstExpiryViolation_none (s : State) (docs : list NewDocument) :
  Forall (fun d => expiryViolation s d = None) docs ->
  firstExpiryViolation s docs = None.
Proof.
  induction 1 as [|d l Hd _ IH]; [reflexivity |].
  cbn [firstExpiryViolation]. now rewrite Hd.
Qed.

Lemma firstExpiryViolation_setError (e : string) (s : State)
    (docs : list NewDocument) :
  firstExpiryViolation (setError e s) docs = firstExpiryViolation s docs.
Proof.
  induction docs as [|d l IH]; [reflexivity |].
  cbn [firstExpiryViolation]. rewrite IH. reflexivity.
Qed.

(** [handleSubmit] of an editor, by the outcome of the two checks. *)
Lemma handleSubmit_editor (p : Props) (s : State) :
  isViewer p = false ->
  handleSubmit p s =
  if negb (truthyId (employee_id (formData s)))
  then (setError "An employee must be selected." (setError "" s), None)
  else match firstExpiryViolation s (newDocuments s) with
       | Some msg => (setError msg (setError "" s), None)
       | None => (setIsSubmitting true (setError "" s),
                  Some (submitRequest p (setError "" s)))
       end.
Proof.
  intros Hv. unfold handleSubmit. rewrite Hv, firstExpiryViolation_setError.
  reflexivity.
Qed.

(** The first row in violation decides the outcome. *)
Lemma handleSubmit_first_violation (p : Props) (s : State)
    (before after : list NewDocument) (doc : NewDocument) (n : Z) :
  isViewer p = false ->
  truthyId (employee_id (formData s)) = true ->
  newDocuments s = before ++ doc :: after ->
  Forall (rowAcceptable s) before ->
  doc_type_id doc = JS.toString n -> expiryTracked s n -> expiry doc = "" ->
  handleSubmit p s
  = (setError (expiryRequiredMessage (findDocType s (doc_type_id doc)))
              (setError "" s), None).
Proof.
  intros Hv Hid Hdocs Hbefore Hn Ht He.
  rewrite (handleSubmit_editor p s Hv), Hid, Hdocs. cbn [negb].
  rewrite firstExpiryViolation_app.
  - now rewrite (expiryViolation_tracked s doc n).
  - eapply Forall_impl; [exact Hbefore |]. apply expiryViolation_acceptable.
Qed.

Definition scan : File := {| file_name := "scan.pdf"; file_type := "application/pdf" |}.

(** Type 9 is not expiry-tracked, types 4 and 7 are. *)
Definition otherRow : NewDocument :=
  {| doc_type_id := "9"; doc_type_name := "Other"; file := Some scan;
     expiry := ""; legislation_ids := [] |}.

Definition passportRow : NewDocument :=
  {| doc_type_id := "4"; doc_type_name := "Passport"; file := Some scan;
     expiry := ""; legislation_ids := [] |}.

Lemma otherRow_acceptable rows :
  rowAcceptable (unlockedForm [ activeStatus; inactiveStatus ] rows) otherRow.
Proof.
  right. right. exists 9. split; [reflexivity |].
  cbv. intros [H | [H | []]]; discriminate.
Defined.

(** *** The multipart body *)

Fixpoint allDigits (t : string) : bool :=
  match t with
  | String c t' => JS.isDigit c && allDigits t'
  | EmptyString => true
  end.

Lemma allDigits_string_of_uint d : allDigits (NilEmpty.string_of_uint d) = true.
Proof. induction d; cbn [NilEmpty.string_of_uint allDigits]; auto. Qed.

Lemma allDigits_toString_nat (k : nat) : allDigits (JS.toString (Z.of_nat k)) = true.
Proof.
  destruct (Z.of_nat k) as [|q|q] eqn:E; [reflexivity | | lia].
  unfold JS.toString. cbn [Z.to_int NilZero.string_of_int].
  rewrite NilZero_string_of_uint_nonnil by apply Unsigned.to_uint_nonnil.
  apply allDigits_string_of_uint.
Qed.

Lemma append_cons (x : ascii) (a b : string) :
  String x a +:+ b = String x (a +:+ b).
Proof. reflexivity. Qed.

Lemma append_nil (b : string) : "" +:+ b = b.
Proof. reflexivity. Qed.

Lemma append_assoc' (a b c : string) : (a +:+ b) +:+ c = a +:+ (b +:+ c).
Proof.
  induction a as [|x a IH]; [reflexivity |].
  rewrite !append_cons. now rewrite IH.
Qed.

Lemma startsWith_append (a b c : string) :
  JS.startsWith (a +:+ b) (a +:+ c) = JS.startsWith b c.
Proof.
  induction a as [|x a IH]; [reflexivity |].
  rewrite !append_cons. cbn [JS.startsWith]. now rewrite Ascii.eqb_refl.
Qed.

Lemma isDigit_not_bracket c : JS.isDigit c = true -> Ascii.eqb c "]" = false.
Proof. destruct c as [[] [] [] [] [] [] [] []]; vm_compute; congruence. Qed.

(** Two numerals followed by a closing bracket: one is a prefix of the
    other only if the numerals are equal. *)
Lemma startsWith_numeral (a b rest : string) :
  allDigits a = true -> allDigits b = true ->
  JS.startsWith (a +:+ "]") (b +:+ String "]" rest) = String.eqb a b.
Proof.
  revert b. induction a as [|x a IH]; intros [|y b] Ha Hb;
    cbn [allDigits] in Ha, Hb; rewrite ?append_cons, ?append_nil;
    cbn [JS.startsWith String.eqb].
  - reflexivity.
  - apply andb_true_iff in Hb as [Hy _].
    apply isDigit_not_bracket in Hy. rewrite Ascii.eqb_sym, Hy. reflexivity.
  - apply andb_true_iff in Ha as [Hx _].
    apply isDigit_not_bracket in Hx. now rewrite Hx.
  - apply andb_true_iff in Ha as [_ Ha]. apply andb_true_iff in Hb as [_ Hb].
    rewrite (IH b Ha Hb). now destruct (Ascii.eqb x y).
Qed.

(** The key belongs to the entries of row [index]. *)
Definition belongsToRow (index : nat) (key : string) : bool :=
  JS.startsWith ("new_documents[" +:+ JS.toString (Z.of_nat index) +:+ "]") key.

Lemma belongsToRow_key (i k : nat) (field suffix : string) :
  belongsToRow i (newDocumentKey k field +:+ suffix) = (i =? k)%nat.
Proof.
  unfold belongsToRow, newDocumentKey.
  rewrite !append_assoc', startsWith_append.
  change ("][" +:+ field +:+ "]" +:+ suffix)
    with (String "]" (String "[" (field +:+ "]" +:+ suffix))).
  rewrite startsWith_numeral by apply allDigits_toString_nat.
  rewrite toString_eqb.
  destruct (Nat.eqb_spec i k) as [->|Hne]; [apply Z.eqb_refl |].
  apply Z.eqb_neq. lia.
Qed.

Lemma append_empty (a : string) : a +:+ "" = a.
Proof.
  induction a as [|x a IH]; [reflexivity |]. rewrite append_cons. now rewrite IH.
Qed.

Lemma filter_all_or_none {X : Type} (Q : X -> bool) (b : bool) (l : list X) :
  (forall x, In x l -> Q x = b) -> List.filter Q l = if b then l else [].
Proof.
  induction l as [|x l IH]; intros H; [now destruct b |].
  cbn [List.filter]. rewrite (H x (or_introl eq_refl)).
  rewrite IH by (intros y Hy; apply H; now right).
  now destruct b.
Qed.

Lemma filter_newDocumentEntries (i k : nat) (doc : NewDocument) :
  List.filter (fun e => belongsToRow i (fst e)) (newDocumentEntries k doc)
  = if (i =? k)%nat then newDocumentEntries k doc else [].
Proof.
  apply filter_all_or_none. intros [key value] Hin. cbn [fst].
  unfold newDocumentEntries in Hin.
  destruct (file doc) as [f|]; [| destruct Hin].
  destruct (JS.truthyStr (doc_type_id doc)); [| destruct Hin].
  apply in_app_iff in Hin as [Hin | Hin].
  - cbn [In] in Hin.
    destruct Hin as [H | [H | [H | [H | []]]]]; injection H as <- _;
      rewrite <- (append_empty (newDocumentKey k _)); apply belongsToRow_key.
  - apply in_map_iff in Hin as (legId & H & _). injection H as <- _.
    apply belongsToRow_key.
Qed.

Lemma filter_concat_imap {X Y : Type} (Q : Y -> bool) (l : list X) :
  forall (g : nat -> X -> list Y) (oi : option nat),
    (forall k x, List.filter Q (g k x)
                 = match oi with
                   | Some i => if (i =? k)%nat then g k x else []
                   | None => []
                   end) ->
    List.filter Q (concat (imap g l))
    = match oi with
      | Some i => match l !! i with Some x => g i x | None => [] end
      | None => []
      end.
Proof.
  induction l as [|x l IH]; intros g oi H.
  - cbn. now destruct oi.
  - rewrite imap_cons. cbn [concat]. rewrite List.filter_app, H.
    destruct oi as [[|i]|].
    + cbn [Nat.eqb lookup list_lookup].
      rewrite (IH (g ∘ S) None); [apply app_nil_r |].
      intros k y. apply (H (S k) y).
    + cbn [Nat.eqb lookup list_lookup app].
      rewrite (IH (g ∘ S) (Some i)); [reflexivity |].
      intros k y. apply (H (S k) y).
    + cbn [app]. rewrite (IH (g ∘ S) None); [reflexivity |].
      intros k y. apply (H (S k) y).
Qed.

(** The entries of the body that belong to row [index] are the ones the
    [forEach] callback appended for that position. *)
Lemma submissionData_row (p : Props) (s : State) (index : nat) :
  List.filter (fun e => belongsToRow index (fst e)) (submissionData p s)
  = match newDocuments s !! index with
    | Some doc => newDocumentEntries index doc
    | None => []
    end.
Proof.
  unfold submissionData. rewrite !List.filter_app.
  rewrite (filter_concat_imap _ (newDocuments s) newDocumentEntries (Some index))
    by (intros k x; apply filter_newDocumentEntries).
  replace (List.filter _ [ ("employee_data", _) ]) with (@nil (string * FormValue))
    by reflexivity.
  replace (List.filter _ [ ("deleted_documents", _) ])
    with (@nil (string * FormValue)) by reflexivity.
  replace (List.filter _ (if isEditMode p then _ else _))
    with (@nil (string * FormValue)) by (now destruct (isEditMode p)).
  cbn [app]. now rewrite !app_nil_r.
Qed.

(** C10: the entries of the multipart body that belong to the pending row
    at position [index] are the file, type id, type name, expiry and
    legislation entries of that row, keyed by that very position, when the
    row has both a file and a non-empty type id, and there are none when it
    lacks either; the positions that are sent therefore need not be
    contiguous.  A row with a type but no file is left out of the body and
    still takes part in the expiry validation. *)
Theorem submissionData_new_documents (p : Props) (s : State) (index : nat)
    (doc : NewDocument) :
  newDocuments s !! index = Some doc ->
  (forall f, file doc = Some f -> doc_type_id doc <> "" ->
     List.filter (fun e => belongsToRow index (fst e)) (submissionData p s)
     = [ (newDocumentKey index "file", FvFile f);
         (newDocumentKey index "doc_type_id", FvString (doc_type_id doc));
         (newDocumentKey index "doc_type_name", FvString (doc_type_name doc));
         (newDocumentKey index "expiry", FvString (expiry doc)) ]
       ++ map (fun legId =>
                 (newDocumentKey index "legislation_ids" +:+ "[]", FvString legId))
              (legislation_ids doc))
  /\ (file doc = None \/ doc_type_id doc = "" ->
      List.filter (fun e => belongsToRow index (fst e)) (submissionData p s) = [])
  /\ (forall n,
        isViewer p = false ->
        truthyId (employee_id (formData s)) = true ->
        Forall (rowAcceptable s) (take index (newDocuments s)) ->
        file doc = None ->
        doc_type_id doc = JS.toString n -> expiryTracked s n -> expiry doc = "" ->
        List.filter (fun e => belongsToRow index (fst e)) (submissionData p s) = []
        /\ snd (handleSubmit p s) = None
        /\ error (fst (handleSubmit p s))
           = expiryRequiredMessage (findDocType s (doc_type_id doc))).
Proof.
  intros Hdoc.
  pose proof (submissionData_row p s index) as Hrow. rewrite Hdoc in Hrow.
  assert (Hout : file doc = None \/ doc_type_id doc = "" ->
                 List.filter (fun e => belongsToRow index (fst e))
                             (submissionData p s) = []).
  { intros H. rewrite Hrow. unfold newDocumentEntries.
    destruct H as [-> | ->]; [reflexivity | now destruct (file doc)]. }
  split; [| split].
  - intros f Hf Hid. rewrite Hrow. unfold newDocumentEntries. rewrite Hf.
    destruct (doc_type_id doc); [congruence | reflexivity].
  - exact Hout.
  - intros n Hv Hsel Hbefore Hfile Hid Ht He.
    split; [apply Hout; now left |].
    rewrite (handleSubmit_first_violation p s (take index (newDocuments s))
               (drop (S index) (newDocuments s)) doc n); auto.
    symmetry. now apply take_drop_middle.
Qed.

Definition fileLessRow : NewDocument :=
  {| doc_type_id := "7"; doc_type_name := "Judicial Card"; file := None;
     expiry := "2027-01-31"; legislation_ids := [] |}.

Definition datedPassportRow : NewDocument :=
  {| doc_type_id := "4"; doc_type_name := "Passport"; file := Some scan;
     expiry := "2030-06-30"; legislation_ids := [] |}.

(** Three pending rows; the middle one has no file. *)
Definition gappedForm : State :=
  unlockedForm [ activeStatus; inactiveStatus ]
               [ otherRow; fileLessRow; datedPassportRow ].

Lemma submissionData_new_documents_witness :
  List.filter (fun e => belongsToRow 1 (fst e)) (submissionData editor gappedForm)
  = []
  /\ List.filter (fun e => belongsToRow 2 (fst e)) (submissionData editor gappedForm)
     = [ ("new_documents[2][file]", FvFile scan);
         ("new_documents[2][doc_type_id]", FvString "4");
         ("new_documents[2][doc_type_name]", FvString "Passport");
         ("new_documents[2][expiry]", FvString "2030-06-30") ]
  /\ snd (handleSubmit editor
            (unlockedForm [ activeStatus; inactiveStatus ]
                          [ otherRow; judicialCardRow ])) = None.
Proof.
  split; [| split].
  - destruct (submissionData_new_documents editor gappedForm 1 fileLessRow eq_refl)
      as (_ & H & _).
    apply H. now left.
  - destruct (submissionData_new_documents editor gappedForm 2 datedPassportRow
                eq_refl) as (H & _).
    apply (H scan eq_refl). discriminate.
  - destruct (submissionData_new_documents editor
                (unlockedForm [ activeStatus; inactiveStatus ]
                              [ otherRow; judicialCardRow ])
                1 judicialCardRow eq_refl) as (_ & _ & H).
    apply (H 7); try reflexivity.
    + constructor; [apply otherRow_acceptable | constructor].
    + cbv. auto.
Defined.

End Submission.

Section PersistedRemoval.

Import EmployeeForm.

(** No id is both listed for deletion and still among the persisted
    attachments, and no id is listed for deletion twice. *)
Definition deletionInvariant (s : State) : Prop :=
  NoDup (deletedDocIds s)
  /\ forall doc, In doc (existingDocuments s) ->
                 ~ In (ed_system_id doc) (deletedDocIds s).

Definition notHydrate (a : Action) : Prop :=
  match a with
  | Hydrate _ _ => False
  | _ => True
  end.

Ltac split_matches :=
  repeat match goal with
         | |- context [match ?x with _ => _ end] => destruct x
         end.

(** Apart from the two handlers of persisted rows and the hydration, no
    action touches the persisted attachments or the deletion list. *)
Lemma act_keeps_persisted (p : Props) (a : Action) (s : State) :
  match a with
  | Hydrate _ _ | ExistingDocLegislationChange _ _ | DeleteExistingDoc _ => True
  | _ => existingDocuments (act p a s) = existingDocuments s
         /\ deletedDocIds (act p a s) = deletedDocIds s
  end.
Proof.
  destruct a; cbn [act]; try exact I; try (split; reflexivity).
  - unfold handleEmployeeSelect. split_matches; split; reflexivity.
  - unfold handleNewDocumentChange, updateDoc. split_matches; split; reflexivity.
  - unfold handleSubmit. split_matches; split; reflexivity.
Qed.

Lemma handleDeleteExistingDoc_cells (docId : Z) (s : State) :
  existingDocuments (handleDeleteExistingDoc docId s)
  = List.filter (fun doc => negb (ed_system_id doc =? docId)%Z) (existingDocuments s)
  /\ deletedDocIds (handleDeleteExistingDoc docId s) = deletedDocIds s ++ [ docId ].
Proof. split; reflexivity. Qed.

Lemma act_preserves_invariant (p : Props) (a : Action) (s : State) :
  notHydrate a -> offered p s a = true ->
  deletionInvariant s -> deletionInvariant (act p a s).
Proof.
  intros Hnh Hoff [Hnd Hdisj]. unfold deletionInvariant.
  pose proof (act_keeps_persisted p a s) as Hkeep.
  destruct a; try destruct Hnh;
    lazymatch type of Hkeep with
    | True => idtac
    | _ => destruct Hkeep as [-> ->]; now split
    end.
  - (* a legislation toggle on a persisted row *)
    cbn [act]. unfold handleExistingDocLegislationChange.
    cbn [existingDocuments deletedDocIds setExistingDocuments].
    split; [assumption |]. intros doc Hin.
    apply in_map_iff in Hin as (doc0 & <- & Hin0).
    specialize (Hdisj doc0 Hin0).
    now destruct (ed_system_id doc0 =? docSystemId)%Z.
  - (* the removal of a persisted row *)
    cbn [act]. destruct (handleDeleteExistingDoc_cells docId s) as [-> ->].
    cbn [offered] in Hoff.
    apply andb_true_iff in Hoff as [_ Hex].
    apply existsb_exists in Hex as (doc0 & Hin0 & Hid0).
    apply Z.eqb_eq in Hid0. subst docId.
    pose proof (Hdisj doc0 Hin0) as Hfresh.
    split.
    + apply NoDup_app. repeat split.
      * assumption.
      * intros x Hx Hx'. apply list_elem_of_In in Hx, Hx'.
        destruct Hx' as [<- | []]. contradiction.
      * apply NoDup_singleton.
    + intros doc Hin. apply filter_In in Hin as [Hin Hne].
      apply negb_true_iff, Z.eqb_neq in Hne.
      rewrite in_app_iff. intros [H | [H | []]].
      * now apply (Hdisj doc Hin).
      * congruence.
Qed.

Lemma deletionInvariant_effect (s : State) :
  deletionInvariant s -> deletionInvariant (derivedStatusEffect s).
Proof.
  unfold deletionInvariant.
  destruct (derivedStatusEffect_frame s) as (_ & _ & -> & _ & -> & _). auto.
Qed.

Lemma dispatch_preserves_invariant (p : Props) (a : Action) (s : State) :
  notHydrate a -> deletionInvariant s -> deletionInvariant (dispatch p s a).
Proof.
  intros Hnh Hinv. unfold dispatch.
  destruct (offered p s a) eqn:Hoff; [| assumption].
  pose proof (act_preserves_invariant p a s Hnh Hoff Hinv).
  destruct (effectDepsChanged a s (act p a s)); [| assumption].
  now apply deletionInvariant_effect.
Qed.

Lemma run_preserves_invariant (p : Props) (actions : list Action) :
  Forall notHydrate actions ->
  forall s, deletionInvariant s -> deletionInvariant (run p actions s).
Proof.
  induction 1 as [|a l Ha _ IH]; intros s Hinv; [assumption |].
  unfold run. cbn [fold_left]. apply IH.
  now apply dispatch_preserves_invariant.
Qed.

Lemma run_app (p : Props) (l1 l2 : list Action) (s : State) :
  run p (l1 ++ l2) s = run p l2 (run p l1 s).
Proof. unfold run. apply fold_left_app. Qed.

Lemma dispatch_cells_effect (p : Props) (a : Action) (s : State) :
  offered p s a = true ->
  existingDocuments (dispatch p s a) = existingDocuments (act p a s)
  /\ deletedDocIds (dispatch p s a) = deletedDocIds (act p a s).
Proof.
  intros Hoff. rewrite (dispatch_offered p s a Hoff).
  destruct (effectDepsChanged a s (act p a s)); [| auto].
  destruct (derivedStatusEffect_frame (act p a s)) as (_ & _ & -> & _ & -> & _).
  auto.
Qed.

(** The deletion list only grows. *)
Lemma dispatch_keeps_deleted (p : Props) (a : Action) (s : State) (x : Z) :
  In x (deletedDocIds s) -> In x (deletedDocIds (dispatch p s a)).
Proof.
  intros Hin. destruct (offered p s a) eqn:Hoff.
  - destruct (dispatch_cells_effect p a s Hoff) as [_ ->].
    pose proof (act_keeps_persisted p a s) as Hkeep.
    destruct a;
      lazymatch type of Hkeep with
      | True => idtac
      | _ => destruct Hkeep as [_ ->]; assumption
      end.
    + assumption.
    + assumption.
    + cbn [act]. destruct (handleDeleteExistingDoc_cells docId s) as [_ ->].
      apply in_app_iff. now left.
  - unfold dispatch. now rewrite Hoff.
Qed.

Lemma run_keeps_deleted (p : Props) (actions : list Action) (x : Z) :
  forall s, In x (deletedDocIds s) -> In x (deletedDocIds (run p actions s)).
Proof.
  induction actions as [|a l IH]; intros s Hin; [assumption |].
  unfold run. cbn [fold_left]. apply IH. now apply dispatch_keeps_deleted.
Qed.

(** Before the record arrives there is no persisted row and nothing is
    listed for deletion. *)
Lemma nothing_persisted_before_hydrate (p : Props) (actions : list Action) :
  Forall notHydrate actions ->
  forall s, existingDocuments s = [] -> deletedDocIds s = [] ->
            existingDocuments (run p actions s) = []
            /\ deletedDocIds (run p actions s) = [].
Proof.
  induction 1 as [|a l Ha _ IH]; intros s He Hd; [auto |].
  unfold run. cbn [fold_left]. apply IH.
  - destruct (offered p s a) eqn:Hoff;
      [| unfold dispatch; now rewrite Hoff].
    destruct (dispatch_cells_effect p a s Hoff) as [-> _].
    pose proof (act_keeps_persisted p a s) as Hkeep.
    destruct a; try destruct Ha;
      lazymatch type of Hkeep with
      | True => idtac
      | _ => destruct Hkeep as [-> _]; assumption
      end.
    + cbn [act]. unfold handleExistingDocLegislationChange.
      cbn [existingDocuments setExistingDocuments]. now rewrite He.
    + cbn [offered] in Hoff. rewrite He in Hoff. cbn [existsb] in Hoff.
      now rewrite andb_false_r in Hoff.
  - destruct (offered p s a) eqn:Hoff;
      [| unfold dispatch; now rewrite Hoff].
    destruct (dispatch_cells_effect p a s Hoff) as [_ ->].
    pose proof (act_keeps_persisted p a s) as Hkeep.
    destruct a; try destruct Ha;
      lazymatch type of Hkeep with
      | True => idtac
      | _ => destruct Hkeep as [_ ->]; assumption
      end.
    + assumption.
    + cbn [offered] in Hoff. rewrite He in Hoff. cbn [existsb] in Hoff.
      now rewrite andb_false_r in Hoff.
Qed.

Definition isHydrate (a : Action) : bool :=
  match a with
  | Hydrate _ _ => true
  | _ => false
  end.

(** The record of the edited employee is fetched once. *)
Definition hydratedAtMostOnce (history : list Action) : Prop :=
  (length (List.filter isHydrate history) <= 1)%nat.

Lemma no_hydrate_filter (l : list Action) :
  List.filter isHydrate l = [] -> Forall notHydrate l.
Proof.
  induction l as [|a l IH]; intros H; [constructor |].
  cbn [List.filter] in H. destruct a; try discriminate;
    (constructor; [exact I | now apply IH]).
Qed.

Lemma hydratedAtMostOnce_split (history : list Action) :
  hydratedAtMostOnce history ->
  Forall notHydrate history
  \/ exists pre data documents post,
       history = pre ++ Hydrate data documents :: post
       /\ Forall notHydrate pre /\ Forall notHydrate post.
Proof.
  unfold hydratedAtMostOnce. induction history as [|a l IH]; intros H.
  - left. constructor.
  - destruct (isHydrate a) eqn:E.
    + right. destruct a; try discriminate. cbn [List.filter isHydrate length] in H.
      exists [], data, documents, l. repeat split; [constructor |].
      apply no_hydrate_filter.
      destruct (List.filter isHydrate l); [reflexivity | cbn in H; lia].
    + cbn [List.filter] in H. rewrite E in H.
      assert (Ha : notHydrate a) by (destruct a; try exact I; discriminate).
      destruct (IH H) as [Hall | (pre & d & docs & post & -> & Hpre & Hpost)].
      * left. now constructor.
      * right. exists (a :: pre), d, docs, post. repeat split; auto.
Qed.

Lemma deletionInvariant_mount (p : Props) : deletionInvariant (mount p).
Proof.
  unfold mount. destruct (isEditMode p); split; cbn; try constructor; tauto.
Qed.

(** Every state the mounted form reaches satisfies the invariant. *)
Lemma deletionInvariant_reachable (p : Props) (history : list Action) :
  hydratedAtMostOnce history -> deletionInvariant (run p history (mount p)).
Proof.
  intros H. destruct (hydratedAtMostOnce_split history H)
    as [Hall | (pre & d & docs & post & -> & Hpre & Hpost)].
  - apply run_preserves_invariant; [assumption | apply deletionInvariant_mount].
  - rewrite run_app. change (Hydrate d docs :: post) with ([ Hydrate d docs ] ++ post).
    rewrite run_app. apply run_preserves_invariant; [assumption |].
    destruct (nothing_persisted_before_hydrate p pre Hpre (mount p)) as [He Hd].
    { unfold mount. now destruct (isEditMode p). }
    { unfold mount. now destruct (isEditMode p). }
    set (s := run p pre (mount p)) in *.
    unfold run. cbn [fold_left].
    destruct (offered p s (Hydrate d docs)) eqn:Hoff.
    + destruct (dispatch_cells_effect p (Hydrate d docs) s Hoff) as [E1 E2].
      split.
      * rewrite E2. cbn [act hydrate deletedDocIds setExistingDocuments setFormData].
        rewrite Hd. constructor.
      * intros doc _. rewrite E2.
        cbn [act hydrate deletedDocIds setExistingDocuments setFormData].
        rewrite Hd. intros [].
    + unfold dispatch. rewrite Hoff. split.
      * rewrite Hd. constructor.
      * rewrite He. intros doc [].
Qed.

(** C7: in every state the mounted form reaches, no id is both among the
    persisted attachments and in the deletion list; removing a persisted
    attachment takes it out of the persisted list and appends its id to the
    deletion list in one transition; and after any further operations
    before the next hydration the id occurs exactly once in the deletion
    list and no persisted attachment carries it. *)
Theorem persisted_removal_invariant (p : Props) (history : list Action) :
  hydratedAtMostOnce history ->
  let s := run p history (mount p) in
  deletionInvariant s
  /\ (forall docId,
        offered p s (DeleteExistingDoc docId) = true ->
        existingDocuments (dispatch p s (DeleteExistingDoc docId))
        = List.filter (fun doc => negb (ed_system_id doc =? docId)%Z)
                      (existingDocuments s)
        /\ deletedDocIds (dispatch p s (DeleteExistingDoc docId))
           = deletedDocIds s ++ [ docId ])
  /\ (forall docId later,
        offered p s (DeleteExistingDoc docId) = true ->
        Forall notHydrate later ->
        let s' := run p (DeleteExistingDoc docId :: later) s in
        count_occ Z.eq_dec (deletedDocIds s') docId = 1%nat
        /\ forall doc, In doc (existingDocuments s') -> ed_system_id doc <> docId).
Proof.
  intros Hh s.
  assert (Hinv : deletionInvariant s) by now apply deletionInvariant_reachable.
  split; [assumption | split].
  - intros docId Hoff.
    destruct (dispatch_cells_effect p _ s Hoff) as [-> ->]. split; reflexivity.
  - intros docId later Hoff Hlater s'.
    assert (Hinv' : deletionInvariant s').
    { subst s'. apply run_preserves_invariant; [| assumption].
      constructor; [exact I | assumption]. }
    assert (Hin : In docId (deletedDocIds s')).
    { subst s'. unfold run. cbn [fold_left]. apply run_keeps_deleted.
      destruct (dispatch_cells_effect p _ s Hoff) as [_ ->].
      cbn [act]. destruct (handleDeleteExistingDoc_cells docId s) as [_ ->].
      apply in_app_iff. right. now left. }
    destruct Hinv' as [Hnd Hdisj]. split.
    + apply NoDup_ListNoDup in Hnd.
      apply (proj1 (NoDup_count_occ' Z.eq_dec (deletedDocIds s')) Hnd docId Hin).
    + intros doc Hdoc Heq. apply (Hdisj doc Hdoc). now rewrite Heq.
Qed.

Definition editing : Props := {| employeeToEditId := Some 17; isViewer := false |}.

Definition passportDocument : ExistingDocument :=
  {| ed_system_id := 91; docnumber := 5002; ed_expiry := Some "2030-06-30";
     ed_doc_type_id := 4; ed_legislation_ids := [];
     doc_name := "Passport"; legislation_names := None |}.

Lemma persisted_removal_invariant_witness :
  let s := run editing
               [ LoadDocTypes sampleDocTypes;
                 Hydrate (seedFromProfile sampleProfile)
                         [ warrantDocument; passportDocument ] ]
               (mount editing) in
  let s' := run editing
                [ DeleteExistingDoc 90; AddNewDocumentRow;
                  ExistingDocLegislationChange 91 11; DeleteExistingDoc 90 ] s in
  (existingDocuments (dispatch editing s (DeleteExistingDoc 90))
   = [ passportDocument ]
   /\ deletedDocIds (dispatch editing s (DeleteExistingDoc 90)) = [ 90 ])
  /\ count_occ Z.eq_dec (deletedDocIds s') 90 = 1%nat
  /\ forall doc, In doc (existingDocuments s') -> ed_system_id doc <> 90.
Proof.
  intros s s'.
  destruct (persisted_removal_invariant editing
              [ LoadDocTypes sampleDocTypes;
                Hydrate (seedFromProfile sampleProfile)
                        [ warrantDocument; passportDocument ] ])
    as (_ & Hstep & H).
  - unfold hydratedAtMostOnce. cbn. lia.
  - split.
    + apply (Hstep 90). reflexivity.
    + apply (H 90 [ AddNewDocumentRow; ExistingDocLegislationChange 91 11;
                    DeleteExistingDoc 90 ]).
      * reflexivity.
      * repeat constructor.
Defined.

End PersistedRemoval.

Section OnePerType.

Import EmployeeForm.

(** The name marks a miscellaneous attachment: it contains the word
    [other], in any case. *)
Definition isOtherName (name : string) : bool :=
  JS.includes otherDocTypeName (JS.toLowerCase name).

(** A persisted attachment that counts as a use of its document type. *)
Definition persistedUse (s : State) (n : Z) : Prop :=
  exists doc, In doc (existingDocuments s)
              /\ ed_doc_type_id doc = n /\ isOtherName (doc_name doc) = false.

(** A pending row that counts as a use of the document type it parses
    to. *)
Definition pendingUse (s : State) (n : Z) : Prop :=
  exists doc, In doc (newDocuments s)
              /\ JS.parseInt (doc_type_id doc) = Some n
              /\ n <> 0 /\ isOtherName (doc_type_name doc) = false.

Lemma elem_of_fold_add {X : Type} (f : gset Z -> X -> gset Z)
    (key : X -> option Z) :
  (forall used x, f used x = match key x with
                             | Some k => {[ k ]} ∪ used
                             | None => used
                             end) ->
  forall (l : list X) (acc : gset Z) (n : Z),
    n ∈ fold_left f l acc <-> n ∈ acc \/ exists x, In x l /\ key x = Some n.
Proof.
  intros Hf. induction l as [|x l IH]; intros acc n; cbn [fold_left].
  - split; [auto | intros [H | (x & [] & _)]; assumption].
  - rewrite IH, Hf. split.
    + intros [H | (y & Hy & Hk)].
      * destruct (key x) as [k|] eqn:E; [| now left].
        apply elem_of_union in H as [H | H]; [| now left].
        apply elem_of_singleton in H. subst k. right. exists x. split; [now left | assumption].
      * right. exists y. split; [now right | assumption].
    + intros [H | (y & [<- | Hy] & Hk)].
      * left. destruct (key x); [apply elem_of_union; now right | assumption].
      * left. rewrite Hk. apply elem_of_union. left. now apply elem_of_singleton.
      * right. exists y. auto.
Qed.

(** What [usedDocTypeIds] collects. *)
Lemma elem_of_usedDocTypeIds (s : State) (n : Z) :
  n ∈ usedDocTypeIds s <-> persistedUse s n \/ pendingUse s n.
Proof.
  unfold usedDocTypeIds.
  rewrite (elem_of_fold_add _
             (fun doc : NewDocument =>
                match JS.parseInt (doc_type_id doc) with
                | Some docTypeId =>
                  if JS.truthyNum docTypeId && negb (isOtherName (doc_type_name doc))
                  then Some docTypeId else None
                | None => None
                end)).
  2:{ intros used doc. unfold isOtherName.
      destruct (JS.parseInt (doc_type_id doc)) as [k|]; [| reflexivity].
      now destruct (JS.truthyNum k && _). }
  rewrite (elem_of_fold_add _
             (fun doc : ExistingDocument =>
                if negb (isOtherName (doc_name doc))
                then Some (ed_doc_type_id doc) else None)).
  2:{ intros used doc. unfold isOtherName. now destruct (negb _). }
  unfold persistedUse, pendingUse. split.
  - intros [[H | (doc & Hin & Hk)] | (doc & Hin & Hk)].
    + now apply not_elem_of_empty in H.
    + left. exists doc. destruct (isOtherName (doc_name doc)); [discriminate |].
      cbn in Hk. injection Hk as <-. auto.
    + right. exists doc.
      destruct (JS.parseInt (doc_type_id doc)) as [k|]; [| discriminate].
      destruct (JS.truthyNum k) eqn:Ek; [| discriminate].
      destruct (isOtherName (doc_type_name doc)); [discriminate |].
      cbn in Hk. injection Hk as <-. apply truthyNum_true in Ek. auto.
  - intros [(doc & Hin & Hid & Hname) | (doc & Hin & Hid & Hne & Hname)].
    + left. right. exists doc. rewrite Hname. cbn. split; congruence.
    + right. exists doc. rewrite Hid, Hname.
      apply truthyNum_true in Hne. rewrite Hne. auto.
Qed.

Lemma optionDisabled_iff (s : State) (type : DocType) (row : NewDocument) :
  optionDisabled s type row = true
  <-> (persistedUse s (dt_system_id type) \/ pendingUse s (dt_system_id type))
      /\ doc_type_id row <> JS.toString (dt_system_id type).
Proof.
  unfold optionDisabled.
  rewrite andb_true_iff, bool_decide_eq_true, elem_of_usedDocTypeIds,
    negb_true_iff, String.eqb_neq.
  split; intros [H1 H2]; (split; [assumption | congruence]).
Qed.

(** What the type select disables.  A document-type id used by a
    persisted attachment whose display name does not contain [other], or a
    non-zero id used by a pending row whose type name does not contain
    [other], is disabled, and cannot be selected, in the type select of
    every pending row that does not hold it, while the row that holds it
    keeps it enabled.  A type of which every persisted attachment has
    [other] in its display name and every pending row has [other] in its
    type name is disabled in no row, however many attachments use it. *)
Theorem used_type_option_disabled (s : State) (type : DocType) (row : NewDocument) :
  ((persistedUse s (dt_system_id type)
    \/ (dt_system_id type <> 0
        /\ exists doc, In doc (newDocuments s)
                       /\ doc_type_id doc = JS.toString (dt_system_id type)
                       /\ isOtherName (doc_type_name doc) = false)) ->
   doc_type_id row <> JS.toString (dt_system_id type) ->
   optionDisabled s type row = true
   /\ selectable s row (JS.toString (dt_system_id type)) = false)
  /\ (doc_type_id row = JS.toString (dt_system_id type) ->
      optionDisabled s type row = false)
  /\ ((forall doc, In doc (existingDocuments s) ->
                   ed_doc_type_id doc = dt_system_id type ->
                   isOtherName (doc_name doc) = true) ->
      (forall doc, In doc (newDocuments s) ->
                   JS.parseInt (doc_type_id doc) = Some (dt_system_id type) ->
                   isOtherName (doc_type_name doc) = true) ->
      optionDisabled s type row = false
      /\ (In type (all_types (docTypes s)) ->
          selectable s row (JS.toString (dt_system_id type)) = true)).
Proof.
  split; [| split].
  - intros Hused Hrow.
    assert (Hdis : forall t, dt_system_id t = dt_system_id type ->
                             optionDisabled s t row = true).
    { intros t Ht. apply optionDisabled_iff. rewrite Ht. split; [| assumption].
      destruct Hused as [H | (Hne & doc & Hin & Hid & Hname)]; [now left |].
      right. exists doc. rewrite Hid, parseInt_toString. auto. }
    split; [now apply Hdis |].
    unfold selectable. apply orb_false_iff. split.
    + pose proof (truthyStr_toString (dt_system_id type)) as Ht.
      now destruct (JS.toString (dt_system_id type)).
    + apply not_true_iff_false. intros Hex.
      apply existsb_exists in Hex as (t & _ & Ht).
      apply andb_true_iff in Ht as [Heq Hen].
      rewrite toString_eqb in Heq. apply Z.eqb_eq in Heq.
      rewrite (Hdis t Heq) in Hen. discriminate.
  - intros Hrow. unfold optionDisabled. rewrite Hrow, String.eqb_refl.
    apply andb_false_r.
  - intros Hold Hnew.
    assert (Hen : optionDisabled s type row = false).
    { apply not_true_iff_false. intros Hdis.
      apply optionDisabled_iff in Hdis as [[H | H] _].
      - destruct H as (doc & Hin & Hid & Hname).
        rewrite (Hold doc Hin Hid) in Hname. discriminate.
      - destruct H as (doc & Hin & Hid & _ & Hname).
        rewrite (Hnew doc Hin Hid) in Hname. discriminate. }
    split; [assumption |].
    intros Hin. unfold selectable. apply orb_true_iff. right.
    apply existsb_exists. exists type. split; [assumption |].
    now rewrite String.eqb_refl, Hen.
Qed.

(** A record with a persisted passport, a pending judicial card, an
    untouched row and two miscellaneous rows. *)
Definition busyForm : State :=
  setExistingDocuments (fun _ => [ passportDocument ])
    (unlockedForm [ activeStatus; inactiveStatus ]
                  [ judicialCardRow; emptyNewDocument; otherRow; otherRow ]).

Lemma used_type_option_disabled_witness :
  optionDisabled busyForm {| dt_system_id := 4; dt_name := "Passport" |}
                 emptyNewDocument = true
  /\ selectable busyForm emptyNewDocument "7" = false
  /\ optionDisabled busyForm {| dt_system_id := 7; dt_name := "Judicial Card" |}
                    judicialCardRow = false
  /\ selectable busyForm emptyNewDocument "9" = true.
Proof.
  split; [| split; [| split]].
  - destruct (used_type_option_disabled busyForm
                {| dt_system_id := 4; dt_name := "Passport" |} emptyNewDocument)
      as (H & _).
    apply H; [| discriminate].
    left. exists passportDocument. repeat split. now left.
  - destruct (used_type_option_disabled busyForm
                {| dt_system_id := 7; dt_name := "Judicial Card" |} emptyNewDocument)
      as (H & _).
    apply H; [| discriminate].
    right. split; [cbn; lia |]. exists judicialCardRow. repeat split. now left.
  - destruct (used_type_option_disabled busyForm
                {| dt_system_id := 7; dt_name := "Judicial Card" |} judicialCardRow)
      as (_ & H & _).
    apply H. reflexivity.
  - destruct (used_type_option_disabled busyForm
                {| dt_system_id := 9; dt_name := "Other" |} emptyNewDocument)
      as (_ & _ & H).
    apply H.
    + intros doc [<- | []]. discriminate.
    + intros doc [<- | [<- | [<- | [<- | []]]]]; try discriminate; reflexivity.
    + cbn. auto.
Defined.

(** A persisted attachment of the miscellaneous type 9 with the display
    name [name]. *)
Definition storedMiscellaneous (name : string) : ExistingDocument :=
  {| ed_system_id := 92; docnumber := 5003; ed_expiry := None;
     ed_doc_type_id := 9; ed_legislation_ids := [];
     doc_name := name; legislation_names := None |}.

(** The record of an employee arrives with that attachment, and a pending
    row is added. *)
Definition miscellaneousStored (name : string) : State :=
  run editing
      [ LoadDocTypes sampleDocTypes;
        Hydrate (seedFromProfile sampleProfile) [ storedMiscellaneous name ];
        AddNewDocumentRow ]
      (mount editing).

(** C6: the claim fails in a state the form reaches.  The catalogue has
    the miscellaneous type 9, named [Other]; the record arrives with one
    persisted attachment of that type whose display name is the name of a
    file.  [usedDocTypeIds] takes the attachment for a use of its type,
    because it looks for [other] in the display name of the attachment and
    not in the name of its type: in the pending row the miscellaneous type
    is disabled and cannot be chosen.  With the display name [Other] the
    same option is enabled and can be chosen, and a pending row of the
    miscellaneous type, which is judged by the name of its type, disables
    nothing. *)
Theorem miscellaneous_type_blocked_by_stored_name :
  let other := {| dt_system_id := 9; dt_name := "Other" |} in
  let choose := NewDocumentChange 0 (ChangeDocTypeId "9") in
  let s := miscellaneousStored "scan-2024.pdf" in
  let named := miscellaneousStored "Other" in
  let pending :=
    unlockedForm [ activeStatus; inactiveStatus ] [ emptyNewDocument; otherRow ] in
  (In other (all_types (docTypes s))
   /\ map doc_name (existingDocuments s) = [ "scan-2024.pdf" ]
   /\ map ed_doc_type_id (existingDocuments s) = [ 9 ]
   /\ newDocuments s = [ emptyNewDocument ])
  /\ (optionDisabled s other emptyNewDocument = true
      /\ selectable s emptyNewDocument "9" = false
      /\ offered editing s choose = false
      /\ newDocuments (dispatch editing s choose) = [ emptyNewDocument ])
  /\ (optionDisabled named other emptyNewDocument = false
      /\ map doc_type_id (newDocuments (dispatch editing named choose)) = [ "9" ])
  /\ (optionDisabled pending other emptyNewDocument = false
      /\ map doc_type_id (newDocuments (dispatch editor pending choose))
         = [ "9"; "9" ]).
Proof. vm_compute. repeat split; auto. Qed.

End OnePerType.

(** ** The searchable employee drop-down *)

Section SearchSource.

Import SearchableEmployeeSelect.

Definition hasId (id : nat) (f : Fetch) : bool := (fetch_id f =? id)%nat.

Lemma find_map_abort (id k : nat) (l : list Fetch) :
  List.find (hasId id) (map (fun f => if (fetch_id f =? k)%nat then abort f else f) l)
  = option_map (fun f => if (fetch_id f =? k)%nat then abort f else f)
               (List.find (hasId id) l).
Proof.
  induction l as [|f l IH]; [reflexivity |].
  cbn [map List.find].
  replace (hasId id (if (fetch_id f =? k)%nat then abort f else f))
    with (hasId id f) by (now destruct (fetch_id f =? k)%nat).
  destruct (hasId id f); [reflexivity | exact IH].
Qed.

Lemma find_app_found {X : Type} (q : X -> bool) (l1 l2 : list X) (x : X) :
  List.find q l1 = Some x -> List.find q (l1 ++ l2) = Some x.
Proof.
  induction l1 as [|y l1 IH]; [discriminate |].
  cbn [app List.find]. destruct (q y); [auto | exact IH].
Qed.

(** The cells after the [finally] handler. *)
Lemma settleFetch_rejected_abort (f : Fetch) (c : Component) :
  settleFetch f (Rejected "AbortError") c
  = if mounted c then update (setIsLoading false) c else c.
Proof. unfold settleFetch, observed. now destruct (aborted f). Qed.

(** C4: in every state of the component, hence after every interleaving
    of events, and for every request in flight: (1) a new request issued by
    [fetchEmployees] aborts it, when it is the one the controller ref
    holds; (2) once aborted, its settlement, whatever the network
    delivered, changes neither the result items nor the has-more flag nor
    the console, and is the settlement of an abort rejection; (3) after
    teardown no settlement changes the cells; (4) a rejection of a request
    that was not aborted, with an error other than the abort error, is
    logged and leaves the result items alone; (5) the fulfilment of a
    request that was not aborted is applied. *)
Theorem cancelled_request_is_discarded
    (c : Component) (id : nat) (f : Fetch) (outcome : Outcome) :
  List.find (hasId id) (inFlight c) = Some f ->
  (forall search pageNumber newSearch,
      fetchController c = Some id ->
      isLoading (rendered c) = false ->
      hasMore (rendered c) = true \/ newSearch = true ->
      List.find (hasId id)
                (inFlight (fetchEmployees search pageNumber newSearch c))
      = Some (abort f))
  /\ (aborted f = true ->
      employees (state (step c (Settle id outcome))) = employees (state c)
      /\ hasMore (state (step c (Settle id outcome))) = hasMore (state c)
      /\ console (step c (Settle id outcome)) = console c
      /\ step c (Settle id outcome) = step c (Settle id (Rejected "AbortError")))
  /\ (mounted c = false ->
      state (step c (Settle id outcome)) = state c)
  /\ (forall name,
        aborted f = false -> outcome = Rejected name -> name <> "AbortError" ->
        employees (state (step c (Settle id outcome))) = employees (state c)
        /\ hasMore (state (step c (Settle id outcome))) = hasMore (state c)
        /\ console (step c (Settle id outcome)) = console c ++ [ "Fetch error:" ])
  /\ (forall data,
        aborted f = false -> mounted c = true -> outcome = Fulfilled data ->
        employees (state (step c (Settle id outcome)))
        = (if isNewSearch f then resp_employees data
           else employees (state c) ++ resp_employees data)
        /\ hasMore (state (step c (Settle id outcome))) = resp_hasMore data).
Proof.
  intros Hfind.
  assert (Hstep : step c (Settle id outcome)
                  = settleFetch f outcome
                      (setInFlight
                         (List.filter (fun g => negb (fetch_id g =? id)%nat)
                                      (inFlight c)) c)).
  { cbn [step]. unfold settle. fold (hasId id). now rewrite Hfind. }
  split; [| split; [| split; [| split]]].
  - intros search pageNumber newSearch Hctl Hload Hmore.
    unfold fetchEmployees. rewrite Hload.
    replace (negb (hasMore (rendered c)) && negb newSearch) with false
      by (destruct Hmore as [-> | ->]; [reflexivity | now rewrite andb_false_r]).
    cbn [orb inFlight]. apply find_app_found.
    unfold abortCurrent. rewrite Hctl, find_map_abort, Hfind. cbn [option_map].
    assert (Hid : (fetch_id f =? id)%nat = true).
    { apply find_some in Hfind. tauto. }
    now rewrite Hid.
  - intros Hab.
    assert (Heq : step c (Settle id outcome)
                  = step c (Settle id (Rejected "AbortError"))).
    { rewrite Hstep. cbn [step]. unfold settle. fold (hasId id). rewrite Hfind.
      unfold settleFetch, observed. now rewrite Hab. }
    split; [| split; [| split; [| exact Heq]]];
      rewrite Hstep; unfold settleFetch, observed; rewrite Hab;
      rewrite String.eqb_refl; cbn [negb mounted setInFlight];
      now destruct (mounted c).
  - intros Hm. rewrite Hstep. unfold settleFetch. cbn [mounted setInFlight].
    destruct (observed f outcome) as [data | name];
      [| destruct (negb (String.eqb name "AbortError"))];
      repeat (rewrite ?Hm; cbn [mounted setInFlight logError state]);
      reflexivity.
  - intros name Hab -> Hname. rewrite Hstep. unfold settleFetch, observed.
    rewrite Hab. apply String.eqb_neq in Hname. rewrite Hname. cbn [negb].
    cbn [mounted logError setInFlight].
    destruct (mounted c); repeat split; reflexivity.
  - intros data Hab Hm ->. rewrite Hstep. unfold settleFetch, observed.
    rewrite Hab.
    repeat (rewrite ?Hm; cbn [mounted setInFlight update state]).
    split; reflexivity.
Qed.

Definition sampleEmployees : ApiHrResponse :=
  {| resp_employees :=
       [ {| system_id := 42; fullname_en := "Alice Example";
            fullname_ar := "أليس"; empno := "E-0042" |} ];
     resp_hasMore := true |}.

(** The timer of the empty search term has fired, and a scroll to the
    bottom of the list arrived before the next render: the first request
    is in flight and aborted, the second is in flight. *)
Definition supersededRun : Component :=
  run [ Tick 300; Scroll ] (init false 0).

(** The first request, for the empty search term, has been issued and the
    component has rendered its loading state. *)
Definition loadingFirstPage : Component :=
  run [ Tick 300; Render ] (init false 0).

Definition firstFetch : Fetch :=
  {| fetch_id := 0; currentSearch := ""; currentPage := 1;
     isNewSearch := true; aborted := false |}.

Lemma cancelled_request_is_discarded_witness :
  (List.find (hasId 0) (inFlight supersededRun) = Some (abort firstFetch)
   /\ requests supersededRun = [ ("", 1); ("", 2) ]
   /\ employees (state (step supersededRun (Settle 0 (Fulfilled sampleEmployees))))
      = employees (state supersededRun)
   /\ hasMore (state (step supersededRun (Settle 0 (Fulfilled sampleEmployees))))
      = hasMore (state supersededRun)
   /\ console (step supersededRun (Settle 0 (Fulfilled sampleEmployees)))
      = console supersededRun)
  /\ List.find (hasId 0)
               (inFlight (fetchEmployees "" 2 false (run [ Tick 300 ] (init false 0))))
     = Some (abort firstFetch)
  /\ state (step (run [ Tick 300; Unmount ] (init false 0))
                 (Settle 0 (Fulfilled sampleEmployees)))
     = state (run [ Tick 300; Unmount ] (init false 0))
  /\ console (step loadingFirstPage (Settle 0 (Rejected "TypeError")))
     = [ "Fetch error:" ]
  /\ employees (state (step loadingFirstPage (Settle 0 (Fulfilled sampleEmployees))))
     = resp_employees sampleEmployees.
Proof.
  split; [| split; [| split; [| split]]].
  - split; [reflexivity | split; [reflexivity |]].
    destruct (cancelled_request_is_discarded supersededRun 0 (abort firstFetch)
                (Fulfilled sampleEmployees) eq_refl) as (_ & H & _).
    destruct (H eq_refl) as (H1 & H2 & H3 & _). auto.
  - destruct (cancelled_request_is_discarded (run [ Tick 300 ] (init false 0)) 0
                firstFetch (Fulfilled sampleEmployees) eq_refl) as (H & _).
    apply (H "" 2 false eq_refl eq_refl). now left.
  - destruct (cancelled_request_is_discarded
                (run [ Tick 300; Unmount ] (init false 0)) 0
                firstFetch (Fulfilled sampleEmployees) eq_refl) as (_ & _ & H & _).
    apply H. reflexivity.
  - destruct (cancelled_request_is_discarded loadingFirstPage 0
                firstFetch (Rejected "TypeError") eq_refl) as (_ & _ & _ & H & _).
    destruct (H "TypeError" eq_refl eq_refl ltac:(discriminate)) as (_ & _ & Hc).
    exact Hc.
  - destruct (cancelled_request_is_discarded loadingFirstPage 0
                firstFetch (Fulfilled sampleEmployees) eq_refl) as (_ & _ & _ & _ & H).
    destruct (H sampleEmployees eq_refl eq_refl eq_refl) as (He & _).
    exact He.
Defined.

(** *** The debounce *)

(** C3 (the code at the failing input): the first request is still in
    flight when the user types [a] at 310 ms and [ab] at 400 ms.  The
    quiet period after the last keystroke elapses, the timer fires once,
    and no request is issued for the burst: the only request ever sent is
    the one for the empty search term, and when it resolves its items are
    shown under the search term [ab]. *)
Theorem debounced_fetch_dropped_while_loading :
  let typed := run (keystrokes [ (310, "a"); (400, "ab") ]) loadingFirstPage in
  let quiet := step typed (Tick 1000) in
  let settled := step quiet (Settle 0 (Fulfilled sampleEmployees)) in
  requests loadingFirstPage = [ ("", 1) ]
  /\ isLoading (rendered loadingFirstPage) = true
  /\ timer typed = Some (700, "ab")
  /\ timer quiet = None
  /\ searchTerm (state quiet) = "ab"
  /\ requests quiet = [ ("", 1) ]
  /\ map aborted (inFlight quiet) = [ false ]
  /\ requests settled = [ ("", 1) ]
  /\ employees (state settled) = resp_employees sampleEmployees
  /\ searchTerm (state settled) = "ab"
  /\ timer settled = None
  /\ inFlight settled = [].
Proof. vm_compute. repeat split; reflexivity. Qed.

(** The debounce timer is armed for the text [v] typed at time [t], and
    the component has rendered. *)
Record armed (t : Z) (v : string) (c : Component) : Prop := {
  armed_mounted : mounted c = true;
  armed_enabled : disabled c = false;
  armed_now : now c = t;
  armed_timer : timer c = Some (t + quietPeriod, v);
  armed_rendered : rendered c = state c;
  armed_term : searchTerm (state c) = v }.

(** Consecutive keystrokes are less than the quiet period apart, and each
    changes the text. *)
Fixpoint quickBurst (t0 : Z) (v0 : string) (burst : list (Z * string)) : Prop :=
  match burst with
  | [] => True
  | k :: rest =>
    t0 <= fst k /\ fst k < t0 + quietPeriod /\ snd k <> v0
    /\ quickBurst (fst k) (snd k) rest
  end.

Definition timerNotDue (t : Z) (c : Component) : Prop :=
  match timer c with
  | Some (deadline, _) => t < deadline
  | None => True
  end.

Lemma keystroke_arms (c : Component) (t : Z) (v : string) :
  mounted c = true -> disabled c = false ->
  now c <= t -> timerNotDue t c -> v <> searchTerm (rendered c) ->
  armed t v (run [ Tick t; Change v ] c)
  /\ requests (run [ Tick t; Change v ] c) = requests c
  /\ isLoading (state (run [ Tick t; Change v ] c)) = isLoading (state c).
Proof.
  intros Hm Hd Hnow Hdue Hv.
  assert (Htick : step c (Tick t) = setNow t c).
  { cbn [step]. rewrite Hm. unfold tick.
    replace (t <? now c) with false by (symmetry; apply Z.ltb_ge; lia).
    unfold timerNotDue in Hdue. destruct (timer c) as [[deadline term]|];
      [| reflexivity].
    replace (deadline <=? t) with false by (symmetry; apply Z.leb_gt; lia).
    reflexivity. }
  unfold run. cbn [fold_left]. rewrite Htick. cbn [step mounted setNow].
  rewrite Hm. unfold handleChange. cbn [disabled setNow]. rewrite Hd.
  unfold render. cbn [update setNow rendered state searchTerm setSearchTerm now].
  replace (String.eqb (searchTerm (rendered c)) v) with false
    by (symmetry; apply String.eqb_neq; congruence).
  split; [constructor; assumption || reflexivity | split; reflexivity].
Qed.

Lemma last_cons {X : Type} (x d : X) (l : list X) :
  List.last (x :: l) d = List.last l x.
Proof.
  revert x d. induction l as [|y l IH]; intros x d; [reflexivity |].
  change (List.last (x :: y :: l) d) with (List.last (y :: l) d).
  now rewrite !IH.
Qed.

Lemma run_keystrokes_cons (k : Z * string) (rest : list (Z * string))
    (c : Component) :
  run (keystrokes (k :: rest)) c
  = run (keystrokes rest) (run [ Tick (fst k); Change (snd k) ] c).
Proof. reflexivity. Qed.

(** A quick burst leaves the timer armed for its last keystroke and
    issues no request. *)
Lemma burst_arms (rest : list (Z * string)) :
  forall (t : Z) (v : string) (c : Component),
    armed t v c -> quickBurst t v rest ->
    armed (fst (List.last rest (t, v))) (snd (List.last rest (t, v)))
          (run (keystrokes rest) c)
    /\ requests (run (keystrokes rest) c) = requests c
    /\ isLoading (state (run (keystrokes rest) c)) = isLoading (state c).
Proof.
  induction rest as [|k rest IH]; intros t v c Harm Hquick.
  - cbn. auto.
  - destruct Hquick as (Hle & Hlt & Hne & Hrest).
    destruct Harm as [Hm Hd Hnow Htimer Hrend Hterm].
    destruct (keystroke_arms c (fst k) (snd k)) as (Harm' & Hreq & Hload);
      try assumption.
    + lia.
    + unfold timerNotDue. rewrite Htimer. lia.
    + rewrite Hrend, Hterm. assumption.
    + rewrite run_keystrokes_cons, last_cons.
      destruct (IH (fst k) (snd k) _ Harm' Hrest) as (A & B & C).
      replace (List.last rest k) with (List.last rest (fst k, snd k))
        by (now destruct k).
      split; [exact A | split; congruence].
Qed.

(** Once the quiet period is over the timer fires, and the request for
    the armed text is issued unless a request is shown as loading. *)
Lemma quiet_period_fires (c : Component) (t T : Z) (v : string) :
  armed t v c -> t + quietPeriod <= T ->
  timer (step c (Tick T)) = None
  /\ requests (step c (Tick T))
     = requests c ++ (if isLoading (state c) then [] else [ (v, 1) ]).
Proof.
  intros [Hm Hd Hnow Htimer Hrend Hterm] HT.
  cbn [step]. rewrite Hm. unfold tick.
  replace (T <? now c) with false
    by (symmetry; apply Z.ltb_ge; unfold quietPeriod in HT; lia).
  rewrite Htimer.
  replace (t + quietPeriod <=? T) with true by (symmetry; apply Z.leb_le; lia).
  unfold timerCallback, fetchEmployees.
  cbn [rendered update setTimer setNow]. rewrite Hrend.
  destruct (isLoading (state c)).
  - cbn [orb timer requests update setTimer setNow]. now rewrite app_nil_r.
  - cbn [orb negb andb]. rewrite andb_false_r. cbn [timer requests]. auto.
Qed.

(** For a burst that starts while no timer is due: exactly one request is
    issued, for the final text, if the component is not loading, and none
    at all if it is. *)
Lemma burst_issues_one_fetch_when_idle
    (c : Component) (k : Z * string) (rest : list (Z * string)) (T : Z) :
  mounted c = true -> disabled c = false ->
  now c <= fst k -> timerNotDue (fst k) c -> snd k <> searchTerm (rendered c) ->
  quickBurst (fst k) (snd k) rest ->
  fst (List.last rest k) + quietPeriod <= T ->
  requests (run (keystrokes (k :: rest) ++ [ Tick T ]) c)
  = requests c
    ++ (if isLoading (state c) then [] else [ (snd (List.last rest k), 1) ]).
Proof.
  intros Hm Hd Hnow Hdue Hv Hquick HT.
  destruct (keystroke_arms c (fst k) (snd k) Hm Hd Hnow Hdue Hv)
    as (Harm & Hreq & Hload).
  destruct (burst_arms rest (fst k) (snd k) _ Harm Hquick) as (Harm' & Hreq' & Hload').
  replace (List.last rest (fst k, snd k)) with (List.last rest k) in *
    by (now destruct k).
  unfold run. rewrite fold_left_app. cbn [fold_left].
  fold (run (keystrokes (k :: rest)) c). rewrite run_keystrokes_cons.
  destruct (quiet_period_fires _ _ T _ Harm' HT) as (_ & ->).
  now rewrite Hreq', Hreq, Hload', Hload.
Qed.

(** *** What the drop-down hands to the form *)

Lemma selections_fetchEmployees search pageNumber newSearch (c : Component) :
  selections (fetchEmployees search pageNumber newSearch c) = selections c.
Proof.
  unfold fetchEmployees.
  now destruct (isLoading (rendered c) || negb (hasMore (rendered c)) && negb newSearch).
Qed.

Lemma selections_step (c : Component) (e : Event) :
  selections (step c e) = selections c
  \/ exists n, selections (step c e) = selections c ++ [ JS.toString n ].
Proof.
  destruct e; cbn [step]; unfold tick, timerCallback, render,
    handleChange, handleScroll, handleSelect, settle, settleFetch, unmount;
    repeat match goal with
           | |- context [match ?x with _ => _ end] => destruct x
           end;
    rewrite ?selections_fetchEmployees; cbn; eauto.
Qed.

(** Every id the drop-down passes to [onEmployeeSelect] is a printed
    number, hence not empty. *)
Lemma selections_never_empty (events : list Event) (c : Component) :
  Forall (fun id => JS.truthyStr id = true) (selections c) ->
  Forall (fun id => JS.truthyStr id = true) (selections (run events c)).
Proof.
  revert c. induction events as [|e l IH]; intros c H; [assumption |].
  unfold run. cbn [fold_left]. apply IH.
  destruct (selections_step c e) as [-> | (n & ->)]; [assumption |].
  apply Forall_app. split; [assumption |].
  constructor; [apply truthyStr_toString | constructor].
Qed.

End SearchSource.

(** * Further properties of the components *)

(** ** The employee form: the lock, the derived status and the rows *)

Section FormBehaviour.

Import EmployeeForm.

Lemma withStatusId_same (data : FormData) :
  withStatusId (status_id data) data = data.
Proof. now destruct data. Qed.

(** The effect writes the status field and nothing else. *)
Lemma derivedStatusEffect_writes_status (s : State) :
  derivedStatusEffect s
  = setFormData (withStatusId (status_id (formData (derivedStatusEffect s)))) s.
Proof.
  assert (Hid : s = setFormData (withStatusId (status_id (formData s))) s).
  { destruct s as [a b data d e f g h i]. unfold setFormData. cbn.
    now rewrite withStatusId_same. }
  unfold derivedStatusEffect.
  destruct (isFormLocked s); [exact Hid |].
  destruct (judicialCardDocTypeId s) as [j|]; [| exact Hid].
  destruct (negb (JS.truthyNum j) || (length (statuses s) =? 0)%nat);
    [exact Hid |].
  destruct (hasJudicialCard j s).
  - destruct (findStatus "Active" s); [reflexivity | exact Hid].
  - destruct (findStatus "Inactive" s); [reflexivity | exact Hid].
Qed.

Lemma derivedStatusEffect_locked (s : State) :
  isFormLocked s = true -> derivedStatusEffect s = s.
Proof. intros H. unfold derivedStatusEffect. now rewrite H. Qed.

(** The effect is stable: applying it to its own result changes nothing,
    so the render it causes does not cause another; and what it changes is
    the status field only. *)
Theorem derivedStatusEffect_stable (s : State) :
  derivedStatusEffect (derivedStatusEffect s) = derivedStatusEffect s
  /\ derivedStatusEffect s
     = setFormData (withStatusId (status_id (formData (derivedStatusEffect s)))) s.
Proof.
  assert (Hset : forall v,
             derivedStatusEffect s = setFormData (withStatusId v) s ->
             derivedStatusEffect (setFormData (withStatusId v) s)
             = setFormData (withStatusId v) s).
  { intros v Heq. unfold derivedStatusEffect in *.
    cbn [isFormLocked setFormData] in *.
    destruct (isFormLocked s); [reflexivity |].
    change (judicialCardDocTypeId (setFormData (withStatusId v) s))
      with (judicialCardDocTypeId s).
    destruct (judicialCardDocTypeId s) as [j|]; [| reflexivity].
    cbn [statuses setFormData] in *.
    destruct (negb (JS.truthyNum j) || (length (statuses s) =? 0)%nat);
      [reflexivity |].
    change (hasJudicialCard j (setFormData (withStatusId v) s))
      with (hasJudicialCard j s).
    change (findStatus "Active" (setFormData (withStatusId v) s))
      with (findStatus "Active" s).
    change (findStatus "Inactive" (setFormData (withStatusId v) s))
      with (findStatus "Inactive" s).
    destruct (hasJudicialCard j s).
    - destruct (findStatus "Active" s) as [a|]; [| reflexivity].
      injection Heq as Heq. rewrite <- Heq. reflexivity.
    - destruct (findStatus "Inactive" s) as [i|]; [| reflexivity].
      injection Heq as Heq. rewrite <- Heq. reflexivity. }
  pose proof (derivedStatusEffect_writes_status s) as Hform.
  split; [| exact Hform].
  rewrite Hform at 1. rewrite (Hset _ Hform). symmetry. exact Hform.
Qed.

Ltac case_matches :=
  repeat match goal with
         | |- context [match ?x with _ => _ end] => destruct x
         end.

(** Which cells an action can write: only the choice of a base identity
    writes the lock, and the catalogues are written by their loads only. *)
Lemma act_keeps_lock (p : Props) (a : Action) (s : State) :
  match a with
  | EmployeeSelect _ _ => True
  | _ => isFormLocked (act p a s) = isFormLocked s
  end.
Proof.
  destruct a; cbn [act]; try exact I; try reflexivity.
  - unfold handleNewDocumentChange, updateDoc. case_matches; reflexivity.
  - unfold handleSubmit. case_matches; reflexivity.
Qed.

Lemma isFormLocked_effect (s : State) :
  isFormLocked (derivedStatusEffect s) = isFormLocked s.
Proof. now destruct (derivedStatusEffect_frame s) as (_ & _ & _ & _ & _ & ->). Qed.

Lemma dispatch_keeps_unlocked (p : Props) (a : Action) (s : State) :
  isFormLocked s = false -> isFormLocked (dispatch p s a) = false.
Proof.
  intros Hl. unfold dispatch. destruct (offered p s a) eqn:Hoff; [| assumption].
  assert (Hact : isFormLocked (act p a s) = false).
  { pose proof (act_keeps_lock p a s) as Hkeep.
    destruct a; try (rewrite Hkeep; exact Hl).
    cbn [offered] in Hoff. apply andb_true_iff in Hoff as [_ Hid].
    cbn [act]. unfold handleEmployeeSelect. rewrite Hid. cbn [negb].
    now destruct profile. }
  destruct (effectDepsChanged a s (act p a s)); [| assumption].
  now rewrite isFormLocked_effect.
Qed.

(** Once the form is unlocked, nothing the rendered form offers locks it
    again: the drop-down never reports an empty id, and no other handler
    writes the lock. *)
Theorem form_stays_unlocked (p : Props) (actions : list Action) (s : State) :
  isFormLocked s = false -> isFormLocked (run p actions s) = false.
Proof.
  revert s. induction actions as [|a l IH]; intros s Hl; [assumption |].
  unfold run. cbn [fold_left]. apply IH. now apply dispatch_keeps_unlocked.
Qed.

Lemma form_stays_unlocked_witness :
  isFormLocked
    (run editor
         [ EmployeeSelect "43" (Some sampleProfile); AddNewDocumentRow;
           EmployeeSelect "" None; Submit; SubmitFailed None ]
         (unlockedForm [ activeStatus; inactiveStatus ] []))
  = false.
Proof. apply form_stays_unlocked. reflexivity. Defined.

(** Choosing a base identity while the form is locked unlocks it and
    derives the status from the attachments; choosing another one while the
    form is already unlocked resets the status field to the empty string
    and leaves it empty, because no dependency of the effect changes. *)
Theorem reselection_leaves_status_empty
    (p : Props) (s : State) (employeeId : string) (details : HrEmployeeDetails) :
  isEditMode p = false -> isViewer p = false -> employeeId <> "" ->
  (isFormLocked s = true ->
     dispatch p s (EmployeeSelect employeeId (Some details))
     = derivedStatusEffect
         (setIsFormLocked false (setFormData (fun _ => seedFromProfile details) s)))
  /\ (isFormLocked s = false ->
      dispatch p s (EmployeeSelect employeeId (Some details))
      = setIsFormLocked false (setFormData (fun _ => seedFromProfile details) s)
      /\ status_id (formData (dispatch p s (EmployeeSelect employeeId (Some details))))
         = "").
Proof.
  intros He Hv Hid.
  assert (Hoff : offered p s (EmployeeSelect employeeId (Some details)) = true).
  { cbn [offered]. rewrite He, Hv. now destruct employeeId. }
  assert (Hact : act p (EmployeeSelect employeeId (Some details)) s
                 = setIsFormLocked false
                     (setFormData (fun _ => seedFromProfile details) s)).
  { cbn [act]. unfold handleEmployeeSelect. now destruct employeeId. }
  rewrite (dispatch_offered p s _ Hoff), Hact. cbn [effectDepsChanged].
  cbn [isFormLocked setIsFormLocked].
  split; intros Hl; rewrite Hl; cbn [Bool.eqb negb]; [reflexivity |].
  split; reflexivity.
Qed.

Lemma reselection_leaves_status_empty_witness :
  let locked := setIsFormLocked true (unlockedForm [ activeStatus; inactiveStatus ] []) in
  let once := dispatch editor locked (EmployeeSelect "42" (Some sampleProfile)) in
  let twice := dispatch editor once (EmployeeSelect "42" (Some sampleProfile)) in
  status_id (formData once) = "2" /\ status_id (formData twice) = "".
Proof.
  intros locked once twice.
  destruct (reselection_leaves_status_empty editor locked "42" sampleProfile
              eq_refl eq_refl ltac:(discriminate)) as (Hfirst & _).
  destruct (reselection_leaves_status_empty editor once "42" sampleProfile
              eq_refl eq_refl ltac:(discriminate)) as (_ & Hsecond).
  split.
  - subst once. now rewrite (Hfirst eq_refl).
  - subst twice. now apply Hsecond.
Defined.

Lemma dispatch_not_offered (p : Props) (a : Action) (s : State) :
  offered p s a = false -> dispatch p s a = s.
Proof. intros H. unfold dispatch. now rewrite H. Qed.

(** The cells of a form on which nothing has been entered. *)
Record untouched (s : State) : Prop := {
  untouched_formData : formData s = emptyFormData;
  untouched_existing : existingDocuments s = [];
  untouched_new : newDocuments s = [];
  untouched_deleted : deletedDocIds s = [];
  untouched_submitting : isSubmitting s = false;
  untouched_error : error s = "" }.

Definition notSelected (a : Action) : Prop :=
  match a with
  | EmployeeSelect _ (Some _) => False
  | _ => True
  end.

Lemma dispatch_locked_inert (p : Props) (a : Action) (s : State) :
  isEditMode p = false -> notSelected a ->
  isFormLocked s = true -> untouched s ->
  isFormLocked (dispatch p s a) = true /\ untouched (dispatch p s a).
Proof.
  intros He Hsel Hl Hu.
  destruct (offered p s a) eqn:Hoff;
    [| rewrite (dispatch_not_offered p a s Hoff); auto].
  pose proof Hoff as Hcond.
  destruct a; cbn [offered] in Hcond; rewrite ?He, ?Hl in Hcond;
    rewrite ?orb_true_r in Hcond;
    cbn [negb andb orb] in Hcond; rewrite ?andb_false_r in Hcond;
    try discriminate.
  - rewrite (dispatch_offered p s _ Hoff). cbn [effectDepsChanged act].
    rewrite derivedStatusEffect_locked by exact Hl.
    destruct Hu. split; [exact Hl | now constructor].
  - rewrite (dispatch_offered p s _ Hoff). cbn [act].
    destruct (effectDepsChanged _ _ _);
      rewrite ?derivedStatusEffect_locked by exact Hl;
      destruct Hu; (split; [exact Hl | now constructor]).
  - destruct profile; [destruct Hsel |].
    rewrite (dispatch_offered p s _ Hoff). cbn [act effectDepsChanged].
    unfold handleEmployeeSelect.
    destruct (JS.truthyStr employeeId) eqn:Hid.
    + cbn [negb]. rewrite Bool.eqb_reflx. cbn [negb]. auto.
    + rewrite ?andb_false_r in Hcond. discriminate.
  - destruct Hu as [_ _ _ _ Hs _]. rewrite Hs in Hcond. discriminate.
Qed.

(** In creation mode, until a base identity has been chosen and its
    profile fetched, the form stays locked and untouched: whatever the user
    tries, no field is filled, no row is added, nothing is submitted. *)
Theorem form_inert_until_selected (p : Props) (actions : list Action) :
  isEditMode p = false -> Forall notSelected actions ->
  isFormLocked (run p actions (mount p)) = true
  /\ untouched (run p actions (mount p)).
Proof.
  intros He Hall.
  assert (Hgen : forall s, isFormLocked s = true -> untouched s ->
                           isFormLocked (run p actions s) = true
                           /\ untouched (run p actions s)).
  { induction Hall as [|a l Ha _ IH]; intros s Hl Hu; [auto |].
    unfold run. cbn [fold_left].
    destruct (dispatch_locked_inert p a s He Ha Hl Hu) as [Hl' Hu'].
    now apply IH. }
  apply Hgen; unfold mount; rewrite He; [reflexivity | now constructor].
Qed.

Lemma form_inert_until_selected_witness :
  newDocuments
    (run editor
         [ LoadStatuses [ activeStatus; inactiveStatus ]; LoadDocTypes sampleDocTypes;
           AddNewDocumentRow; InputChange JobTitle "Inspector";
           EmployeeSelect "42" None; Submit ]
         (mount editor)) = []
  /\ formData
       (run editor
            [ LoadStatuses [ activeStatus; inactiveStatus ]; LoadDocTypes sampleDocTypes;
              AddNewDocumentRow; InputChange JobTitle "Inspector";
              EmployeeSelect "42" None; Submit ]
            (mount editor)) = emptyFormData.
Proof.
  destruct (form_inert_until_selected editor
              [ LoadStatuses [ activeStatus; inactiveStatus ];
                LoadDocTypes sampleDocTypes;
                AddNewDocumentRow; InputChange JobTitle "Inspector";
                EmployeeSelect "42" None; Submit ]
              eq_refl ltac:(repeat constructor)) as [_ [Hf _ Hn _ _ _]].
  split; assumption.
Defined.

(** What a viewer session cannot change. *)
Record readOnly (s : State) : Prop := {
  readOnly_new : newDocuments s = [];
  readOnly_deleted : deletedDocIds s = [];
  readOnly_submitting : isSubmitting s = false;
  readOnly_error : error s = "" }.

Lemma derivedStatusEffect_other_cells (s : State) :
  newDocuments (derivedStatusEffect s) = newDocuments s
  /\ deletedDocIds (derivedStatusEffect s) = deletedDocIds s
  /\ isSubmitting (derivedStatusEffect s) = isSubmitting s
  /\ error (derivedStatusEffect s) = error s.
Proof. rewrite derivedStatusEffect_writes_status. repeat split. Qed.

Lemma dispatch_viewer_readOnly (p : Props) (a : Action) (s : State) :
  isViewer p = true -> readOnly s -> readOnly (dispatch p s a).
Proof.
  intros Hv Hr.
  destruct (offered p s a) eqn:Hoff;
    [| now rewrite (dispatch_not_offered p a s Hoff)].
  assert (Hact : readOnly (act p a s)).
  { pose proof Hoff as Hcond.
    destruct a; cbn [offered] in Hcond; rewrite ?Hv in Hcond;
      cbn [negb andb] in Hcond; rewrite ?andb_false_r in Hcond;
      try discriminate.
    - destruct Hr. now constructor.
    - destruct Hr. now constructor.
    - destruct Hr. now constructor.
    - destruct Hr as [_ _ Hs _]. rewrite Hs in Hcond. discriminate. }
  rewrite (dispatch_offered p s a Hoff).
  destruct (effectDepsChanged a s (act p a s)); [| assumption].
  destruct (derivedStatusEffect_other_cells (act p a s)) as (E1 & E2 & E3 & E4).
  destruct Hact. constructor; congruence.
Qed.

(** In a viewer session the form is read-only: whatever happens, no
    pending row exists, no persisted attachment is marked for deletion,
    nothing is being submitted, and [handleSubmit] sends no request. *)
Theorem viewer_session_is_read_only (p : Props) (actions : list Action) :
  isViewer p = true ->
  readOnly (run p actions (mount p))
  /\ handleSubmit p (run p actions (mount p)) = (run p actions (mount p), None).
Proof.
  intros Hv. split.
  - assert (Hgen : forall s, readOnly s -> readOnly (run p actions s)).
    { induction actions as [|a l IH]; intros s Hr; [assumption |].
      unfold run. cbn [fold_left]. apply IH.
      now apply dispatch_viewer_readOnly. }
    apply Hgen. unfold mount. destruct (isEditMode p); now constructor.
  - unfold handleSubmit. now rewrite Hv.
Qed.

Definition viewer : Props := {| employeeToEditId := Some 17; isViewer := true |}.

Lemma viewer_session_is_read_only_witness :
  deletedDocIds
    (run viewer
         [ LoadDocTypes sampleDocTypes;
           Hydrate (seedFromProfile sampleProfile) [ warrantDocument ];
           DeleteExistingDoc 90; AddNewDocumentRow; Submit ]
         (mount viewer)) = [].
Proof.
  destruct (viewer_session_is_read_only viewer
              [ LoadDocTypes sampleDocTypes;
                Hydrate (seedFromProfile sampleProfile) [ warrantDocument ];
                DeleteExistingDoc 90; AddNewDocumentRow; Submit ]
              eq_refl) as [[_ Hd _ _] _].
  exact Hd.
Defined.

(** *** Pending rows *)

Lemma filterIndexFrom_past {X : Type} (l : list X) :
  forall from index, (index < from)%nat -> filterIndexFrom from index l = l.
Proof.
  induction l as [|x l IH]; intros from index H; [reflexivity |].
  cbn [filterIndexFrom].
  replace (from =? index)%nat with false by (symmetry; apply Nat.eqb_neq; lia).
  rewrite IH by lia. reflexivity.
Qed.

Lemma filterIndexFrom_take_drop {X : Type} (l : list X) :
  forall from index, (from <= index)%nat ->
    filterIndexFrom from index l
    = take (index - from) l ++ drop (S (index - from)) l.
Proof.
  induction l as [|x l IH]; intros from index H.
  - now rewrite take_nil, drop_nil.
  - cbn [filterIndexFrom]. destruct (Nat.eqb_spec from index) as [->|Hne].
    + rewrite Nat.sub_diag. cbn [take drop app]. rewrite drop_0.
      apply filterIndexFrom_past. lia.
    + rewrite IH by lia.
      replace (index - from)%nat with (S (index - S from)) by lia.
      reflexivity.
Qed.

(** Removing a row takes out the row at that position and keeps the
    others in order; a position past the end removes nothing; and removing
    the row that was just added gives back the state as it was. *)
Theorem removeNewDocumentRow_removes_one (s : State) (index : nat) :
  newDocuments (removeNewDocumentRow index s)
  = take index (newDocuments s) ++ drop (S index) (newDocuments s)
  /\ ((length (newDocuments s) <= index)%nat -> removeNewDocumentRow index s = s)
  /\ removeNewDocumentRow (length (newDocuments s)) (addNewDocumentRow s) = s.
Proof.
  assert (Hspec : forall l : list NewDocument,
             filterIndexFrom 0 index l = take index l ++ drop (S index) l).
  { intros l. rewrite filterIndexFrom_take_drop by lia. now rewrite Nat.sub_0_r. }
  split; [| split].
  - cbn [removeNewDocumentRow newDocuments setNewDocuments]. apply Hspec.
  - intros Hlen. unfold removeNewDocumentRow, setNewDocuments.
    rewrite Hspec, take_ge, drop_ge, app_nil_r by lia. now destruct s.
  - unfold removeNewDocumentRow, addNewDocumentRow, setNewDocuments.
    cbn [newDocuments].
    rewrite filterIndexFrom_take_drop by lia. rewrite Nat.sub_0_r.
    rewrite take_app_length.
    rewrite drop_ge by (rewrite length_app; cbn; lia).
    rewrite app_nil_r. now destruct s.
Qed.

Lemma removeNewDocumentRow_removes_one_witness :
  removeNewDocumentRow 5 gappedForm = gappedForm.
Proof.
  destruct (removeNewDocumentRow_removes_one gappedForm 5) as (_ & H & _).
  apply H. cbn. lia.
Defined.

(** A change of one row leaves every other row, the number of rows and
    every other cell of the form except the error message as they were. *)
Theorem handleNewDocumentChange_touches_one_row
    (s : State) (index : nat) (ch : Change) :
  let s' := handleNewDocumentChange index ch s in
  length (newDocuments s') = length (newDocuments s)
  /\ (forall j, j <> index -> newDocuments s' !! j = newDocuments s !! j)
  /\ statuses s' = statuses s /\ docTypes s' = docTypes s
  /\ formData s' = formData s
  /\ existingDocuments s' = existingDocuments s
  /\ deletedDocIds s' = deletedDocIds s
  /\ isSubmitting s' = isSubmitting s /\ isFormLocked s' = isFormLocked s.
Proof.
  assert (Hupd : forall f e,
             let t := updateDoc index f (setError e s) in
             length (newDocuments t) = length (newDocuments s)
             /\ (forall j, j <> index -> newDocuments t !! j = newDocuments s !! j)
             /\ statuses t = statuses s /\ docTypes t = docTypes s
             /\ formData t = formData s
             /\ existingDocuments t = existingDocuments s
             /\ deletedDocIds t = deletedDocIds s
             /\ isSubmitting t = isSubmitting s /\ isFormLocked t = isFormLocked s).
  { intros f e. unfold updateDoc. cbn [newDocuments setError].
    destruct (newDocuments s !! index) as [doc|]; cbn;
      [| repeat split; reflexivity].
    rewrite length_insert. repeat split.
    intros j Hj. now apply list_lookup_insert_ne. }
  intros s'. subst s'. unfold handleNewDocumentChange.
  destruct ch as [[value|] | value | value | value]; try apply Hupd.
  - destruct (negb (existsb (String.eqb (file_type value)) allowedTypes));
      [cbn; repeat split; reflexivity | apply Hupd].
  - cbn. repeat split; reflexivity.
Qed.

Definition invalidFileMessage : string :=
  "Invalid file type. Please upload only images (JPG, PNG) or PDF files.".

Lemma allowedTypes_In (t : string) :
  existsb (String.eqb t) allowedTypes = true <-> In t allowedTypes.
Proof. apply (existsb_eqb_In String.eqb String_eqb_eq'). Qed.

(** A chosen file whose type is not JPEG, PNG or PDF is refused with a
    message and the rows stay as they are, so a file attached earlier is
    still the one a submission uploads; a file of an allowed type replaces
    the file of its row and clears the message. *)
Theorem file_choice_is_validated
    (p : Props) (s : State) (index : nat) (doc : NewDocument) (value : File) :
  newDocuments s !! index = Some doc ->
  let s' := handleNewDocumentChange index (ChangeFile (Some value)) s in
  (~ In (file_type value) allowedTypes ->
     error s' = invalidFileMessage
     /\ newDocuments s' = newDocuments s
     /\ submissionData p s' = submissionData p s)
  /\ (In (file_type value) allowedTypes ->
      error s' = ""
      /\ newDocuments s' !! index = Some (withFile value doc)
      /\ (doc_type_id doc <> "" ->
          In (newDocumentKey index "file", FvFile value) (submissionData p s'))).
Proof.
  intros Hdoc s'. subst s'. unfold handleNewDocumentChange. split.
  - intros Hbad.
    destruct (existsb (String.eqb (file_type value)) allowedTypes) eqn:E.
    + apply allowedTypes_In in E. contradiction.
    + cbn. repeat split.
  - intros Hok. apply allowedTypes_In in Hok. rewrite Hok. cbn [negb].
    set (t := updateDoc index (withFile value) (setError "" s)).
    assert (Hnew : newDocuments t = <[index := withFile value doc]> (newDocuments s)).
    { subst t. now apply (newDocuments_updateDoc index _ (setError "" s) doc). }
    assert (Hrow : newDocuments t !! index = Some (withFile value doc)).
    { rewrite Hnew. apply list_lookup_insert_eq. now apply lookup_lt_Some in Hdoc. }
    split; [| split].
    + subst t. unfold updateDoc. cbn [newDocuments setError]. now rewrite Hdoc.
    + exact Hrow.
    + intros Hid.
      pose proof (submissionData_row p t index) as Hfilter. rewrite Hrow in Hfilter.
      assert (Hin : In (newDocumentKey index "file", FvFile value)
                       (newDocumentEntries index (withFile value doc))).
      { unfold newDocumentEntries. cbn [file withFile doc_type_id].
        destruct (doc_type_id doc); [congruence |]. cbn [JS.truthyStr]. now left. }
      rewrite <- Hfilter in Hin. now apply filter_In in Hin.
Qed.

Definition screenshot : File :=
  {| file_name := "screen.gif"; file_type := "image/gif" |}.

Definition photo : File :=
  {| file_name := "card.png"; file_type := "image/png" |}.

Lemma file_choice_is_validated_witness :
  error (handleNewDocumentChange 0 (ChangeFile (Some screenshot)) gappedForm)
  = invalidFileMessage
  /\ submissionData editor
       (handleNewDocumentChange 0 (ChangeFile (Some screenshot)) gappedForm)
     = submissionData editor gappedForm
  /\ In ("new_documents[1][file]", FvFile photo)
        (submissionData editor
           (handleNewDocumentChange 1 (ChangeFile (Some photo)) gappedForm)).
Proof.
  destruct (file_choice_is_validated editor gappedForm 0 otherRow screenshot eq_refl)
    as (Hbad & _).
  destruct (file_choice_is_validated editor gappedForm 1 fileLessRow photo eq_refl)
    as (_ & Hok).
  split; [| split].
  - apply Hbad. cbv. intros [H | [H | [H | []]]]; discriminate.
  - apply Hbad. cbv. intros [H | [H | [H | []]]]; discriminate.
  - apply Hok; [cbv; auto | discriminate].
Defined.

(** *** What the rows of a form hold *)

(** The name the catalogue gives to a type id, as [withDocTypeId] looks it
    up. *)
Definition catalogueName (s : State) (value : string) : string :=
  match findDocType s value with
  | Some selectedDocType => dt_name selectedDocType
  | None => ""
  end.

(** The row names its type as the catalogue does, and carries legislation
    ids only if its type is the warrant-decision type. *)
Definition rowConsistent (s : State) (doc : NewDocument) : Prop :=
  doc_type_name doc = catalogueName s (doc_type_id doc)
  /\ (isWarrantDecisionValue s (doc_type_id doc) = false ->
      legislation_ids doc = []).

Definition notLoadDocTypes (a : Action) : Prop :=
  match a with
  | LoadDocTypes _ => False
  | _ => True
  end.

Lemma findDocType_placeholder (s : State) : findDocType s "" = None.
Proof.
  unfold findDocType. induction (all_types (docTypes s)) as [|dt l IH];
    [reflexivity |].
  cbn [List.find].
  pose proof (truthyStr_toString (dt_system_id dt)) as Ht.
  destruct (JS.toString (dt_system_id dt)); [discriminate | exact IH].
Qed.

Lemma rowConsistent_docTypes (s t : State) (doc : NewDocument) :
  docTypes t = docTypes s -> rowConsistent s doc -> rowConsistent t doc.
Proof.
  intros Hd. unfold rowConsistent, catalogueName, findDocType,
    isWarrantDecisionValue, warrantDecisionDocTypeId. now rewrite Hd.
Qed.

Lemma act_keeps_docTypes (p : Props) (a : Action) (s : State) :
  notLoadDocTypes a -> docTypes (act p a s) = docTypes s.
Proof.
  intros Ha. destruct a; try destruct Ha; cbn [act]; try reflexivity.
  - unfold handleEmployeeSelect. case_matches; reflexivity.
  - unfold handleNewDocumentChange, updateDoc. case_matches; reflexivity.
  - unfold handleSubmit. case_matches; reflexivity.
Qed.

Lemma rows_consistent_change (s : State) (index : nat) (ch : Change)
    (doc : NewDocument) :
  newDocuments s !! index = Some doc ->
  match ch with
  | ChangeLegislation _ => isWarrantDecisionNew s doc = true
  | _ => True
  end ->
  Forall (rowConsistent s) (newDocuments s) ->
  Forall (rowConsistent s) (newDocuments (handleNewDocumentChange index ch s)).
Proof.
  intros Hdoc Hoff Hall.
  assert (Hrow : rowConsistent s doc).
  { rewrite Forall_forall in Hall. apply Hall. eapply list_elem_of_lookup_2.
    exact Hdoc. }
  assert (Hupd : forall f, rowConsistent s (f doc) ->
             Forall (rowConsistent s)
                    (newDocuments (updateDoc index f (setError "" s)))).
  { intros f Hf.
    rewrite (newDocuments_updateDoc index f (setError "" s) doc) by exact Hdoc.
    cbn [newDocuments setError]. now apply Forall_insert. }
  unfold handleNewDocumentChange.
  destruct ch as [[value|] | value | value | value].
  - destruct (negb (existsb (String.eqb (file_type value)) allowedTypes));
      [exact Hall | apply Hupd; exact Hrow].
  - exact Hall.
  - apply Hupd. destruct Hrow as [Hname _]. split; [exact Hname |].
    cbn [doc_type_id withLegislationIds]. intros Hnot.
    unfold isWarrantDecisionNew in Hoff. unfold isWarrantDecisionValue in Hnot.
    destruct (warrantDecisionDocTypeId s) as [w|]; [| discriminate].
    apply andb_true_iff in Hoff as [_ Heq]. congruence.
  - apply Hupd. split.
    + reflexivity.
    + cbn [doc_type_id legislation_ids withDocTypeId].
      change (isWarrantDecisionValue (setError "" s) value)
        with (isWarrantDecisionValue s value).
      now intros ->.
  - apply Hupd. exact Hrow.
Qed.

Lemma dispatch_rows_consistent (p : Props) (a : Action) (s : State) :
  notLoadDocTypes a ->
  Forall (rowConsistent s) (newDocuments s) ->
  Forall (rowConsistent (dispatch p s a)) (newDocuments (dispatch p s a)).
Proof.
  intros Ha Hall.
  destruct (offered p s a) eqn:Hoff;
    [| now rewrite (dispatch_not_offered p a s Hoff)].
  assert (Hact : Forall (rowConsistent s) (newDocuments (act p a s))).
  { destruct a; try destruct Ha; cbn [act]; try exact Hall.
    - unfold handleEmployeeSelect. case_matches; exact Hall.
    - cbn [addNewDocumentRow newDocuments setNewDocuments].
      apply Forall_app. split; [exact Hall |].
      constructor; [| constructor]. split.
      + unfold catalogueName. cbn [doc_type_id emptyNewDocument].
        now rewrite findDocType_placeholder.
      + reflexivity.
    - cbn [offered] in Hoff. apply andb_true_iff in Hoff as [_ Hoff].
      destruct (newDocuments s !! index) as [doc|] eqn:Hdoc; [| discriminate].
      apply (rows_consistent_change s index ch doc Hdoc); [| exact Hall].
      destruct ch; try exact I. exact Hoff.
    - cbn [removeNewDocumentRow newDocuments setNewDocuments].
      rewrite filterIndexFrom_take_drop by lia. rewrite Nat.sub_0_r.
      apply Forall_app. split; [now apply Forall_take | now apply Forall_drop].
    - unfold handleSubmit. case_matches; exact Hall. }
  rewrite (dispatch_offered p s a Hoff).
  assert (Hd : docTypes (act p a s) = docTypes s) by now apply act_keeps_docTypes.
  destruct (effectDepsChanged a s (act p a s)).
  - destruct (derivedStatusEffect_frame (act p a s)) as (_ & Hd' & _ & Hn & _).
    rewrite Hn. eapply Forall_impl; [exact Hact |].
    intros doc. apply rowConsistent_docTypes. congruence.
  - eapply Forall_impl; [exact Hact |].
    intros doc. now apply rowConsistent_docTypes.
Qed.

Lemma run_rows_consistent (p : Props) (actions : list Action) :
  Forall notLoadDocTypes actions ->
  forall s, Forall (rowConsistent s) (newDocuments s) ->
            Forall (rowConsistent (run p actions s)) (newDocuments (run p actions s)).
Proof.
  induction 1 as [|a l Ha _ IH]; intros s Hall; [assumption |].
  unfold run. cbn [fold_left]. apply IH. now apply dispatch_rows_consistent.
Qed.

(** As long as the catalogue of document types is not reloaded, every
    pending row names its type as the catalogue does: the name sent with a
    row is the name of the first catalogue type with the row's id, and it
    is empty for a row without type. *)
Theorem rows_name_their_type (p : Props) (actions : list Action) (s : State) :
  newDocuments s = [] -> Forall notLoadDocTypes actions ->
  forall doc, In doc (newDocuments (run p actions s)) ->
    doc_type_name doc = catalogueName (run p actions s) (doc_type_id doc).
Proof.
  intros Hn Hall doc Hin.
  pose proof (run_rows_consistent p actions Hall s) as H.
  rewrite Hn in H. specialize (H (List.Forall_nil _)).
  rewrite Forall_forall in H. apply list_elem_of_In in Hin.
  now destruct (H doc Hin).
Qed.

(** As long as the catalogue of document types is not reloaded, only rows
    of the warrant-decision type carry legislation ids: choosing any other
    type empties them, and the check boxes are offered for that type
    only. *)
Theorem only_warrant_rows_hold_legislation
    (p : Props) (actions : list Action) (s : State) :
  newDocuments s = [] -> Forall notLoadDocTypes actions ->
  forall doc, In doc (newDocuments (run p actions s)) ->
    legislation_ids doc <> [] ->
    exists w, warrantDecisionDocTypeId (run p actions s) = Some w
              /\ doc_type_id doc = JS.toString w.
Proof.
  intros Hn Hall doc Hin Hleg.
  pose proof (run_rows_consistent p actions Hall s) as H.
  rewrite Hn in H. specialize (H (List.Forall_nil _)).
  rewrite Forall_forall in H. apply list_elem_of_In in Hin.
  destruct (H doc Hin) as [_ Hw].
  unfold isWarrantDecisionValue in Hw.
  destruct (warrantDecisionDocTypeId (run p actions s)) as [w|].
  - exists w. split; [reflexivity |].
    destruct (String.eqb_spec (doc_type_id doc) (JS.toString w)); [assumption |].
    now specialize (Hw eq_refl).
  - now specialize (Hw eq_refl).
Qed.

Definition warrantCatalogue : DocumentTypesResponse :=
  {| all_types := [ {| dt_system_id := 3; dt_name := "Warrant Decisions" |};
                    {| dt_system_id := 4; dt_name := "Passport" |} ];
     types_with_expiry := [ {| dt_system_id := 4; dt_name := "Passport" |} ] |}.

Definition warrantForm : State :=
  setDocTypes warrantCatalogue (unlockedForm [ activeStatus; inactiveStatus ] []).

(** A row is added, typed as a warrant decision, given a legislation, and
    then retyped as a passport. *)
Definition retypedSession : list Action :=
  [ AddNewDocumentRow; NewDocumentChange 0 (ChangeDocTypeId "3");
    NewDocumentChange 0 (ChangeLegislation "11");
    NewDocumentChange 0 (ChangeDocTypeId "4") ].

Definition legislatedSession : list Action :=
  [ AddNewDocumentRow; NewDocumentChange 0 (ChangeDocTypeId "3");
    NewDocumentChange 0 (ChangeLegislation "11") ].

Lemma rows_name_their_type_witness :
  newDocuments (run editor retypedSession warrantForm)
  = [ {| doc_type_id := "4"; doc_type_name := "Passport"; file := None;
         expiry := ""; legislation_ids := [] |} ]
  /\ catalogueName (run editor retypedSession warrantForm) "4" = "Passport".
Proof.
  split; [reflexivity |].
  symmetry.
  apply (rows_name_their_type editor retypedSession warrantForm eq_refl
           ltac:(repeat constructor)
           {| doc_type_id := "4"; doc_type_name := "Passport"; file := None;
              expiry := ""; legislation_ids := [] |}).
  replace (newDocuments (run editor retypedSession warrantForm))
    with [ {| doc_type_id := "4"; doc_type_name := "Passport"; file := None;
              expiry := ""; legislation_ids := [] |} ]
    by (vm_compute; reflexivity).
  left. reflexivity.
Defined.

Lemma only_warrant_rows_hold_legislation_witness :
  newDocuments (run editor legislatedSession warrantForm)
  = [ {| doc_type_id := "3"; doc_type_name := "Warrant Decisions"; file := None;
         expiry := ""; legislation_ids := [ "11" ] |} ]
  /\ exists w, warrantDecisionDocTypeId (run editor legislatedSession warrantForm)
               = Some w
               /\ "3" = JS.toString w.
Proof.
  split; [reflexivity |].
  apply (only_warrant_rows_hold_legislation editor legislatedSession warrantForm
           eq_refl ltac:(repeat constructor)
           {| doc_type_id := "3"; doc_type_name := "Warrant Decisions";
              file := None; expiry := ""; legislation_ids := [ "11" ] |}).
  - replace (newDocuments (run editor legislatedSession warrantForm))
      with [ {| doc_type_id := "3"; doc_type_name := "Warrant Decisions";
                file := None; expiry := ""; legislation_ids := [ "11" ] |} ]
      by (vm_compute; reflexivity).
    left. reflexivity.
  - discriminate.
Defined.

End FormBehaviour.

(** ** The validation of a submission *)

Section SubmitValidation.

Import EmployeeForm.

(** The type a pending row has chosen is a type of the catalogue. *)
Definition catalogued (s : State) (doc : NewDocument) : Prop :=
  doc_type_id doc = ""
  \/ exists type, findDocType s (doc_type_id doc) = Some type.

Definition isLoadDocTypes (a : Action) : bool :=
  match a with
  | LoadDocTypes _ => true
  | _ => false
  end.

(** The catalogue of document types is fetched once, by the mount
    effect. *)
Definition docTypesLoadedAtMostOnce (history : list Action) : Prop :=
  (length (List.filter isLoadDocTypes history) <= 1)%nat.

Ltac split_cases :=
  repeat match goal with
         | |- context [match ?x with _ => _ end] => destruct x
         end.

Lemma catalogued_docTypes (s t : State) (doc : NewDocument) :
  docTypes t = docTypes s -> catalogued s doc -> catalogued t doc.
Proof. intros Hd. unfold catalogued, findDocType. now rewrite Hd. Qed.

Lemma selectable_catalogued (s : State) (doc : NewDocument) (value : string) :
  selectable s doc value = true ->
  value = "" \/ exists type, findDocType s value = Some type.
Proof.
  unfold selectable. intros H. apply orb_true_iff in H as [H | H].
  - left. now apply String.eqb_eq in H.
  - right. apply existsb_exists in H as (type & Hin & Htype).
    apply andb_true_iff in Htype as [Heq _]. unfold findDocType.
    destruct (List.find _ (all_types (docTypes s))) as [t|] eqn:Hfind;
      [now exists t |].
    pose proof (find_none _ _ Hfind type Hin) as Hnone. cbn beta in Hnone.
    congruence.
Qed.

Lemma catalogued_change (s : State) (index : nat) (ch : Change)
    (doc : NewDocument) :
  newDocuments s !! index = Some doc ->
  match ch with
  | ChangeDocTypeId value => selectable s doc value = true
  | _ => True
  end ->
  Forall (catalogued s) (newDocuments s) ->
  Forall (catalogued s) (newDocuments (handleNewDocumentChange index ch s)).
Proof.
  intros Hdoc Hoff Hall.
  assert (Hrow : catalogued s doc).
  { rewrite Forall_forall in Hall. apply Hall. eapply list_elem_of_lookup_2.
    exact Hdoc. }
  assert (Hupd : forall f, catalogued s (f doc) ->
             Forall (catalogued s)
                    (newDocuments (updateDoc index f (setError "" s)))).
  { intros f Hf.
    rewrite (newDocuments_updateDoc index f (setError "" s) doc) by exact Hdoc.
    cbn [newDocuments setError]. now apply Forall_insert. }
  unfold handleNewDocumentChange.
  destruct ch as [[value|] | value | value | value].
  - destruct (negb (existsb (String.eqb (file_type value)) allowedTypes));
      [exact Hall | apply Hupd; exact Hrow].
  - exact Hall.
  - apply Hupd. exact Hrow.
  - apply Hupd. unfold catalogued. cbn [doc_type_id withDocTypeId].
    now apply (selectable_catalogued s doc).
  - apply Hupd. exact Hrow.
Qed.

Lemma act_frame_docTypes (p : Props) (a : Action) (s : State) :
  isLoadDocTypes a = false -> docTypes (act p a s) = docTypes s.
Proof.
  intros Ha. destruct a; try discriminate; cbn [act]; try reflexivity.
  - unfold handleEmployeeSelect. split_cases; reflexivity.
  - unfold handleNewDocumentChange, updateDoc. split_cases; reflexivity.
  - unfold handleSubmit. split_cases; reflexivity.
Qed.

Lemma dispatch_frame_docTypes (p : Props) (a : Action) (s : State) :
  isLoadDocTypes a = false -> docTypes (dispatch p s a) = docTypes s.
Proof.
  intros Ha. unfold dispatch. destruct (offered p s a); [| reflexivity].
  destruct (effectDepsChanged a s (act p a s)).
  - destruct (derivedStatusEffect_frame (act p a s)) as (_ & -> & _).
    now apply act_frame_docTypes.
  - now apply act_frame_docTypes.
Qed.

Lemma dispatch_catalogued (p : Props) (a : Action) (s : State) :
  isLoadDocTypes a = false ->
  Forall (catalogued s) (newDocuments s) ->
  Forall (catalogued (dispatch p s a)) (newDocuments (dispatch p s a)).
Proof.
  intros Ha Hall.
  pose proof (dispatch_frame_docTypes p a s Ha) as Hd.
  eapply Forall_impl; [| intros doc; apply catalogued_docTypes; exact Hd].
  unfold dispatch. destruct (offered p s a) eqn:Hoff; [| exact Hall].
  assert (Hact : Forall (catalogued s) (newDocuments (act p a s))).
  { destruct a; try discriminate; cbn [act]; try exact Hall.
    - unfold handleEmployeeSelect. split_cases; exact Hall.
    - cbn [addNewDocumentRow newDocuments setNewDocuments].
      apply Forall_app. split; [exact Hall |].
      constructor; [now left | constructor].
    - cbn [offered] in Hoff. apply andb_true_iff in Hoff as [_ Hoff].
      destruct (newDocuments s !! index) as [doc|] eqn:Hdoc; [| discriminate].
      apply (catalogued_change s index ch doc Hdoc); [| exact Hall].
      destruct ch; try exact I. exact Hoff.
    - cbn [removeNewDocumentRow newDocuments setNewDocuments].
      rewrite filterIndexFrom_take_drop by lia. rewrite Nat.sub_0_r.
      apply Forall_app. split; [now apply Forall_take | now apply Forall_drop].
    - unfold handleSubmit. split_cases; exact Hall. }
  destruct (effectDepsChanged a s (act p a s)); [| exact Hact].
  destruct (derivedStatusEffect_frame (act p a s)) as (_ & _ & _ & -> & _).
  exact Hact.
Qed.

Lemma run_catalogued (p : Props) (actions : list Action) :
  List.filter isLoadDocTypes actions = [] ->
  forall s, Forall (catalogued s) (newDocuments s) ->
            docTypes (run p actions s) = docTypes s
            /\ Forall (catalogued (run p actions s))
                      (newDocuments (run p actions s)).
Proof.
  induction actions as [|a l IH]; intros Hl s Hall; [now split |].
  cbn [List.filter] in Hl. destruct (isLoadDocTypes a) eqn:Ha; [discriminate |].
  unfold run. cbn [fold_left].
  destruct (IH Hl (dispatch p s a) (dispatch_catalogued p a s Ha Hall)) as [Hd Hc].
  unfold run in Hd, Hc. split; [| exact Hc].
  rewrite Hd. now apply dispatch_frame_docTypes.
Qed.

Lemma docTypesLoadedAtMostOnce_split (history : list Action) :
  docTypesLoadedAtMostOnce history ->
  List.filter isLoadDocTypes history = []
  \/ exists pre d post,
       history = pre ++ LoadDocTypes d :: post
       /\ List.filter isLoadDocTypes pre = []
       /\ List.filter isLoadDocTypes post = [].
Proof.
  unfold docTypesLoadedAtMostOnce. induction history as [|a l IH]; intros H.
  - now left.
  - cbn [List.filter] in *. destruct (isLoadDocTypes a) eqn:E.
    + right. destruct a; try discriminate. cbn [length] in H.
      exists [], d, l. repeat split.
      destruct (List.filter isLoadDocTypes l); [reflexivity | cbn in H; lia].
    + destruct (IH H) as [Hall | (pre & d & post & -> & Hpre & Hpost)].
      * now left.
      * right. exists (a :: pre), d, post. repeat split; [| exact Hpost].
        cbn [List.filter]. now rewrite E.
Qed.

(** With an empty catalogue no pending row has a type. *)
Lemma catalogued_empty (s : State) (doc : NewDocument) :
  all_types (docTypes s) = [] -> catalogued s doc -> doc_type_id doc = "".
Proof.
  intros He [H | (type & H)]; [exact H |].
  unfold findDocType in H. rewrite He in H. discriminate.
Qed.

(** In a session that fetches the catalogue once, the type of every
    pending row is a type of the catalogue. *)
Lemma catalogued_reachable (p : Props) (history : list Action) :
  docTypesLoadedAtMostOnce history ->
  Forall (catalogued (run p history (mount p)))
         (newDocuments (run p history (mount p))).
Proof.
  intros H.
  assert (Hmount : Forall (catalogued (mount p)) (newDocuments (mount p))
                   /\ all_types (docTypes (mount p)) = []).
  { unfold mount. destruct (isEditMode p); split; (constructor || reflexivity). }
  destruct Hmount as (Hm & Hempty).
  destruct (docTypesLoadedAtMostOnce_split history H)
    as [Hall | (pre & d & post & -> & Hpre & Hpost)].
  - now apply run_catalogued.
  - rewrite run_app. change (LoadDocTypes d :: post) with ([ LoadDocTypes d ] ++ post).
    rewrite run_app. apply run_catalogued; [exact Hpost |].
    destruct (run_catalogued p pre Hpre (mount p) Hm) as (Hd & Hc).
    set (s := run p pre (mount p)) in *.
    assert (Hnone : Forall (fun doc => doc_type_id doc = "") (newDocuments s)).
    { eapply Forall_impl; [exact Hc |]. intros doc. apply catalogued_empty.
      now rewrite Hd. }
    unfold run. cbn [fold_left]. unfold dispatch. cbn [offered act].
    assert (Hrows : forall t, newDocuments t = newDocuments s ->
                              Forall (catalogued t) (newDocuments t)).
    { intros t ->. eapply Forall_impl; [exact Hnone |]. intros doc Hdoc. now left. }
    destruct (effectDepsChanged (LoadDocTypes d) s (setDocTypes d s)).
    + apply Hrows.
      now destruct (derivedStatusEffect_frame (setDocTypes d s)) as (_ & _ & _ & -> & _).
    + now apply Hrows.
Qed.

Lemma findDocType_spec (s : State) (value : string) (type : DocType) :
  findDocType s value = Some type ->
  In type (all_types (docTypes s)) /\ value = JS.toString (dt_system_id type).
Proof.
  unfold findDocType. intros H. apply find_some in H as [Hin Heq].
  apply String.eqb_eq in Heq. now split.
Qed.

(** C5: for an editor, [handleSubmit] shows a validation message, starts
    no submission and sends no request when no base identity is selected
    (checked first, whatever the rows are), and when some pending row of an
    expiry-tracked type has no expiry date: the rows are scanned in order
    and the first such row is reported.  The message quotes the display
    name of the type the catalogue lists under the id of the row; for an id
    the catalogue does not list it quotes the word [undefined].  When every
    pending row is acceptable, in particular a row without expiry date whose
    type is not expiry-tracked, no message is shown and the request is
    sent.  In every state of a session that fetches the catalogue once, the
    type of every pending row with a type is listed by the catalogue, so
    the message names a display name. *)
Theorem handleSubmit_validation (p : Props) (s : State) :
  isViewer p = false ->
  (truthyId (employee_id (formData s)) = false ->
     error (fst (handleSubmit p s)) = "An employee must be selected."
     /\ snd (handleSubmit p s) = None
     /\ isSubmitting (fst (handleSubmit p s)) = isSubmitting s)
  /\ (forall before doc after n,
        truthyId (employee_id (formData s)) = true ->
        newDocuments s = before ++ doc :: after ->
        Forall (rowAcceptable s) before ->
        doc_type_id doc = JS.toString n -> expiryTracked s n -> expiry doc = "" ->
        snd (handleSubmit p s) = None
        /\ isSubmitting (fst (handleSubmit p s)) = isSubmitting s
        /\ (forall type,
              findDocType s (doc_type_id doc) = Some type ->
              dt_system_id type = n
              /\ error (fst (handleSubmit p s))
                 = "Expiry date is required for document type "
                     +:+ JS.dquote +:+ dt_name type +:+ JS.dquote +:+ ".")
        /\ (findDocType s (doc_type_id doc) = None ->
            error (fst (handleSubmit p s))
            = "Expiry date is required for document type "
                +:+ JS.dquote +:+ "undefined" +:+ JS.dquote +:+ "."))
  /\ (truthyId (employee_id (formData s)) = true ->
      Forall (rowAcceptable s) (newDocuments s) ->
      snd (handleSubmit p s) = Some (submitRequest p (setError "" s))
      /\ error (fst (handleSubmit p s)) = ""
      /\ isSubmitting (fst (handleSubmit p s)) = true)
  /\ (forall history,
        docTypesLoadedAtMostOnce history -> s = run p history (mount p) ->
        forall doc, In doc (newDocuments s) -> doc_type_id doc <> "" ->
          exists type,
            findDocType s (doc_type_id doc) = Some type
            /\ In type (all_types (docTypes s))
            /\ doc_type_id doc = JS.toString (dt_system_id type)).
Proof.
  intros Hv. split; [| split; [| split]].
  - intros Hid. rewrite (handleSubmit_editor p s Hv), Hid. cbn [negb].
    repeat split.
  - intros before doc after n Hid Hdocs Hbefore Hn Ht He.
    rewrite (handleSubmit_first_violation p s before after doc n) by assumption.
    cbn [fst snd error isSubmitting setError].
    split; [reflexivity | split; [reflexivity | split]].
    + intros type Hfind. rewrite Hfind.
      destruct (findDocType_spec s _ type Hfind) as [_ Heq].
      split; [| reflexivity].
      rewrite Hn in Heq. symmetry. now apply toString_inj.
    + intros ->. reflexivity.
  - intros Hid Hall. rewrite (handleSubmit_editor p s Hv), Hid. cbn [negb].
    rewrite firstExpiryViolation_none.
    + repeat split.
    + eapply Forall_impl; [exact Hall |]. apply expiryViolation_acceptable.
  - intros history Hh -> doc Hin Hne.
    pose proof (catalogued_reachable p history Hh) as Hall.
    rewrite Forall_forall in Hall. apply list_elem_of_In in Hin.
    destruct (Hall doc Hin) as [Hempty | (type & Hfind)]; [contradiction |].
    exists type. split; [exact Hfind |]. now apply findDocType_spec.
Qed.

(** The catalogue is fetched, an employee is chosen, and three rows are
    added: a miscellaneous one, and a passport and a judicial card without
    expiry date. *)
Definition undatedSession : list Action :=
  [ LoadDocTypes sampleDocTypes; EmployeeSelect "42" (Some sampleProfile);
    AddNewDocumentRow; NewDocumentChange 0 (ChangeDocTypeId "9");
    AddNewDocumentRow; NewDocumentChange 1 (ChangeDocTypeId "4");
    AddNewDocumentRow; NewDocumentChange 2 (ChangeDocTypeId "7") ].

Lemma handleSubmit_validation_witness :
  let s := run editor undatedSession (mount editor) in
  map doc_type_id (newDocuments s) = [ "9"; "4"; "7" ]
  /\ error (fst (handleSubmit editor s))
     = "Expiry date is required for document type "
         +:+ JS.dquote +:+ "Passport" +:+ JS.dquote +:+ "."
  /\ snd (handleSubmit editor s) = None
  /\ error (fst (handleSubmit editor (setIsFormLocked false initialState)))
     = "An employee must be selected."
  /\ snd (handleSubmit editor
            (unlockedForm [ activeStatus; inactiveStatus ] [ otherRow ]))
     <> None.
Proof.
  intros s.
  assert (Hrows : newDocuments s
                  = [ withDocTypeId s "9" emptyNewDocument ]
                    ++ withDocTypeId s "4" emptyNewDocument
                       :: [ withDocTypeId s "7" emptyNewDocument ])
    by (vm_compute; reflexivity).
  split; [vm_compute; reflexivity |].
  destruct (handleSubmit_validation editor s eq_refl) as (_ & Hrow & _ & _).
  destruct (Hrow _ _ _ 4 ltac:(vm_compute; reflexivity) Hrows)
    as (Hnone & _ & Hname & _).
  - constructor; [| constructor].
    right. right. exists 9. split; [vm_compute; reflexivity |].
    vm_compute. intros [H | [H | []]]; discriminate.
  - vm_compute. reflexivity.
  - vm_compute. auto.
  - vm_compute. reflexivity.
  - destruct (Hname {| dt_system_id := 4; dt_name := "Passport" |}
                    ltac:(vm_compute; reflexivity)) as (_ & Hmsg).
    split; [exact Hmsg | split; [exact Hnone |]].
    destruct (handleSubmit_validation editor (setIsFormLocked false initialState)
                eq_refl) as (Hid & _).
    destruct (Hid eq_refl) as (Herr & _).
    split; [exact Herr |].
    destruct (handleSubmit_validation editor
                (unlockedForm [ activeStatus; inactiveStatus ] [ otherRow ])
                eq_refl) as (_ & _ & Hpass & _).
    destruct Hpass as (Hsome & _).
    + reflexivity.
    + constructor; [apply otherRow_acceptable | constructor].
    + rewrite Hsome. discriminate.
Defined.

End SubmitValidation.

(** * Further properties of the employee drop-down *)

Section SearchBehaviour.

Import SearchableEmployeeSelect.

(** A request whose controller has not been aborted. *)
Definition live (f : Fetch) : bool := negb (aborted f).

(** The bookkeeping of the requests in flight: their ids are older than
    the next id, a request that has not been aborted is the one the
    controller ref holds, and at most one has not been aborted. *)
Record tracked (c : Component) : Prop := {
  tracked_fresh :
    Forall (fun f => (fetch_id f < nextFetchId c)%nat) (inFlight c);
  tracked_live :
    Forall (fun f => aborted f = false -> fetchController c = Some (fetch_id f))
           (inFlight c);
  tracked_one : (length (List.filter live (inFlight c)) <= 1)%nat }.

Lemma tracked_frame (c c' : Component) :
  inFlight c' = inFlight c -> fetchController c' = fetchController c ->
  nextFetchId c' = nextFetchId c -> tracked c -> tracked c'.
Proof. intros Hi Hf Hn [A B C]. constructor; rewrite ?Hi, ?Hf, ?Hn; assumption. Qed.

Lemma abortCurrent_aborts (c : Component) :
  Forall (fun f => aborted f = false -> fetchController c = Some (fetch_id f))
         (inFlight c) ->
  Forall (fun f => aborted f = true) (abortCurrent c).
Proof.
  unfold abortCurrent. destruct (fetchController c) as [id|].
  - induction 1 as [|f l Hf _ IH]; [constructor |].
    cbn [map]. constructor; [| exact IH].
    destruct (fetch_id f =? id)%nat eqn:E; [reflexivity |].
    destruct (aborted f); [reflexivity |].
    specialize (Hf eq_refl). injection Hf as ->.
    now rewrite Nat.eqb_refl in E.
  - induction 1 as [|f l Hf _ IH]; constructor; [| exact IH].
    destruct (aborted f); [reflexivity | now specialize (Hf eq_refl)].
Qed.

Lemma abortCurrent_fresh (n : nat) (c : Component) :
  Forall (fun f => (fetch_id f < n)%nat) (inFlight c) ->
  Forall (fun f => (fetch_id f < n)%nat) (abortCurrent c).
Proof.
  unfold abortCurrent. destruct (fetchController c) as [id|]; [| auto].
  induction 1 as [|f l Hf _ IH]; cbn [map]; constructor; [| exact IH].
  now destruct (fetch_id f =? id)%nat.
Qed.

Lemma filter_live_aborted (l : list Fetch) :
  Forall (fun f => aborted f = true) l -> List.filter live l = [].
Proof.
  induction 1 as [|f l Hf _ IH]; [reflexivity |].
  cbn [List.filter]. unfold live at 1. now rewrite Hf.
Qed.

Lemma Forall_list_filter {X : Type} (P : X -> Prop) (q : X -> bool) (l : list X) :
  Forall P l -> Forall P (List.filter q l).
Proof.
  induction 1 as [|x l Hx _ IH]; [constructor |].
  cbn [List.filter]. destruct (q x); [now constructor | exact IH].
Qed.

Lemma filter_filter_length {X : Type} (p q : X -> bool) (l : list X) :
  (length (List.filter p (List.filter q l)) <= length (List.filter p l))%nat.
Proof.
  induction l as [|x l IH]; [reflexivity |].
  cbn [List.filter]. destruct (q x), (p x) eqn:E; cbn [List.filter length];
    rewrite ?E; cbn [length]; lia.
Qed.

Lemma tracked_fetchEmployees search pageNumber newSearch (c : Component) :
  tracked c -> tracked (fetchEmployees search pageNumber newSearch c).
Proof.
  intros [A B C]. unfold fetchEmployees.
  destruct (isLoading (rendered c) || negb (hasMore (rendered c)) && negb newSearch);
    [now constructor |].
  pose proof (abortCurrent_aborts c B) as Hab.
  constructor; cbn [inFlight nextFetchId fetchController].
  - apply Forall_app. split.
    + eapply Forall_impl; [exact (abortCurrent_fresh _ c A) |].
      intros f Hf. cbn beta in *. lia.
    + constructor; [cbn; lia | constructor].
  - apply Forall_app. split.
    + eapply Forall_impl; [exact Hab |]. intros f Hf. cbn beta in *. congruence.
    + constructor; [reflexivity | constructor].
  - rewrite List.filter_app, (filter_live_aborted _ Hab). cbn. lia.
Qed.

Lemma settleFetch_bookkeeping (f : Fetch) (outcome : Outcome) (c : Component) :
  inFlight (settleFetch f outcome c) = inFlight c
  /\ fetchController (settleFetch f outcome c) = fetchController c
  /\ nextFetchId (settleFetch f outcome c) = nextFetchId c
  /\ mounted (settleFetch f outcome c) = mounted c
  /\ requests (settleFetch f outcome c) = requests c
  /\ timer (settleFetch f outcome c) = timer c
  /\ disabled (settleFetch f outcome c) = disabled c
  /\ rendered (settleFetch f outcome c) = rendered c
  /\ searchTerm (state (settleFetch f outcome c)) = searchTerm (state c)
  /\ page (state (settleFetch f outcome c)) = page (state c).
Proof.
  unfold settleFetch.
  destruct (observed f outcome) as [data | name];
    [| destruct (negb (String.eqb name "AbortError"))];
    destruct (mounted c) eqn:Hm;
    repeat (rewrite ?Hm; cbn [mounted update logError]);
    repeat split; reflexivity.
Qed.

Lemma tracked_settle (id : nat) (outcome : Outcome) (c : Component) :
  tracked c -> tracked (settle id outcome c).
Proof.
  intros [A B C]. unfold settle.
  destruct (List.find _ (inFlight c)) as [f|]; [| now constructor].
  destruct (settleFetch_bookkeeping f outcome
              (setInFlight
                 (List.filter (fun g => negb (fetch_id g =? id)%nat) (inFlight c)) c))
    as (Hi & Hf & Hn & _).
  eapply tracked_frame; [exact Hi | exact Hf | exact Hn |].
  constructor; cbn [inFlight setInFlight nextFetchId fetchController].
  - now apply Forall_list_filter.
  - now apply Forall_list_filter.
  - etransitivity; [apply filter_filter_length | exact C].
Qed.

Lemma tracked_step (c : Component) (e : Event) : tracked c -> tracked (step c e).
Proof.
  intros H. destruct e; cbn [step]; try (now apply tracked_settle);
    destruct (mounted c); try assumption.
  - unfold tick. destruct (t <? now c); [assumption |].
    destruct (timer c) as [[deadline term]|];
      [destruct (deadline <=? t) |];
      try (eapply tracked_frame; [| | | exact H]; reflexivity).
    unfold timerCallback. apply tracked_fetchEmployees.
    eapply tracked_frame; [| | | exact H]; reflexivity.
  - destruct (t <? now c); [assumption |].
    eapply tracked_frame; [| | | exact H]; reflexivity.
  - eapply tracked_frame; [| | | exact H]; reflexivity.
  - unfold handleChange. destruct (disabled c); [assumption |].
    eapply tracked_frame; [| | | exact H]; reflexivity.
  - unfold handleScroll. destruct (disabled c); [assumption |].
    destruct (hasMore (rendered c) && negb (isLoading (rendered c)));
      [| assumption].
    cbv zeta. apply tracked_fetchEmployees.
    eapply tracked_frame; [| | | exact H]; reflexivity.
  - unfold handleSelect. destruct (disabled c); [assumption |].
    eapply tracked_frame; [| | | exact H]; reflexivity.
  - eapply tracked_frame; [| | | exact H]; reflexivity.
Qed.

Lemma tracked_init (isDisabled : bool) (t0 : Z) : tracked (init isDisabled t0).
Proof. constructor; cbn; [constructor | constructor | lia]. Qed.

Lemma tracked_run (events : list Event) (c : Component) :
  tracked c -> tracked (run events c).
Proof.
  revert c. induction events as [|e l IH]; intros c H; [assumption |].
  unfold run. cbn [fold_left]. apply IH. now apply tracked_step.
Qed.

(** Whatever happens to the drop-down after it is mounted, at most one
    request in flight has not been aborted, it is the one the controller
    ref holds, and only its settlement can change the listed employees. *)
Theorem one_request_alive (isDisabled : bool) (t0 : Z) (events : list Event) :
  let c := run events (init isDisabled t0) in
  (length (List.filter live (inFlight c)) <= 1)%nat
  /\ Forall (fun f => aborted f = false -> fetchController c = Some (fetch_id f))
            (inFlight c)
  /\ forall id outcome,
       employees (state (step c (Settle id outcome))) <> employees (state c) ->
       fetchController c = Some id.
Proof.
  intros c.
  destruct (tracked_run events _ (tracked_init isDisabled t0)) as [A B C].
  fold c in A, B, C. split; [exact C | split; [exact B |]].
  intros id outcome Hne. cbn [step] in Hne. unfold settle in Hne.
  destruct (List.find _ (inFlight c)) as [f|] eqn:Hfind; [| now destruct Hne].
  apply find_some in Hfind as [Hin Hid]. apply Nat.eqb_eq in Hid.
  destruct (aborted f) eqn:Hab.
  - exfalso. apply Hne. unfold settleFetch, observed. rewrite Hab.
    rewrite String.eqb_refl. cbn [negb mounted setInFlight].
    now destruct (mounted c).
  - rewrite Forall_forall in B. apply list_elem_of_In in Hin.
    rewrite (B f Hin Hab). now rewrite Hid.
Qed.

(** *** A disabled drop-down *)

(** What a disabled drop-down keeps: its text is empty, nothing was
    selected, the page is the first one, and the only request it can have
    issued is the one of the timer armed at mount. *)
Record idle (c : Component) : Prop := {
  idle_disabled : disabled c = true;
  idle_term : searchTerm (state c) = "";
  idle_rendered : searchTerm (rendered c) = "";
  idle_page : page (state c) = 1;
  idle_selections : selections c = [];
  idle_requests :
    (exists deadline, timer c = Some (deadline, "") /\ requests c = [])
    \/ (timer c = None /\ (requests c = [] \/ requests c = [ ("", 1) ])) }.

Lemma idle_step (c : Component) (e : Event) : idle c -> idle (step c e).
Proof.
  intros [Hd Ht Hr Hp Hs Hq]. destruct e; cbn [step].
  - destruct (mounted c).
    + unfold tick. destruct (t <? now c); [constructor; assumption |].
      destruct Hq as [(deadline & Htimer & Hreq) | (Htimer & Hreq)];
        rewrite Htimer; [| constructor; cbn; auto].
      destruct (deadline <=? t).
      * unfold timerCallback, fetchEmployees.
        cbn [rendered update setTimer setNow].
        destruct (isLoading (rendered c) || negb (hasMore (rendered c)) && negb true);
          constructor; cbn; rewrite ?Hreq; auto.
      * constructor; cbn; eauto.
    + destruct (t <? now c); constructor; cbn; assumption.
  - destruct (mounted c); [| constructor; assumption].
    constructor; cbn [render disabled state rendered selections timer requests];
      try assumption.
    now rewrite Hr, Ht.
  - destruct (mounted c); [| constructor; assumption].
    unfold handleChange. rewrite Hd. constructor; assumption.
  - destruct (mounted c); [| constructor; assumption].
    unfold handleScroll. rewrite Hd. constructor; assumption.
  - destruct (mounted c); [| constructor; assumption].
    unfold handleSelect. rewrite Hd. constructor; assumption.
  - unfold settle. destruct (List.find _ (inFlight c)) as [f|];
      [| constructor; assumption].
    destruct (settleFetch_bookkeeping f outcome
                (setInFlight
                   (List.filter (fun g => negb (fetch_id g =? id)%nat) (inFlight c)) c))
      as (_ & _ & _ & _ & Hreq & Htimer & Hdis & Hrend & Hterm & Hpage).
    assert (Hsel : forall x, selections (settleFetch f outcome x) = selections x).
    { intros x. unfold settleFetch.
      destruct (observed f outcome) as [data | name];
        [| destruct (negb (String.eqb name "AbortError"))];
        destruct (mounted x) eqn:Hm;
        repeat (rewrite ?Hm; cbn [mounted update logError selections]);
        reflexivity. }
    constructor; rewrite ?Hreq, ?Htimer, ?Hdis, ?Hrend, ?Hterm, ?Hpage, ?Hsel;
      assumption.
  - destruct (mounted c); [| constructor; assumption].
    constructor; cbn [unmount disabled state rendered selections timer requests];
      try assumption.
    right. split; [reflexivity |].
    destruct Hq as [(deadline & _ & Hreq) | (_ & Hreq)]; auto.
Qed.

(** A disabled drop-down takes no input: its text stays empty, it stays
    on the first page, and it never reports a selection.  It still sends
    the request of the timer armed at mount, for the first page of the
    empty search, and no other. *)
Theorem disabled_select_is_inert (t0 : Z) (events : list Event) :
  let c := run events (init true t0) in
  searchTerm (state c) = ""
  /\ page (state c) = 1
  /\ selections c = []
  /\ (requests c = [] \/ requests c = [ ("", 1) ])
  /\ forall t, t0 + quietPeriod <= t ->
       requests (run (Tick t :: events) (init true t0)) = [ ("", 1) ].
Proof.
  intros c.
  assert (Hrun : forall l x, idle x -> idle (run l x)).
  { induction l as [|e l IH]; intros x Hx; [assumption |].
    unfold run. cbn [fold_left]. apply IH. now apply idle_step. }
  assert (Hinit : idle (init true t0)).
  { constructor; cbn; eauto. }
  destruct (Hrun events _ Hinit) as [_ Ht _ Hp Hs Hq]. fold c in Ht, Hp, Hs, Hq.
  split; [exact Ht | split; [exact Hp | split; [exact Hs | split]]].
  - destruct Hq as [(_ & _ & Hreq) | (_ & Hreq)]; auto.
  - intros t Hle.
    set (c1 := step (init true t0) (Tick t)).
    assert (H1 : idle c1 /\ timer c1 = None /\ requests c1 = [ ("", 1) ]).
    { unfold c1. cbn [step init mounted]. unfold tick. cbn [now timer init].
      replace (t <? t0) with false
        by (symmetry; apply Z.ltb_ge; unfold quietPeriod in Hle; lia).
      replace (t0 + quietPeriod <=? t) with true
        by (symmetry; apply Z.leb_le; lia).
      split; [constructor; cbn; auto | split; reflexivity]. }
    destruct H1 as (Hidle & Htimer & Hreq).
    assert (Hkeep : forall l x, idle x -> timer x = None ->
                      requests x = [ ("", 1) ] ->
                      requests (run l x) = [ ("", 1) ]).
    { induction l as [|e l IH]; intros x Hx Htx Hrx; [assumption |].
      unfold run. cbn [fold_left]. pose proof (idle_step x e Hx) as Hx'.
      assert (Hframe : timer (step x e) = None /\ requests (step x e) = requests x).
      { destruct Hx as [Hd Ht' Hr _ _ _].
        destruct e; cbn [step].
        - destruct (mounted x).
          + unfold tick. destruct (t1 <? now x); [auto |].
            rewrite Htx. auto.
          + destruct (t1 <? now x); auto.
        - destruct (mounted x); [| auto].
          cbn [render timer requests]. rewrite Hr, Ht', Htx. auto.
        - destruct (mounted x); [| auto]. unfold handleChange. rewrite Hd. auto.
        - destruct (mounted x); [| auto]. unfold handleScroll. rewrite Hd. auto.
        - destruct (mounted x); [| auto]. unfold handleSelect. rewrite Hd. auto.
        - unfold settle. destruct (List.find _ (inFlight x)) as [f|]; [| auto].
          destruct (settleFetch_bookkeeping f outcome
                (setInFlight
                   (List.filter (fun g => negb (fetch_id g =? id)%nat) (inFlight x)) x))
            as (_ & _ & _ & _ & Hreq' & Htimer' & _).
          rewrite Hreq', Htimer'. auto.
        - destruct (mounted x); auto. }
      destruct Hframe as (Hft & Hfr).
      apply IH; [exact Hx' | exact Hft | congruence]. }
    change (run (Tick t :: events) (init true t0)) with (run events c1).
    now apply Hkeep.
Qed.

(** *** Paging *)

Lemma find_fresh (n : nat) (l : list Fetch) :
  Forall (fun f => (fetch_id f < n)%nat) l -> List.find (hasId n) l = None.
Proof.
  induction 1 as [|f l Hf _ IH]; [reflexivity |].
  cbn [List.find]. unfold hasId at 1.
  replace (fetch_id f =? n)%nat with false
    by (symmetry; apply Nat.eqb_neq; lia).
  exact IH.
Qed.

Lemma find_app_fresh {X : Type} (q : X -> bool) (l1 l2 : list X) :
  List.find q l1 = None -> List.find q (l1 ++ l2) = List.find q l2.
Proof.
  induction l1 as [|y l1 IH]; [reflexivity |].
  cbn [app List.find]. destruct (q y); [discriminate | exact IH].
Qed.

(** Scrolling to the end of the list asks for the page after the one
    shown, for the text shown, unless the list shown is complete or
    loading: in that case nothing happens.  When the answer to that
    request arrives its employees are added after the ones listed, and
    the flag of further pages is the one of the answer. *)
Theorem scroll_loads_next_page
    (isDisabled : bool) (t0 : Z) (events : list Event) :
  let c := run events (init isDisabled t0) in
  mounted c = true -> disabled c = false ->
  (hasMore (rendered c) = false \/ isLoading (rendered c) = true ->
   step c Scroll = c)
  /\ (hasMore (rendered c) = true -> isLoading (rendered c) = false ->
      let c1 := step c Scroll in
      requests c1
      = requests c ++ [ (searchTerm (rendered c), page (rendered c) + 1) ]
      /\ page (state c1) = page (rendered c) + 1
      /\ isLoading (state c1) = true
      /\ fetchController c1 = Some (nextFetchId c)
      /\ forall data,
           let c2 := step c1 (Settle (nextFetchId c) (Fulfilled data)) in
           employees (state c2) = employees (state c) ++ resp_employees data
           /\ hasMore (state c2) = resp_hasMore data
           /\ isLoading (state c2) = false).
Proof.
  intros c Hm Hd.
  destruct (tracked_run events _ (tracked_init isDisabled t0)) as [A _ _].
  fold c in A.
  split.
  - intros Hguard. cbn [step]. rewrite Hm. unfold handleScroll. rewrite Hd.
    destruct Hguard as [-> | ->]; [reflexivity | now rewrite andb_false_r].
  - intros Hmore Hload c1.
    assert (Hc1 : c1 = fetchEmployees (searchTerm (rendered c))
                         (page (rendered c) + 1) false
                         (update (setPage (page (rendered c) + 1)) c)).
    { unfold c1. cbn [step]. rewrite Hm. unfold handleScroll.
      now rewrite Hd, Hmore, Hload. }
    unfold fetchEmployees in Hc1. cbn [rendered update] in Hc1.
    rewrite Hmore, Hload in Hc1. cbn [orb negb andb] in Hc1.
    rewrite Hc1. cbn [requests page state setIsLoading setPage isLoading
                      fetchController nextFetchId update].
    split; [reflexivity | split; [reflexivity | split; [reflexivity |
      split; [reflexivity |]]]].
    intros data. cbn [step]. unfold settle. cbn [inFlight nextFetchId update].
    fold (hasId (nextFetchId c)).
    rewrite find_app_fresh
      by (apply find_fresh;
          apply (abortCurrent_fresh _ (update (setPage (page (rendered c) + 1)) c));
          exact A).
    cbn [List.find]. unfold hasId. cbn [fetch_id]. rewrite Nat.eqb_refl.
    unfold settleFetch, observed. cbn [aborted isNewSearch].
    repeat (rewrite ?Hm; cbn [mounted setInFlight update]).
    cbn [state employees hasMore isLoading setEmployees setHasMore
         setIsLoading setPage].
    repeat split; reflexivity.
Qed.

(** The first page of the empty search has arrived and is shown. *)
Definition firstPageShown : Component :=
  run [ Tick 300; Render; Settle 0 (Fulfilled sampleEmployees); Render ]
      (init false 0).

Lemma scroll_loads_next_page_witness :
  requests (step firstPageShown Scroll) = [ ("", 1); ("", 2) ]
  /\ employees
       (state (step (step firstPageShown Scroll)
                    (Settle 1 (Fulfilled sampleEmployees))))
     = resp_employees sampleEmployees ++ resp_employees sampleEmployees.
Proof.
  destruct (scroll_loads_next_page false 0
              [ Tick 300; Render; Settle 0 (Fulfilled sampleEmployees); Render ]
              eq_refl eq_refl) as (_ & H).
  destruct (H eq_refl eq_refl) as (Hreq & _ & _ & _ & Hdata).
  split; [exact Hreq |].
  destruct (Hdata sampleEmployees) as (Hemp & _). exact Hemp.
Defined.

(** *** The loading flag *)

(** The settlement of any request of a mounted drop-down clears the
    loading flag, also while another request, not aborted, is still in
    flight: that request stays in flight, and the next render reads the
    drop-down as not loading. *)
Theorem settlement_clears_loading
    (c : Component) (id : nat) (f g : Fetch) (outcome : Outcome) :
  mounted c = true ->
  List.find (hasId id) (inFlight c) = Some f ->
  In g (inFlight c) -> fetch_id g <> id -> aborted g = false ->
  let c' := step c (Settle id outcome) in
  isLoading (state c') = false
  /\ In g (inFlight c')
  /\ isLoading (rendered (step c' Render)) = false.
Proof.
  intros Hm Hfind Hin Hne Hlive c'.
  assert (Hc : c' = settleFetch f outcome
                      (setInFlight
                         (List.filter (fun g => negb (fetch_id g =? id)%nat)
                                      (inFlight c)) c)).
  { unfold c'. cbn [step]. unfold settle. fold (hasId id). now rewrite Hfind. }
  assert (Hload : isLoading (state c') = false).
  { rewrite Hc. unfold settleFetch. cbn [mounted setInFlight].
    destruct (observed f outcome) as [data | name];
      [| destruct (negb (String.eqb name "AbortError"))];
      repeat (rewrite ?Hm; cbn [mounted setInFlight logError update state]);
      reflexivity. }
  destruct (settleFetch_bookkeeping f outcome
              (setInFlight
                 (List.filter (fun g => negb (fetch_id g =? id)%nat) (inFlight c)) c))
    as (Hi & _ & _ & Hmo & _).
  rewrite <- Hc in Hi, Hmo. cbn [inFlight mounted setInFlight] in Hi, Hmo.
  split; [exact Hload | split].
  - rewrite Hi. apply List.filter_In. split; [exact Hin |].
    apply negb_true_iff, Nat.eqb_neq. exact Hne.
  - cbn [step]. rewrite Hmo, Hm. cbn [render rendered]. exact Hload.
Qed.

Lemma settlement_clears_loading_witness :
  isLoading (state supersededRun) = true
  /\ isLoading (state (step supersededRun (Settle 0 (Fulfilled sampleEmployees))))
     = false
  /\ map aborted
         (inFlight (step supersededRun (Settle 0 (Fulfilled sampleEmployees))))
     = [ false ].
Proof.
  split; [reflexivity | split; [| reflexivity]].
  apply (settlement_clears_loading supersededRun 0 (abort firstFetch)
           {| fetch_id := 1; currentSearch := ""; currentPage := 2;
              isNewSearch := false; aborted := false |}
           (Fulfilled sampleEmployees));
    [reflexivity | reflexivity | right; left; reflexivity | discriminate
     | reflexivity].
Defined.

(** *** After teardown *)

Lemma unmounted_step (c : Component) (e : Event) :
  mounted c = false ->
  mounted (step c e) = false
  /\ state (step c e) = state c
  /\ rendered (step c e) = rendered c
  /\ timer (step c e) = timer c
  /\ requests (step c e) = requests c
  /\ selections (step c e) = selections c
  /\ fetchController (step c e) = fetchController c
  /\ incl (inFlight (step c e)) (inFlight c).
Proof.
  intros Hm.
  destruct e; cbn [step]; rewrite ?Hm;
    try (repeat split; (reflexivity || assumption || apply incl_refl)).
  - destruct (t <? now c); repeat split;
      (reflexivity || assumption || apply incl_refl).
  - unfold settle. destruct (List.find _ (inFlight c)) as [f|];
      [| repeat split; (reflexivity || assumption || apply incl_refl)].
    unfold settleFetch. cbn [mounted setInFlight].
    destruct (observed f outcome) as [data | name];
      [| destruct (negb (String.eqb name "AbortError"))];
      repeat (rewrite ?Hm; cbn [mounted setInFlight logError]);
      (repeat split; try (reflexivity || assumption));
      cbn [inFlight setInFlight logError]; apply List.incl_filter.
Qed.

(** After teardown the drop-down is frozen: no event changes its cells,
    arms its timer, sends a request or reports a selection.  Teardown
    aborts nothing: the requests in flight stay as they are until they
    settle. *)
Theorem unmounted_select_is_frozen (c : Component) (events : list Event) :
  mounted c = true ->
  let c0 := step c Unmount in
  let c' := run events c0 in
  inFlight c0 = inFlight c
  /\ timer c0 = None
  /\ mounted c' = false
  /\ state c' = state c
  /\ timer c' = None
  /\ requests c' = requests c
  /\ selections c' = selections c
  /\ incl (inFlight c') (inFlight c).
Proof.
  intros Hm c0 c'.
  assert (H0 : mounted c0 = false /\ state c0 = state c /\ timer c0 = None
               /\ requests c0 = requests c /\ selections c0 = selections c
               /\ inFlight c0 = inFlight c).
  { unfold c0. cbn [step]. rewrite Hm. repeat split; reflexivity. }
  destruct H0 as (Hm0 & Hs0 & Ht0 & Hr0 & Hsel0 & Hi0).
  assert (Hrun : forall l x, mounted x = false ->
            mounted (run l x) = false /\ state (run l x) = state x
            /\ timer (run l x) = timer x /\ requests (run l x) = requests x
            /\ selections (run l x) = selections x
            /\ incl (inFlight (run l x)) (inFlight x)).
  { induction l as [|e l IH]; intros x Hx;
      [repeat split; (reflexivity || assumption || apply incl_refl) |].
    unfold run. cbn [fold_left].
    destruct (unmounted_step x e Hx) as (A & B & _ & D & E & F & _ & G).
    destruct (IH _ A) as (A' & B' & D' & E' & F' & G').
    unfold run in *.
    repeat split; try congruence.
    eapply incl_tran; eassumption. }
  destruct (Hrun events c0 Hm0) as (A & B & D & E & F & G). fold c' in A, B, D, E, F, G.
  rewrite Hi0 in G.
  repeat split; try congruence. exact G.
Qed.

Lemma unmounted_select_is_frozen_witness :
  let c' := run [ Unmount; Settle 0 (Fulfilled sampleEmployees); Tick 5000; Scroll ]
                loadingFirstPage in
  employees (state c') = [] /\ requests c' = [ ("", 1) ] /\ inFlight c' = [].
Proof.
  intros c'.
  destruct (unmounted_select_is_frozen loadingFirstPage
              [ Settle 0 (Fulfilled sampleEmployees); Tick 5000; Scroll ]
              eq_refl) as (_ & _ & _ & Hstate & _ & Hreq & _).
  split; [| split; [exact Hreq | reflexivity]].
  change c' with
    (run [ Settle 0 (Fulfilled sampleEmployees); Tick 5000; Scroll ]
         (step loadingFirstPage Unmount)).
  now rewrite Hstate.
Defined.

(** *** The debounce *)

Lemma burst_issues_one_fetch_when_idle_witness :
  requests (run (keystrokes [ (10, "a"); (120, "al"); (260, "ali") ] ++ [ Tick 560 ])
                (init false 0))
  = [ ("ali", 1) ].
Proof.
  apply (burst_issues_one_fetch_when_idle (init false 0) (10, "a")
           [ (120, "al"); (260, "ali") ] 560);
    try reflexivity; cbn; try lia; try discriminate.
  repeat split; (lia || discriminate).
Defined.

End SearchBehaviour.

(** * Further properties of the nationality drop-down *)

Section NationalityBehaviour.

Import SearchableNationalitySelect.

Variable toLowerCase : string -> string.

Lemma startsWith_refl (x : string) : JS.startsWith x x = true.
Proof.
  induction x as [|a x IH]; [reflexivity |].
  cbn [JS.startsWith]. now rewrite Ascii.eqb_refl, IH.
Qed.

Lemma includes_refl (x : string) : JS.includes x x = true.
Proof. destruct x; cbn [JS.includes]; now rewrite startsWith_refl. Qed.

Lemma existsb_string_In (x : string) (l : list string) :
  existsb (String.eqb x) l = true -> In x l.
Proof.
  intros H. apply existsb_exists in H as (y & Hy & Heq).
  apply String.eqb_eq in Heq. now subst.
Qed.

Lemma nationalities_step (c : Component) (e : Event) :
  nationalities (step toLowerCase c e) = nationalities c.
Proof.
  unfold step. destruct (offered toLowerCase c e); [| reflexivity].
  destruct e; try reflexivity.
  cbn [receiveValue]. unfold receiveValue. now destruct (String.eqb v (value c)).
Qed.

Lemma changes_step (c : Component) (e : Event) :
  changes (step toLowerCase c e) = changes c
  \/ exists nationality,
       In nationality (nationalities c)
       /\ changes (step toLowerCase c e) = changes c ++ [ nationality ].
Proof.
  unfold step. destruct (offered toLowerCase c e) eqn:Hoff; [| now left].
  destruct e; try (now left).
  - right. exists nationality. split; [| reflexivity].
    cbn [offered] in Hoff. apply andb_true_iff in Hoff as [_ Hin].
    apply existsb_string_In in Hin. unfold filteredNationalities in Hin.
    apply List.filter_In in Hin. tauto.
  - left. unfold receiveValue. now destruct (String.eqb v (value c)).
Qed.

(** The drop-down reports listed nationalities only: whatever is typed
    into the box, and whatever the parent does to the value and the
    disabled flag, every call of [onChange] passes a member of the list
    the component was given.  Text that was typed is never reported. *)
Theorem reported_nationalities_are_listed
    (v : string) (isDisabled : bool) (l : list string) (events : list Event) :
  let c := run toLowerCase events (init v isDisabled l) in
  nationalities c = l
  /\ Forall (fun nationality => In nationality l) (changes c)
  /\ forall text, changes (step toLowerCase c (Input text)) = changes c.
Proof.
  intros c.
  assert (Hrun : forall evs x,
            Forall (fun n => In n (nationalities x)) (changes x) ->
            nationalities (run toLowerCase evs x) = nationalities x
            /\ Forall (fun n => In n (nationalities x))
                      (changes (run toLowerCase evs x))).
  { induction evs as [|e evs IH]; intros x Hx; [split; [reflexivity | assumption] |].
    unfold run. cbn [fold_left].
    pose proof (nationalities_step x e) as Hn.
    destruct (IH (step toLowerCase x e)) as (A & B).
    - rewrite Hn. destruct (changes_step x e) as [-> | (n & Hin & ->)];
        [assumption |].
      apply Forall_app. split; [assumption | now repeat constructor].
    - unfold run in *. rewrite A, Hn. split; [reflexivity |].
      now rewrite Hn in B. }
  destruct (Hrun events (init v isDisabled l)) as (A & B); [constructor |].
  fold c in A, B. cbn [init nationalities] in A, B.
  split; [exact A | split; [exact B |]].
  intros text. unfold step. now destruct (offered toLowerCase c (Input text)).
Qed.

(** When an option of the open list is chosen and the parent stores what
    [onChange] reported, the warning sign is not rendered, the box shows
    the chosen nationality, the list is closed, and the chosen nationality
    is among the options the box would list again. *)
Theorem selected_nationality_raises_no_warning
    (c : Component) (nationality : string) :
  offered toLowerCase c (Select nationality) = true ->
  let c' := receiveValue nationality (step toLowerCase c (Select nationality)) in
  changes c' = changes c ++ [ nationality ]
  /\ value c' = nationality
  /\ searchTerm c' = nationality
  /\ isOpen c' = false
  /\ warningShown toLowerCase c' = false
  /\ In nationality (filteredNationalities toLowerCase c').
Proof.
  intros Hoff c'.
  assert (Hin : In nationality (nationalities c)).
  { cbn [offered] in Hoff. apply andb_true_iff in Hoff as [_ Hin].
    apply existsb_string_In in Hin. unfold filteredNationalities in Hin.
    apply List.filter_In in Hin. tauto. }
  assert (Hc : changes c' = changes c ++ [ nationality ]
               /\ value c' = nationality /\ searchTerm c' = nationality
               /\ isOpen c' = false /\ nationalities c' = nationalities c).
  { unfold c', step. rewrite Hoff. unfold receiveValue.
    cbn [handleSelect value].
    destruct (String.eqb nationality (value c)) eqn:E.
    - apply String.eqb_eq in E. cbn. repeat split; congruence.
    - cbn. repeat split; reflexivity. }
  destruct Hc as (A & B & C & D & E).
  split; [exact A | split; [exact B | split; [exact C | split; [exact D |]]]].
  split.
  - unfold warningShown, isCurrentValueInList. rewrite E, B.
    replace (existsb _ (nationalities c)) with true; [reflexivity |].
    symmetry. apply existsb_exists. exists nationality.
    split; [exact Hin | apply String.eqb_refl].
  - unfold filteredNationalities. rewrite E, C. apply List.filter_In.
    split; [exact Hin | apply includes_refl].
Qed.

End NationalityBehaviour.

(** The list is open and the box holds the text [jo]. *)
Definition nationalityTyped : SearchableNationalitySelect.Component :=
  SearchableNationalitySelect.run JS.toLowerCase
    [ SearchableNationalitySelect.Focus; SearchableNationalitySelect.Input "jo" ]
    (SearchableNationalitySelect.init "Atlantis" false [ "Japan"; "Jordan"; "Oman" ]).

Lemma selected_nationality_raises_no_warning_witness :
  SearchableNationalitySelect.warningShown JS.toLowerCase nationalityTyped = true
  /\ SearchableNationalitySelect.filteredNationalities JS.toLowerCase nationalityTyped
     = [ "Jordan" ]
  /\ SearchableNationalitySelect.warningShown JS.toLowerCase
       (SearchableNationalitySelect.receiveValue "Jordan"
          (SearchableNationalitySelect.step JS.toLowerCase nationalityTyped
             (SearchableNationalitySelect.Select "Jordan"))) = false.
Proof.
  split; [vm_compute; reflexivity | split; [vm_compute; reflexivity |]].
  pose proof (selected_nationality_raises_no_warning JS.toLowerCase
                nationalityTyped "Jordan") as H.
  specialize (H ltac:(vm_compute; reflexivity)).
  destruct H as (_ & _ & _ & _ & Hw & _). exact Hw.
Defined.

(** * Further properties of the bulk upload dialog *)

Section BulkAddBehaviour.

Import BulkAddModal.

Definition allowedFile (f : EmployeeForm.File) : Prop :=
  allowedName (EmployeeForm.file_name f) = true.

(** The file held, and every file posted, has an allowed name. *)
Record vetted (s : State) : Prop := {
  vetted_file : forall f, file s = Some f -> allowedFile f;
  vetted_uploads : Forall allowedFile (uploads s) }.

Lemma vetted_step (s : State) (e : Event) : vetted s -> vetted (step s e).
Proof.
  intros [Hf Hu]. unfold step. destruct (offered s e); [| now constructor].
  destruct e.
  - unfold handleFileChange. destruct files as [|selectedFile files];
      [now constructor |].
    destruct (allowedName (EmployeeForm.file_name selectedFile)) eqn:Hok;
      constructor; cbn; try assumption.
    + intros f [= <-]. exact Hok.
    + discriminate.
  - unfold handleSubmit. destruct (file s) as [f|] eqn:Hfile.
    + constructor; cbn.
      * now rewrite Hfile.
      * apply Forall_app. split; [assumption |].
        constructor; [now apply Hf | constructor].
    + constructor; cbn; [now rewrite Hfile | assumption].
  - unfold settle. destruct outcome as [[|] result |];
      [| destruct (res_errors result) |]; constructor; cbn;
      try assumption; discriminate.
Qed.

(** Only spreadsheets are posted: every file the dialog sends to the
    bulk-upload route, and the file it holds, has a name that ends in
    [.xlsx] or [.csv], in exactly this spelling.  A choice with another
    name drops the file that was held, so that the submit button is
    disabled. *)
Theorem uploads_have_allowed_extension (events : list Event) :
  let s := run events initialState in
  Forall allowedFile (uploads s)
  /\ (forall f, file s = Some f -> allowedFile f)
  /\ forall f rest,
       allowedName (EmployeeForm.file_name f) = false ->
       file (step s (FileChange (f :: rest))) = None
       /\ offered (step s (FileChange (f :: rest))) Submit = false.
Proof.
  intros s.
  assert (Hrun : forall evs x, vetted x -> vetted (run evs x)).
  { induction evs as [|e evs IH]; intros x Hx; [assumption |].
    unfold run. cbn [fold_left]. apply IH. now apply vetted_step. }
  destruct (Hrun events initialState) as [Hf Hu].
  { constructor; cbn; [discriminate | constructor]. }
  fold s in Hf, Hu. split; [exact Hu | split; [exact Hf |]].
  intros f rest Hbad. unfold step at 1 2. cbn [offered].
  unfold handleFileChange. rewrite Hbad.
  assert (Hnone : file (setFile None
                          (setError
                             (Some "Invalid file type. Please upload a .xlsx or .csv file.")
                             s)) = None) by reflexivity.
  split; [exact Hnone |]. cbn [offered]. rewrite Hnone. now rewrite orb_true_r.
Qed.

(** The bookkeeping of the posts. *)
Record serial (s : State) : Prop := {
  serial_pending : (pending s <= 1)%nat;
  serial_loading : isLoading s = true <-> pending s = 1%nat;
  serial_timers : (closeTimers s + pending s <= length (uploads s))%nat }.

Lemma serial_step (s : State) (e : Event) : serial s -> serial (step s e).
Proof.
  intros [Hp Hl Ht]. unfold step. destruct (offered s e) eqn:Hoff;
    [| now constructor].
  destruct e.
  - unfold handleFileChange. destruct files as [|selectedFile files];
      [now constructor |].
    destruct (allowedName (EmployeeForm.file_name selectedFile));
      constructor; cbn; assumption.
  - cbn [offered] in Hoff. apply negb_true_iff, orb_false_iff in Hoff as [Hload Hfile].
    unfold handleSubmit. destruct (file s) as [f|]; [| discriminate].
    assert (Hzero : pending s = 0%nat).
    { destruct (pending s) as [|[|n]]; [reflexivity | | lia].
      destruct Hl as [_ Hl]. rewrite Hl in Hload by reflexivity. discriminate. }
    constructor; cbn; rewrite ?Hzero, ?length_app; cbn; try lia;
      split; reflexivity.
  - cbn [offered] in Hoff. apply Nat.ltb_lt in Hoff.
    assert (Hone : pending s = 1%nat) by lia.
    unfold settle. destruct outcome as [[|] result |];
      [| destruct (res_errors result) |]; constructor; cbn;
      rewrite ?Hone; cbn; try lia; split; intros; discriminate.
Qed.

(** One upload at a time: at most one post is unanswered, the dialog
    shows itself as uploading exactly while one is, and every timer that
    will refresh the dashboard and close the dialog belongs to a post that
    was answered. *)
Theorem one_upload_at_a_time (events : list Event) :
  let s := run events initialState in
  (pending s <= 1)%nat
  /\ (isLoading s = true <-> pending s = 1%nat)
  /\ (closeTimers s + pending s <= length (uploads s))%nat
  /\ (isLoading s = true -> offered s Submit = false).
Proof.
  intros s.
  assert (Hrun : forall evs x, serial x -> serial (run evs x)).
  { induction evs as [|e evs IH]; intros x Hx; [assumption |].
    unfold run. cbn [fold_left]. apply IH. now apply serial_step. }
  destruct (Hrun events initialState) as [Hp Hl Ht].
  { constructor; cbn; [lia | split; intros; discriminate | lia]. }
  fold s in Hp, Hl, Ht.
  split; [exact Hp | split; [exact Hl | split; [exact Ht |]]].
  intros Hload. cbn [offered]. now rewrite Hload.
Qed.

Lemma orDefault_truthy (v : option string) (d : string) :
  d <> "" -> orDefault v d <> "".
Proof.
  intros Hd. unfold orDefault. destruct v as [x|]; [| assumption].
  destruct x; [assumption | discriminate].
Qed.

(** What the answer of a post leaves behind.  The dialog stops loading.
    For an answer that is [ok] the result box has no error list, the file
    is dropped, the error line is left as it was, and one timer is
    started.  For any other answer, and for an exception, the error line
    holds a text that is not empty, the result box has an error list, the
    file is kept and no timer is started; without an [errors] field in the
    answer the list is the error line. *)
Theorem upload_outcome_is_reported (s : State) (outcome : Outcome) :
  (0 < pending s)%nat ->
  let s' := step s (Settle outcome) in
  isLoading s' = false
  /\ uploads s' = uploads s
  /\ match outcome with
     | Responded true _ =>
       file s' = None /\ error s' = error s
       /\ closeTimers s' = S (closeTimers s)
       /\ exists m, m <> ""
                    /\ uploadResult s' = Some {| message := m; errors := None |}
     | _ =>
       file s' = file s /\ closeTimers s' = closeTimers s
       /\ exists e m l,
            e <> "" /\ error s' = Some e
            /\ uploadResult s' = Some {| message := m; errors := Some l |}
            /\ match outcome with
               | Responded _ result => res_errors result = None -> l = [ e ]
               | Threw => True
               end
     end.
Proof.
  intros Hp s'.
  assert (Hs : s' = settle outcome s).
  { unfold s', step. cbn [offered]. apply Nat.ltb_lt in Hp. now rewrite Hp. }
  rewrite Hs. unfold settle.
  destruct outcome as [[|] result |].
  - cbn. repeat split.
    eexists. split; [| reflexivity]. now apply orDefault_truthy.
  - destruct (res_errors result) as [l|] eqn:Hl; cbn; repeat split.
    + eexists _, _, _. split; [| split; [reflexivity | split; [reflexivity |]]].
      * now apply orDefault_truthy.
      * discriminate.
    + eexists _, _, _. split; [| split; [reflexivity | split; [reflexivity |]]].
      * now apply orDefault_truthy.
      * reflexivity.
  - cbn. repeat split.
    eexists _, _, _. split; [| split; [reflexivity | split; [reflexivity | exact I]]].
    discriminate.
Qed.

Definition sheet : EmployeeForm.File :=
  {| EmployeeForm.file_name := "employees.xlsx";
     EmployeeForm.file_type :=
       "application/vnd.openxmlformats-officedocument.spreadsheetml.sheet" |}.

(** The sheet has been chosen and posted. *)
Definition uploading : State := run [ FileChange [ sheet ]; Submit ] initialState.

Definition rowErrors : Result :=
  {| res_message := None; res_error := Some "2 rows were rejected.";
     res_errors := None |}.

Lemma upload_outcome_is_reported_witness :
  uploads uploading = [ sheet ]
  /\ isLoading uploading = true
  /\ isLoading (step uploading (Settle (Responded false rowErrors))) = false
  /\ uploadResult (step uploading (Settle (Responded false rowErrors)))
     = Some {| message := "Upload Failed:";
               errors := Some [ "2 rows were rejected." ] |}.
Proof.
  split; [reflexivity | split; [reflexivity |]].
  destruct (upload_outcome_is_reported uploading (Responded false rowErrors))
    as (Hload & _); [cbn; lia |].
  split; [exact Hload | reflexivity].
Defined.

End BulkAddBehaviour.

(** * Further properties of the page and the dashboard *)

Section PageBehaviour.

Import DashboardPage.

(** What holds of the page in every state it reaches. *)
Record coherent (s : State) : Prop := {
  coherent_dashboard : view s = dashboard -> editingEmployeeId s = None;
  coherent_id : forall id, editingEmployeeId s = Some id -> id <> 0;
  coherent_anonymous :
    user s = None ->
    view s = dashboard /\ isBulkAddOpen s = false /\ dataRefreshKey s = 0;
  coherent_user :
    forall u, user s = Some u -> username u <> "" /\ authPending s = false;
  coherent_viewer :
    isViewer s = true ->
    isBulkAddOpen s = false /\ (view s = form -> editingEmployeeId s <> None) }.

Lemma coherent_initial : coherent initialState.
Proof. constructor; cbn; intros; try discriminate; auto. Qed.

Ltac coherent_close :=
  try match goal with
      | Hu : forall u0 : User, Some ?x = Some u0 -> _ |- _ =>
        destruct (Hu x eq_refl); clear Hu
      end;
  constructor; unfold isViewer; cbn; intros;
  repeat match goal with
         | H : Some _ = Some _ |- _ => injection H as H; subst
         end;
  try discriminate; try tauto; try congruence;
  try (intuition (try discriminate; try congruence; eauto)).

Lemma coherent_step (s : State) (e : Event) : coherent s -> coherent (step s e).
Proof.
  intros [Hd Hi Ha Hu Hv]. unfold step.
  destruct (offered s e) eqn:Hoff; [| now constructor].
  destruct s as [v u ed b k ap ps]. unfold isViewer in Hv, Hoff.
  cbn [view user editingEmployeeId isBulkAddOpen dataRefreshKey authPending
       pushed] in Hd, Hi, Ha, Hu, Hv.
  destruct e; cbn [offered user view authPending isBulkAddOpen] in Hoff.
  - (* the session check is answered *)
    subst ap.
    assert (Hnone : u = None).
    { destruct u as [x|]; [| reflexivity].
      destruct (Hu x eq_refl) as [_ Hp]. discriminate. }
    subst u. destruct (Ha eq_refl) as (-> & -> & ->).
    unfold authSettled. cbn.
    destruct outcome as [[x|]|];
      [destruct (JS.truthyStr (username x)) eqn:Hname |..];
      coherent_close.
    match goal with
    | Hempty : username _ = "" |- _ => rewrite Hempty in Hname
    end.
    discriminate.
  - (* the add button *)
    destruct u as [x|]; [| discriminate]. destruct v; [| discriminate].
    unfold isViewer in Hoff. cbn in Hoff. apply negb_true_iff in Hoff.
    specialize (Hd eq_refl). subst ed.
    coherent_close.
  - (* the bulk button *)
    destruct u as [x|]; [| discriminate]. destruct v; [| discriminate].
    unfold isViewer in Hoff. cbn in Hoff. apply negb_true_iff in Hoff.
    specialize (Hd eq_refl). subst ed.
    coherent_close.
  - (* a row of the table *)
    destruct u as [x|]; [| discriminate]. destruct v; [| discriminate].
    specialize (Hd eq_refl). subst ed.
    unfold handleEdit. cbn [system_id].
    destruct (system_id employee) as [id|];
      [destruct (JS.truthyNum id) eqn:Hid |]; try coherent_close.
    apply truthyNum_true in Hid. congruence.
  - (* back from the form *)
    destruct u as [x|]; [| discriminate]. destruct v; [discriminate |].
    coherent_close.
  - (* the form was submitted *)
    destruct u as [x|]; [| discriminate]. destruct v; [discriminate |].
    coherent_close.
  - (* the timer of the dialog *)
    destruct u as [x|]; [| discriminate].
    coherent_close.
  - (* the dialog is closed *)
    destruct u as [x|]; [| discriminate].
    coherent_close.
  - (* logout *)
    destruct u as [x|]; [| discriminate].
    unfold handleLogout. destruct answered; coherent_close.
Qed.

(** The modes of the page.  While the dashboard is shown no employee is
    being edited, so that the add button always opens an empty form; an
    employee being edited never has the id 0, so that the form, which
    tests the id for truthiness, is in edit mode exactly when the page
    edits; before the session check has named a user the page reacts to
    nothing; and a viewer never opens the upload dialog or an empty form:
    every form a viewer sees is in edit mode. *)
Theorem page_modes (events : list Event) :
  let s := run events initialState in
  (view s = dashboard -> editingEmployeeId s = None)
  /\ (EmployeeForm.isEditMode (formProps s) = true <-> editingEmployeeId s <> None)
  /\ (user s = None ->
      view s = dashboard /\ isBulkAddOpen s = false /\ dataRefreshKey s = 0)
  /\ (forall u, user s = Some u -> username u <> "")
  /\ (isViewer s = true ->
      isBulkAddOpen s = false
      /\ (view s = form -> EmployeeForm.isEditMode (formProps s) = true)).
Proof.
  intros s.
  assert (Hrun : forall evs x, coherent x -> coherent (run evs x)).
  { induction evs as [|e evs IH]; intros x Hx; [assumption |].
    unfold run. cbn [fold_left]. apply IH. now apply coherent_step. }
  destruct (Hrun events _ coherent_initial) as [Hd Hi Ha Hu Hv].
  fold s in Hd, Hi, Ha, Hu, Hv.
  assert (Hedit : EmployeeForm.isEditMode (formProps s) = true
                  <-> editingEmployeeId s <> None).
  { unfold EmployeeForm.isEditMode, formProps. cbn [EmployeeForm.employeeToEditId].
    destruct (editingEmployeeId s) as [id|]; [| split; [discriminate | congruence]].
    split; [discriminate |]. intros _. apply truthyNum_true. now apply Hi. }
  split; [exact Hd | split; [exact Hedit | split; [exact Ha | split]]].
  - intros u Hus. now destruct (Hu u Hus).
  - intros Hviewer. destruct (Hv Hviewer) as [Hb Hf].
    split; [exact Hb |]. intros Hform. apply Hedit. now apply Hf.
Qed.

End PageBehaviour.

Section DashboardBehaviour.

Import DashboardView.

(** The parameters of the card named by [activeCard]. *)
Definition cardParams (card : Card) : list (string * string) :=
  param "status" (cardStatus card) ++ param "filter_type" (cardType card).

(** What holds of the dashboard in every state it reaches. *)
Record synced (s : State) : Prop := {
  synced_card :
    exists card, activeCard s = Some (cardName card)
                 /\ filterType s = cardType card
                 /\ statusFilter s = cardStatus card;
  synced_request : exists earlier, requests s = earlier ++ [ params s ];
  synced_loading : pending s = 0%nat -> isLoading s = false;
  synced_pending : (pending s <= length (requests s))%nat }.

Lemma option_eqb_eq (a b : option string) : option_eqb a b = true -> a = b.
Proof.
  destruct a, b; cbn; try discriminate; [| reflexivity].
  intros H. apply String.eqb_eq in H. now subst.
Qed.

Lemma option_eqb_refl (a : option string) : option_eqb a a = true.
Proof. destruct a; [apply String.eqb_refl | reflexivity]. Qed.

Lemma depsChanged_false (s s' : State) :
  depsChanged s s' = false -> params s' = params s.
Proof.
  unfold depsChanged. intros H. apply negb_false_iff in H.
  apply andb_true_iff in H as [H Hf]. apply andb_true_iff in H as [H Hs].
  apply andb_true_iff in H as [_ Ht].
  apply String.eqb_eq in Ht. apply option_eqb_eq in Hs, Hf.
  unfold params. now rewrite Ht, Hs, Hf.
Qed.

Lemma synced_effect (s : State) :
  (exists card, activeCard s = Some (cardName card)
                /\ filterType s = cardType card
                /\ statusFilter s = cardStatus card) ->
  (pending s <= length (requests s))%nat ->
  synced (employeesEffect s).
Proof.
  intros Hcard Hp. constructor; cbn.
  - exact Hcard.
  - now exists (requests s).
  - discriminate.
  - rewrite length_app. cbn. lia.
Qed.

Lemma synced_step (s : State) (e : Event) : synced s -> synced (step s e).
Proof.
  intros [Hc Hr Hl Hp]. unfold step. cbv zeta.
  destruct (depsChanged s (handle e s)) eqn:Hdeps.
  - apply synced_effect.
    + destruct e; cbn [handle]; try exact Hc.
      * exists card. repeat split.
      * destruct (0 <? pending s)%nat; [| exact Hc].
        unfold settle. destruct outcome as [[l|]|]; exact Hc.
    + destruct e; cbn [handle]; try exact Hp.
      destruct (0 <? pending s)%nat; [| exact Hp].
      unfold settle. destruct outcome as [[l|]|]; cbn; lia.
  - pose proof (depsChanged_false _ _ Hdeps) as Hparams.
    destruct Hr as (earlier & Hr).
    destruct e; cbn [handle] in *.
    + constructor; cbn; try assumption.
      * exists card. repeat split.
      * exists earlier. now rewrite <- Hparams in Hr.
    + constructor; cbn; try assumption.
      exists earlier. now rewrite <- Hparams in Hr.
    + constructor; cbn; try assumption.
      exists earlier. now rewrite <- Hparams in Hr.
    + destruct (0 <? pending s)%nat eqn:Hpos;
        [| constructor; try assumption; now exists earlier].
      apply Nat.ltb_lt in Hpos.
      unfold settle. destruct outcome as [[l|]|]; constructor; cbn;
        try assumption; try reflexivity; try lia;
        exists earlier; exact Hr.
Qed.

(** The dashboard keeps its filters, its highlighted card and its
    requests in step: the two filters are always the ones of the
    highlighted card, the last request sent is the one for the search text
    and the filters shown, with the search text left out when it is empty,
    and the table does not show itself as loading when no request is
    unanswered. *)
Theorem filters_follow_active_card (refreshKey : Z) (events : list Event) :
  let s := run events (mount refreshKey) in
  exists card earlier,
    activeCard s = Some (cardName card)
    /\ filterType s = cardType card
    /\ statusFilter s = cardStatus card
    /\ requests s
       = earlier ++ [ param "search" (Some (searchTerm s)) ++ cardParams card ]
    /\ (pending s = 0%nat -> isLoading s = false).
Proof.
  intros s.
  assert (Hrun : forall evs x, synced x -> synced (run evs x)).
  { induction evs as [|e evs IH]; intros x Hx; [assumption |].
    unfold run. cbn [fold_left]. apply IH. now apply synced_step. }
  destruct (Hrun events (mount refreshKey)) as [Hc Hr Hl _].
  { apply synced_effect; cbn; [| lia]. exists total. repeat split. }
  fold s in Hc, Hr, Hl.
  destruct Hc as (card & Ha & Hf & Hs). destruct Hr as (earlier & Hr).
  exists card, earlier.
  split; [exact Ha | split; [exact Hf | split; [exact Hs | split; [| exact Hl]]]].
  rewrite Hr. unfold params, cardParams. now rewrite Hf, Hs.
Qed.

End DashboardBehaviour.

(** * Further properties of the stored documents, the selection and the login *)

Section StoredDocuments.

Import EmployeeForm.

(** An entry of [updated_documents] after the legislation [legislationId]
    was toggled on the document [docSystemId]. *)
Definition toggledEntry (docSystemId legislationId : Z) (entry : Z * list Z)
  : Z * list Z :=
  if (fst entry =? docSystemId)%Z
  then (fst entry, toggleMember Z.eqb legislationId (snd entry))
  else entry.

Lemma updatedDocs_toggle (docSystemId legislationId : Z) (s : State) :
  updatedDocs (handleExistingDocLegislationChange docSystemId legislationId s)
  = map (toggledEntry docSystemId legislationId) (updatedDocs s).
Proof.
  unfold updatedDocs, handleExistingDocLegislationChange.
  cbn [existingDocuments setExistingDocuments].
  change (warrantDecisionDocTypeId (setExistingDocuments _ s))
    with (warrantDecisionDocTypeId s).
  induction (existingDocuments s) as [|doc docs IH]; [reflexivity |].
  cbn [map List.filter].
  destruct (ed_system_id doc =? docSystemId) eqn:E;
    cbn [ed_doc_type_id withExistingLegislationIds];
    destruct (match warrantDecisionDocTypeId s with
              | Some w => ed_doc_type_id doc =? w
              | None => false
              end);
    cbn [map]; rewrite ?IH; try reflexivity;
    unfold toggledEntry at 2; cbn [fst snd ed_system_id ed_legislation_ids
                                   withExistingLegislationIds];
    now rewrite E.
Qed.

Lemma updatedDocs_delete (docId : Z) (s : State) :
  updatedDocs (handleDeleteExistingDoc docId s)
  = List.filter (fun entry => negb (fst entry =? docId)) (updatedDocs s).
Proof.
  unfold updatedDocs, handleDeleteExistingDoc.
  cbn [existingDocuments setExistingDocuments setDeletedDocIds].
  change (warrantDecisionDocTypeId (setDeletedDocIds _ (setExistingDocuments _ s)))
    with (warrantDecisionDocTypeId s).
  induction (existingDocuments s) as [|doc docs IH]; [reflexivity |].
  cbn [map List.filter].
  destruct (ed_system_id doc =? docId) eqn:E; cbn [negb];
    destruct (match warrantDecisionDocTypeId s with
              | Some w => ed_doc_type_id doc =? w
              | None => false
              end) eqn:W;
    cbn [map List.filter fst]; rewrite ?W, ?E; cbn [negb map];
    now rewrite IH.
Qed.

Lemma submissionData_stored (p : Props) (s : State) :
  isEditMode p = true ->
  In ("updated_documents", FvUpdated (updatedDocs s)) (submissionData p s)
  /\ In ("deleted_documents", FvIds (deletedDocIds s)) (submissionData p s).
Proof.
  intros He. unfold submissionData. rewrite He.
  split; apply in_app_iff; right; apply in_app_iff; right; apply in_app_iff.
  - right. now left.
  - left. now left.
Qed.

(** What a change of the stored documents does to the next submission of
    a form in edit mode.  Toggling a legislation of a stored document
    toggles it in the entry of that document in [updated_documents], and
    changes no other entry; deleting a stored document takes its entry out
    of [updated_documents] and adds its id at the end of
    [deleted_documents]. *)
Theorem stored_document_changes_are_submitted
    (p : Props) (s : State) (docSystemId legislationId : Z) :
  isEditMode p = true ->
  (let s' := handleExistingDocLegislationChange docSystemId legislationId s in
   updatedDocs s' = map (toggledEntry docSystemId legislationId) (updatedDocs s)
   /\ In ("updated_documents", FvUpdated (updatedDocs s')) (submissionData p s')
   /\ In ("deleted_documents", FvIds (deletedDocIds s)) (submissionData p s'))
  /\ (let s' := handleDeleteExistingDoc docSystemId s in
      updatedDocs s'
      = List.filter (fun entry => negb (fst entry =? docSystemId)) (updatedDocs s)
      /\ In ("updated_documents", FvUpdated (updatedDocs s')) (submissionData p s')
      /\ In ("deleted_documents", FvIds (deletedDocIds s ++ [ docSystemId ]))
            (submissionData p s')).
Proof.
  intros He. split; intros s'.
  - split; [apply updatedDocs_toggle |].
    destruct (submissionData_stored p s' He) as [A B]. split; [exact A | exact B].
  - split; [apply updatedDocs_delete |].
    destruct (submissionData_stored p s' He) as [A B]. split; [exact A | exact B].
Qed.

(** A form in edit mode with a stored warrant decision and a stored
    passport. *)
Definition storedForm : State :=
  setExistingDocuments (fun _ => [ warrantDocument; passportDocument ]) warrantForm.

Lemma stored_document_changes_are_submitted_witness :
  updatedDocs storedForm = [ (90, [ 11; 12 ]) ]
  /\ updatedDocs (handleExistingDocLegislationChange 90 12 storedForm)
     = [ (90, [ 11 ]) ]
  /\ updatedDocs (handleDeleteExistingDoc 90 storedForm) = [].
Proof.
  destruct (stored_document_changes_are_submitted editing storedForm 90 12 eq_refl)
    as ((Ht & _) & (Hd & _)).
  split; [vm_compute; reflexivity | split].
  - rewrite Ht. vm_compute. reflexivity.
  - rewrite Hd. vm_compute. reflexivity.
Defined.

End StoredDocuments.

Section SelectionSearch.

Import SearchableEmployeeSelect.

(** Choosing an employee starts a search for the label.  The choice
    reports the id of the employee and writes the label, the name and the
    number of the employee, into the box; the box having changed, the
    debounce timer is armed again, and once the quiet period is over the
    list is emptied and, unless the drop-down shows itself as loading, the
    first page of a search for the label is requested. *)
Theorem selection_searches_for_label
    (c : Component) (employee : HrEmployee) (T : Z) :
  mounted c = true -> disabled c = false ->
  selectionText employee <> searchTerm (rendered c) ->
  now c + quietPeriod <= T ->
  let c1 := step c (Select employee) in
  let c2 := step c1 (Tick T) in
  selections c1 = selections c ++ [ JS.toString (system_id employee) ]
  /\ searchTerm (state c1) = selectionText employee
  /\ timer c1 = Some (now c + quietPeriod, selectionText employee)
  /\ requests c1 = requests c
  /\ timer c2 = None
  /\ requests c2
     = requests c
       ++ (if isLoading (state c) then [] else [ (selectionText employee, 1) ]).
Proof.
  intros Hm Hd Hne HT c1 c2.
  assert (Hc1 : c1 = handleSelect employee c).
  { unfold c1. cbn [step]. now rewrite Hm. }
  assert (Harm : armed (now c) (selectionText employee) c1
                 /\ selections c1 = selections c ++ [ JS.toString (system_id employee) ]
                 /\ requests c1 = requests c
                 /\ isLoading (state c1) = isLoading (state c)).
  { rewrite Hc1. unfold handleSelect. rewrite Hd. unfold render.
    cbn [update rendered state searchTerm setSearchTerm now timer mounted
         disabled selections requests isLoading].
    replace (String.eqb (searchTerm (rendered c)) (selectionText employee))
      with false by (symmetry; apply String.eqb_neq; congruence).
    split; [constructor; cbn; auto | repeat split]. }
  destruct Harm as (Harm & Hsel & Hreq & Hload).
  destruct (quiet_period_fires c1 (now c) T _ Harm HT) as (Ht2 & Hr2).
  fold c2 in Ht2, Hr2.
  split; [exact Hsel | split; [apply (armed_term _ _ _ Harm) | split]].
  - apply (armed_timer _ _ _ Harm).
  - split; [exact Hreq | split; [exact Ht2 |]].
    now rewrite Hr2, Hreq, Hload.
Qed.

Definition alice : HrEmployee :=
  {| system_id := 42; fullname_en := "Alice Example"; fullname_ar := "أليس";
     empno := "E-0042" |}.

Lemma selection_searches_for_label_witness :
  let c2 := run [ Select alice; Tick 1000 ] firstPageShown in
  selections c2 = [ "42" ]
  /\ requests c2 = [ ("", 1); ("Alice Example (E-0042)", 1) ].
Proof.
  intros c2.
  destruct (selection_searches_for_label firstPageShown alice 1000)
    as (_ & _ & _ & _ & _ & Hreq);
    [reflexivity | reflexivity | discriminate | vm_compute; discriminate |].
  split; [vm_compute; reflexivity | exact Hreq].
Defined.

End SelectionSearch.

Section LoginBehaviour.

Import LoginPage.

(** The bookkeeping of the login posts. *)
Record orderly (s : State) : Prop := {
  orderly_pending : (pending s <= 1)%nat;
  orderly_loading : isLoading s = true <-> pending s = 1%nat;
  orderly_pushed : Forall (fun path => path = "/") (pushed s);
  orderly_count : (length (pushed s) + pending s <= length (posts s))%nat }.

Lemma orderly_step (s : State) (e : Event) : orderly s -> orderly (step s e).
Proof.
  intros [Hp Hl Hf Hc]. unfold step. destruct (offered s e) eqn:Hoff;
    [| now constructor].
  destruct e; cbn [offered] in Hoff.
  - apply negb_true_iff in Hoff.
    assert (Hzero : pending s = 0%nat).
    { destruct (pending s) as [|[|n]]; [reflexivity | | lia].
      destruct Hl as [_ Hl]. rewrite Hl in Hoff by reflexivity. discriminate. }
    constructor; cbn; rewrite ?Hzero, ?length_app; cbn; try lia; try assumption;
      split; reflexivity.
  - apply Nat.ltb_lt in Hoff.
    assert (Hone : pending s = 1%nat) by lia.
    unfold settle.
    destruct outcome as [[|] statusText [errDataError|] |];
      constructor; cbn; rewrite ?Hone, ?length_app; cbn; try lia;
      try assumption;
      try (split; intros; discriminate);
      try (apply Forall_app; split; [assumption | now repeat constructor]).
Qed.

(** The login page moves on only after an accepted login.  Whatever
    happens, the only address it navigates to is the start page, at most
    one post is unanswered, and every navigation belongs to a post that
    was answered; an answer changes the navigations only if it is [ok],
    and every other answer, and every exception, leaves an error line that
    is not empty. *)
Theorem login_moves_on_only_after_success (events : list Event) :
  let s := run events initialState in
  Forall (fun path => path = "/") (pushed s)
  /\ (pending s <= 1)%nat
  /\ (length (pushed s) + pending s <= length (posts s))%nat
  /\ forall outcome,
       let s' := step s (Settle outcome) in
       (pushed s' <> pushed s ->
        exists statusText errData, outcome = Responded true statusText errData)
       /\ (offered s (Settle outcome) = true ->
           (forall statusText errData, outcome <> Responded true statusText errData) ->
           exists e, error s' = Some e /\ e <> "").
Proof.
  intros s.
  assert (Hrun : forall evs x, orderly x -> orderly (run evs x)).
  { induction evs as [|e evs IH]; intros x Hx; [assumption |].
    unfold run. cbn [fold_left]. apply IH. now apply orderly_step. }
  destruct (Hrun events initialState) as [Hp _ Hf Hc].
  { constructor; cbn; [lia | split; intros; discriminate | constructor | lia]. }
  fold s in Hp, Hf, Hc.
  split; [exact Hf | split; [exact Hp | split; [exact Hc |]]].
  intros outcome s'. unfold s', step.
  destruct (offered s (Settle outcome)) eqn:Hoff.
  - unfold settle. destruct outcome as [[|] statusText [errDataError|] |]; cbn.
    + split; [eauto |]. intros _ H. now destruct (H statusText (Some errDataError)).
    + split; [eauto |]. intros _ H. now destruct (H statusText None).
    + split; [intros H; now destruct H |]. intros _ _.
      eexists. split; [reflexivity | discriminate].
    + split; [intros H; now destruct H |]. intros _ _.
      eexists. split; [reflexivity | discriminate].
    + split; [intros H; now destruct H |]. intros _ _.
      eexists. split; [reflexivity | discriminate].
  - split; [intros H; now destruct H | discriminate].
Qed.

End LoginBehaviour.
